(** * zkLogin orchestration: salt service, proof broker and browser session

    A shallow embedding of the zkLogin flow of the repository:
    - the Express routes [/salt] and [/zkproof] of the server
      (zklogin.routes.ts), and
    - the browser helpers [prepareLogin], [completeZkLogin],
      [executeZkLoginTransaction], [zkLoginLogout] and friends of
      client/src/utils/zklogin.utils.ts,
    followed by the properties established about them.

    Browser storage is a finite map from keys to strings, the salt cache
    of the server is a finite map from subjects to salts, and effectful
    client code runs in a small state-and-exception monad that records
    every request leaving the browser.

    The development then goes on to the rest of the code: the remaining
    helpers of zklogin.utils.ts, the routes [/epoch] and
    [/email-salt-backup], the browser run against all four routes of the
    server, the component ZkLoginAuth, the script that formats a Groth16
    proof for Sui, and the Move modules [contract::contract] and
    [zk_login::kyc_auth]. *)

From Stdlib Require Import ZArith List Bool Lia.
From Stdlib Require Import Strings.Ascii Strings.String Strings.Byte.
From Stdlib Require Import Numbers.DecimalString Numbers.DecimalZ.
From Stdlib Require Numbers.HexadecimalString Numbers.HexadecimalZ.
From Stdlib Require Numbers.HexadecimalPos Numbers.HexadecimalN Numbers.HexadecimalFacts.
From stdpp Require Import base option strings list gmap.

Set Warnings "-register-all".

#[local] Open Scope string_scope.
#[local] Open Scope Z_scope.

(* ===================================================================== *)
(** * JavaScript values                                                   *)
(* ===================================================================== *)

Module JS.

(** Values that JSON can carry.  Numbers are restricted to integers (every
    number the flow handles is an epoch, a status or a timestamp); an
    object is the list of its own properties. *)
Inductive JSON : Type :=
| JNull
| JBool (b : bool)
| JNum (n : Z)
| JStr (s : string)
| JArr (items : list JSON)
| JObj (fields : list (string * JSON)).

(** A JavaScript value as read from a property: [None] is [undefined]. *)
Abbreviation JSValue := (option JSON).

(** A thrown value: an [Error] instance with its message, or anything
    else. *)
Inductive Exn : Type :=
| Error (message : string)
| NonError.

(** The double-quote character, as a string. *)
Definition dquote : string := String (ascii_of_nat 34) EmptyString.

(** [error instanceof Error ? error.message : fallback]. *)
Definition message_or (fallback : string) (e : Exn) : string :=
  match e with
  | Error m => m
  | NonError => fallback
  end.

(** Numbers produced by [Number(...)]: an integer or [NaN]. *)
Inductive JSNumber : Type :=
| Num (n : Z)
| NaN.

(** ToBoolean. *)
Definition truthy (v : JSValue) : bool :=
  match v with
  | None => false
  | Some JNull => false
  | Some (JBool b) => b
  | Some (JNum n) => negb (n =? 0)
  | Some (JStr s) => negb (String.eqb s "")
  | Some (JArr _) => true
  | Some (JObj _) => true
  end.

(** [!s] for a value of type [string | null], as returned by
    [Storage.getItem]. *)
Definition falsy_item (o : option string) : bool :=
  match o with
  | None => true
  | Some s => String.eqb s ""
  end.

Fixpoint lookup_field (k : string) (fs : list (string * JSON)) : JSValue :=
  match fs with
  | [] => None
  | (k', v) :: rest => if String.eqb k k' then Some v else lookup_field k rest
  end.

(** Property read [v.k] on a value that is not [null], for a name that is
    no built-in property: [undefined] on every non-object. *)
Definition field (v : JSON) (k : string) : JSValue :=
  match v with
  | JObj fs => lookup_field k fs
  | _ => None
  end.

(** Property read [v.k] in general: a [TypeError] on [null]. *)
Definition prop (v : JSON) (k : string) : Exn + JSValue :=
  match v with
  | JNull => inl (Error ("Cannot read properties of null (reading '" ++ k ++ "')"))
  | _ => inr (field v k)
  end.

(** An object literal on its way through [JSON.stringify]: properties whose
    value is [undefined] are left out. *)
Fixpoint object_fields (fs : list (string * JSValue)) : list (string * JSON) :=
  match fs with
  | [] => []
  | (k, Some v) :: rest => (k, v) :: object_fields rest
  | (_, None) :: rest => object_fields rest
  end.

(** [typeof v === 'string']. *)
Definition is_string (v : JSValue) : bool :=
  match v with
  | Some (JStr _) => true
  | _ => false
  end.

(** [list.includes(v)] for a list of strings. *)
Definition includes (l : list string) (v : JSValue) : bool :=
  match v with
  | Some (JStr s) => existsb (String.eqb s) l
  | _ => false
  end.

(** [Array.isArray(v) ? v[0] : v]. *)
Definition first_if_array (v : JSValue) : JSValue :=
  match v with
  | Some (JArr items) => head items
  | _ => v
  end.

(** Decimal rendering of an integer ([BigInt.prototype.toString],
    [Number.prototype.toString] on integers). *)
Definition dec (n : Z) : string := NilZero.string_of_int (Z.to_int n).

Definition number_to_string (x : JSNumber) : string :=
  match x with
  | Num n => dec n
  | NaN => "NaN"
  end.

Fixpoint join (sep : string) (parts : list string) : string :=
  match parts with
  | [] => ""
  | [p] => p
  | p :: rest => p ++ sep ++ join sep rest
  end.

(** ToString on a JSON value: arrays join their elements with a comma and
    render [null] elements as the empty string. *)
Fixpoint to_string (v : JSON) : string :=
  match v with
  | JNull => "null"
  | JBool true => "true"
  | JBool false => "false"
  | JNum n => dec n
  | JStr s => s
  | JArr items =>
      join "," (List.map (fun x => match x with JNull => "" | _ => to_string x end) items)
  | JObj _ => "[object Object]"
  end.

(** ToString on a possibly undefined value (template literals,
    [Storage.setItem]). *)
Definition value_to_string (v : JSValue) : string :=
  match v with
  | None => "undefined"
  | Some j => to_string j
  end.

(** ** Numeric literals *)

Definition is_whitespace (c : ascii) : bool :=
  let n := nat_of_ascii c in
  ((9 <=? n)%nat && (n <=? 13)%nat) || (n =? 32)%nat.

(** No character of [s] is white space. *)
Fixpoint no_whitespace (s : string) : bool :=
  match s with
  | EmptyString => true
  | String c rest => negb (is_whitespace c) && no_whitespace rest
  end.

Fixpoint trim_start (s : string) : string :=
  match s with
  | String c rest => if is_whitespace c then trim_start rest else s
  | EmptyString => EmptyString
  end.

Fixpoint trim_end (s : string) : string :=
  match s with
  | String c rest =>
      match trim_end rest with
      | EmptyString => if is_whitespace c then EmptyString else String c EmptyString
      | kept => String c kept
      end
  | EmptyString => EmptyString
  end.

Definition trim (s : string) : string := trim_end (trim_start s).

(** Value of a digit character, for radices up to 16. *)
Definition digit_value (c : ascii) : option Z :=
  let n := Z.of_nat (nat_of_ascii c) in
  if (48 <=? n) && (n <=? 57) then Some (n - 48)
  else if (97 <=? n) && (n <=? 102) then Some (n - 87)
  else if (65 <=? n) && (n <=? 70) then Some (n - 55)
  else None.

Fixpoint digits_from (radix acc : Z) (s : string) : option Z :=
  match s with
  | EmptyString => Some acc
  | String c rest =>
      match digit_value c with
      | Some d => if d <? radix then digits_from radix (radix * acc + d) rest else None
      | None => None
      end
  end.

(** The value of a decimal numeral read after the digits worth [acc]. *)
Fixpoint uint_value (d : Decimal.uint) (acc : Z) : Z :=
  match d with
  | Decimal.Nil => acc
  | Decimal.D0 d => uint_value d (10 * acc)
  | Decimal.D1 d => uint_value d (10 * acc + 1)
  | Decimal.D2 d => uint_value d (10 * acc + 2)
  | Decimal.D3 d => uint_value d (10 * acc + 3)
  | Decimal.D4 d => uint_value d (10 * acc + 4)
  | Decimal.D5 d => uint_value d (10 * acc + 5)
  | Decimal.D6 d => uint_value d (10 * acc + 6)
  | Decimal.D7 d => uint_value d (10 * acc + 7)
  | Decimal.D8 d => uint_value d (10 * acc + 8)
  | Decimal.D9 d => uint_value d (10 * acc + 9)
  end.

(** A non-empty run of digits in the given radix. *)
Definition digits (radix : Z) (s : string) : option Z :=
  match s with
  | EmptyString => None
  | _ => digits_from radix 0 s
  end.

(** StringToBigInt: [BigInt(s)] is [Some n], or [None] where it throws a
    [SyntaxError].  Surrounding ASCII white space is ignored, the empty
    string is zero, a radix prefix takes no sign. *)
Definition integer_literal (s : string) : option Z :=
  match trim s with
  | EmptyString => Some 0
  | String "0" (String "x" ds) | String "0" (String "X" ds) => digits 16 ds
  | String "0" (String "o" ds) | String "0" (String "O" ds) => digits 8 ds
  | String "0" (String "b" ds) | String "0" (String "B" ds) => digits 2 ds
  | String "-" ds => option_map Z.opp (digits 10 ds)
  | String "+" ds => digits 10 ds
  | ds => digits 10 ds
  end.

Definition BigInt (s : string) : Exn + Z :=
  match integer_literal s with
  | Some n => inr n
  | None => inl (Error ("Cannot convert " ++ s ++ " to a BigInt"))
  end.

(** StringToNumber on integer literals; every other string is [NaN]
    (fractions, exponents and infinities are outside this model). *)
Definition Number_of_string (s : string) : JSNumber :=
  match integer_literal s with
  | Some n => Num n
  | None => NaN
  end.

(** ToNumber. *)
Definition Number (v : JSValue) : JSNumber :=
  match v with
  | None => NaN
  | Some JNull => Num 0
  | Some (JBool b) => Num (if b then 1 else 0)
  | Some (JNum n) => Num n
  | Some (JStr s) => Number_of_string s
  | Some (JArr items) => Number_of_string (to_string (JArr items))
  | Some (JObj _) => NaN
  end.

Definition number_add (x : JSNumber) (k : Z) : JSNumber :=
  match x with
  | Num n => Num (n + k)
  | NaN => NaN
  end.

Definition number_mul (x : JSNumber) (k : Z) : JSNumber :=
  match x with
  | Num n => Num (n * k)
  | NaN => NaN
  end.

(** Largest integer below which every integer is an exact double. *)
Definition MAX_SAFE_INTEGER : Z := 2 ^ 53 - 1.

(** [new Date(ms).toISOString()] throws a [RangeError] exactly when [ms] is
    [NaN] or beyond 8.64e15 in magnitude. *)
Definition valid_time (ms : JSNumber) : bool :=
  match ms with
  | Num n => Z.abs n <=? 8640000000000000
  | NaN => false
  end.

(** ** Bytes and hexadecimal *)

Definition hex_digit (n : N) : ascii :=
  ascii_of_N (if (n <? 10)%N then 48 + n else 87 + n)%N.

(** [Buffer.toString('hex')]: two lower-case digits per byte. *)
Fixpoint hex_of_bytes (bs : list byte) : string :=
  match bs with
  | [] => EmptyString
  | b :: rest =>
      let n := Byte.to_N b in
      String (hex_digit (n / 16)) (String (hex_digit (n mod 16)) (hex_of_bytes rest))
  end.

(** Big-endian value of a byte string. *)
Definition be_value (bs : list byte) : Z :=
  fold_left (fun acc b => 256 * acc + Z.of_N (Byte.to_N b)) bs 0.

(** ** The runtime's JSON codec and HTTP responses *)

(** [JSON.stringify] and [JSON.parse] ([inl] is the [SyntaxError]). *)
Class JsonCodec : Type := {
  JSON_stringify : JSON -> string;
  JSON_parse : string -> Exn + JSON;
}.

(** What [fetch] resolves to. *)
Record Response : Type := mkResponse {
  ok : bool;
  status : Z;
  statusText : string;
  text : string;
}.

(** [response.json()]. *)
Definition json `{JsonCodec} (r : Response) : Exn + JSON := JSON_parse (text r).

End JS.

(* ===================================================================== *)
(** * The server routes (zklogin.routes.ts)                               *)
(* ===================================================================== *)

Module Server.
Import JS.

(** A SHA-256 digest is 32 bytes long. *)
Record Digest : Type := mkDigest {
  digest_bytes : list byte;
  digest_length : length digest_bytes = 32%nat;
}.

(** The packages the routes call: jsonwebtoken's [decode] (the payload, or
    [null] for a token it cannot read) and [crypto.createHmac('sha256', key)
    .update(data).digest()]. *)
Class NodeLibs : Type := {
  jwt_decode : string -> Exn + JSON;
  hmac_sha256 : string -> string -> Digest;
}.

(** [config] of config/sui.config.ts together with the environment
    variable the salt route reads. *)
Record Config : Type := mkConfig {
  CLIENT_ID : string;
  proverUrl : string;
  SALT_MASTER_SECRET : option string;
}.

(** [res.status(status).json(payload)]. *)
Record Reply : Type := mkReply {
  reply_status : Z;
  reply_body : JSON;
}.

Definition WHITELISTED_CLIENT_IDS (cfg : Config) : list string := [CLIENT_ID cfg].

Section Routes.
Context `{JsonCodec} `{NodeLibs} (cfg : Config).

(** The 403 replies of the salt route. *)
Definition salt_service_error (reason : string) : Reply :=
  mkReply 403
    (JObj [("error", JStr "Salt service error");
           ("details", JStr (JSON_stringify (JObj [("error", JStr reason)])))]).

(** The outer [catch] of a route. *)
Definition internal_error (fallback : string) (e : Exn) : Reply :=
  mkReply 500 (JObj [("error", JStr (message_or fallback e))]).

(** [token.split('.').length]. *)
Fixpoint parts (s : string) : Z :=
  match s with
  | EmptyString => 1
  | String c rest => if Ascii.eqb c "." then 1 + parts rest else parts rest
  end.

(** Lines 62-81: decode the claims; the [catch] turns a [null] payload, a
    throwing decoder and a throwing log line (the expiry rendered with
    [toISOString]) into [None]. *)
Definition decode_claims (token : string) : option JSON :=
  match jwt_decode token with
  | inl _ => None
  | inr decoded =>
      if negb (truthy (Some decoded)) then None
      else
        let exp := field decoded "exp" in
        if truthy exp && negb (valid_time (number_mul (Number exp) 1000))
        then None
        else Some decoded
  end.

(** [process.env.SALT_MASTER_SECRET || '...']. *)
Definition masterSecret : string :=
  match SALT_MASTER_SECRET cfg with
  | Some s => if String.eqb s "" then "your-dev-master-secret-change-in-prod" else s
  | None => "your-dev-master-secret-change-in-prod"
  end.

(** Lines 115-122: HMAC-SHA256 of the subject under the master secret, the
    first 16 bytes read as a big-endian integer, in decimal. *)
Definition derive_salt (userSub : string) : Exn + string :=
  let hash := digest_bytes (hmac_sha256 masterSecret userSub) in
  let saltBytes := firstn 16 hash in
  match BigInt ("0x" ++ hex_of_bytes saltBytes) with
  | inl e => inl e
  | inr saltBigInt => inr (dec saltBigInt)
  end.

(** [router.post('/salt')]: the reply and the cache [userSalts] after the
    request. *)
Definition salt_route (userSalts : gmap string string) (body : JSON)
  : Reply * gmap string string :=
  match prop body "token" with
  | inl e => (internal_error "Internal server error" e, userSalts)
  | inr token =>
      if truthy token && negb (is_string token)
      then (internal_error "Internal server error"
              (Error "token.substring is not a function"), userSalts)
      else
        match token with
        | Some (JStr tok) =>
            if String.eqb tok "" || negb (parts tok =? 3)
            then (salt_service_error "Invalid JWT format", userSalts)
            else
              match decode_claims tok with
              | None => (salt_service_error "Invalid JWT", userSalts)
              | Some decoded =>
                  if negb (truthy (field decoded "sub"))
                  then (salt_service_error "Missing user subject (sub)", userSalts)
                  else
                    let normalizedAud := first_if_array (field decoded "aud") in
                    if negb (truthy normalizedAud)
                       || negb (includes (WHITELISTED_CLIENT_IDS cfg) normalizedAud)
                    then (salt_service_error "Invalid Client ID", userSalts)
                    else
                      match field decoded "sub" with
                      | Some (JStr userSub) =>
                          match userSalts !! userSub with
                          | Some cached =>
                              (mkReply 200 (JObj [("salt", JStr cached)]), userSalts)
                          | None =>
                              match derive_salt userSub with
                              | inl e =>
                                  (internal_error "Internal server error" e, userSalts)
                              | inr salt =>
                                  (mkReply 200 (JObj [("salt", JStr salt)]),
                                   <[userSub := salt]> userSalts)
                              end
                          end
                      | _ =>
                          (internal_error "Internal server error"
                             (Error ("The " ++ dquote ++ "data" ++ dquote
                                     ++ " argument must be of type string")),
                           userSalts)
                      end
              end
        | _ => (salt_service_error "Invalid JWT format", userSalts)
        end
  end.

(** The cache after a sequence of requests, oldest first. *)
Definition serve_salts (userSalts : gmap string string) (bodies : list JSON)
  : gmap string string :=
  fold_left (fun cache body => snd (salt_route cache body)) bodies userSalts.

(** A request sent to the external prover. *)
Inductive ProverCall : Type :=
| ProverPost (url : string) (payload : JSON).

(** [router.post('/zkproof')]: the reply and the calls made to the prover. *)
Definition zkproof_route (prover : ProverCall -> Exn + Response) (body : JSON)
  : Reply * list ProverCall :=
  let fail e := internal_error "Unknown error" e in
  match prop body "jwt" with
  | inl e => (fail e, [])
  | inr jwt =>
      let extendedEphemeralPublicKey := field body "extendedEphemeralPublicKey" in
      let maxEpoch := field body "maxEpoch" in
      let jwtRandomness := field body "jwtRandomness" in
      let salt := field body "salt" in
      if negb (truthy jwt) || negb (truthy extendedEphemeralPublicKey)
         || negb (truthy maxEpoch) || negb (truthy jwtRandomness)
         || negb (truthy salt)
      then (mkReply 400 (JObj [("error", JStr "Missing required fields")]), [])
      else if negb (is_string jwt)
      then (fail (Error "jwt.substring is not a function"), [])
      else
        let payload :=
          JObj (object_fields
                  [("jwt", jwt);
                   ("extendedEphemeralPublicKey", extendedEphemeralPublicKey);
                   ("maxEpoch", maxEpoch);
                   ("jwtRandomness", jwtRandomness);
                   ("salt", salt);
                   ("keyClaimName", Some (JStr "sub"))]) in
        let call := ProverPost (proverUrl cfg) payload in
        match prover call with
        | inl e => (fail e, [call])
        | inr response =>
            if negb (ok response)
            then
              (fail (Error ("Prover service error: " ++ statusText response
                            ++ " - " ++ text response)), [call])
            else
              match json response with
              | inl e => (fail e, [call])
              | inr zkProof => (mkReply 200 zkProof, [call])
              end
        end
  end.

End Routes.

End Server.

(* ===================================================================== *)
(** * The browser helpers (client/src/utils/zklogin.utils.ts)             *)
(* ===================================================================== *)

Module Client.
Import JS.

Inductive Keypair : Type := Ed25519Keypair (material : string).
Inductive PublicKey : Type := Ed25519PublicKey (material : string).

(** The functions imported from the Sui SDK and from jwt-decode; [inl] is
    a thrown exception. *)
Class ZkLoginSdk : Type := {
  jwtDecode : string -> Exn + JSON;
  getSecretKey : Keypair -> string;
  fromSecretKey : string -> Exn + Keypair;
  getPublicKey : Keypair -> PublicKey;
  generateNonce : PublicKey -> JSNumber -> string -> Exn + string;
  jwtToAddress : string -> JSValue -> Exn + string;
  getExtendedEphemeralPublicKey : PublicKey -> Exn + string;
  genAddressSeed : Z -> string -> JSValue -> JSValue -> Exn + Z;
  getZkLoginSignature : JSON -> string -> string -> Exn + string;
}.

(** A transaction block: its commands, and the sender once set. *)
Record Transaction : Type := mkTransaction {
  commands : string;
  sender : option string;
}.

Definition setSender (address : string) (tx : Transaction) : Transaction :=
  mkTransaction (commands tx) (Some address).

(** Every request that leaves the browser: the four endpoints of the
    server, and the two uses of [suiClient] ([transactionBlock.sign] builds
    the transaction through it, [executeTransactionBlock] submits). *)
Inductive Call : Type :=
| FetchEpoch
| FetchSalt (token : string)
| FetchZkProof (jwt extendedEphemeralPublicKey : string) (maxEpoch : JSNumber)
    (jwtRandomness : string) (salt : JSValue)
| FetchSaltBackup (userSub userEmail userSalt : JSValue) (timestamp : string)
| SignTransaction (tx : Transaction) (signer : Keypair)
| ExecuteTransactionBlock (bytes signature : string).

(** What the outside world answers during one run: the HTTP endpoints, the
    full node behind [suiClient], the random sources and the clock. *)
Record Env : Type := mkEnv {
  fetch_response : Call -> Exn + Response;
  sign_response : Transaction -> Keypair -> Exn + (string * string);
  execute_response : string -> string -> Exn + JSON;
  new_Ed25519Keypair : Keypair;
  generateRandomness : string;
  now_ISOString : string;
}.

(** [REDIRECT_URL] and [CLIENT_ID] of config/sui.config.ts, read from
    [import.meta.env]. *)
Record ViteEnv : Type := mkViteEnv {
  REDIRECT_URL : string;
  CLIENT_ID : string;
}.

(** [SESSION_KEYS]. *)
Definition EPHEMERAL_PRIVATE_KEY : string := "ephemeral_private_key".
Definition MAX_EPOCH : string := "max_epoch".
Definition RANDOMNESS : string := "randomness".
Definition NONCE : string := "nonce".
Definition ZK_PROOF : string := "zk_proof".
Definition USER_SALT : string := "user_salt".
Definition DECODED_JWT : string := "decoded_jwt".
Definition ZKLOGIN_ADDRESS : string := "zklogin_address".
Definition SALT_BACKUP_SENT : string := "salt_backup_sent".

(** [Object.values(SESSION_KEYS)]. *)
Definition SESSION_KEYS : list string :=
  [EPHEMERAL_PRIVATE_KEY; MAX_EPOCH; RANDOMNESS; NONCE; ZK_PROOF; USER_SALT;
   DECODED_JWT; ZKLOGIN_ADDRESS; SALT_BACKUP_SENT].

(** The browser: both storage areas and the requests sent so far, oldest
    first.  Writes to storage are taken to succeed (no quota error). *)
Record Browser : Type := mkBrowser {
  sessionStorage : gmap string string;
  localStorage : gmap string string;
  calls : list Call;
}.

(** ** A monad for state and exceptions *)

Inductive Outcome (A : Type) : Type :=
| Returned (a : A)
| Thrown (e : Exn).
Arguments Returned {A} a.
Arguments Thrown {A} e.

Definition M (A : Type) : Type := Browser -> Outcome A * Browser.

Definition ret {A} (a : A) : M A := fun b => (Returned a, b).

Definition throw {A} (e : Exn) : M A := fun b => (Thrown e, b).

Definition bind {A B} (m : M A) (k : A -> M B) : M B :=
  fun b =>
    match m b with
    | (Returned a, b') => k a b'
    | (Thrown e, b') => (Thrown e, b')
    end.

(** [try { m } catch (error) { handler error }]. *)
Definition try_catch {A} (m : M A) (handler : Exn -> M A) : M A :=
  fun b =>
    match m b with
    | (Returned a, b') => (Returned a, b')
    | (Thrown e, b') => handler e b'
    end.

(** A library call that may throw. *)
Definition lift {A} (r : Exn + A) : M A :=
  match r with
  | inl e => throw e
  | inr a => ret a
  end.

Notation "'let!' x := m 'in' k" := (bind m (fun x => k))
  (at level 10, x name, m at level 100, k at level 200).
Notation "'do!' m 'in' k" := (bind m (fun _ => k))
  (at level 10, m at level 100, k at level 200).

Definition getItem (key : string) : M (option string) :=
  fun b => (Returned (sessionStorage b !! key), b).

Definition setItem (key value : string) : M unit :=
  fun b => (Returned tt,
            mkBrowser (<[key := value]> (sessionStorage b)) (localStorage b) (calls b)).

Definition removeItem (key : string) : M unit :=
  fun b => (Returned tt,
            mkBrowser (delete key (sessionStorage b)) (localStorage b) (calls b)).

Definition localStorage_getItem (key : string) : M (option string) :=
  fun b => (Returned (localStorage b !! key), b).

Definition localStorage_setItem (key value : string) : M unit :=
  fun b => (Returned tt,
            mkBrowser (sessionStorage b) (<[key := value]> (localStorage b)) (calls b)).

Definition record (c : Call) : M unit :=
  fun b => (Returned tt, mkBrowser (sessionStorage b) (localStorage b) (calls b ++ [c])).

(** [a === b] for [a : string | null] and an arbitrary [b]. *)
Definition strict_eq (a : option string) (b : JSValue) : bool :=
  match a, b with
  | None, Some JNull => true
  | Some s, Some (JStr t) => String.eqb s t
  | _, _ => false
  end.

(** [{ ...v }]: the own enumerable properties of [v]. *)
Fixpoint indexed (i : nat) (items : list JSON) : list (string * JSON) :=
  match items with
  | [] => []
  | x :: rest => (dec (Z.of_nat i), x) :: indexed (S i) rest
  end.

Fixpoint characters (s : string) : list JSON :=
  match s with
  | EmptyString => []
  | String c rest => JStr (String c EmptyString) :: characters rest
  end.

Definition spread (v : JSON) : list (string * JSON) :=
  match v with
  | JObj fs => fs
  | JArr items => indexed 0 items
  | JStr s => indexed 0 (characters s)
  | _ => []
  end.

(** [{ ...fs, k: v }]. *)
Fixpoint with_property (k : string) (v : JSON) (fs : list (string * JSON))
  : list (string * JSON) :=
  match fs with
  | [] => [(k, v)]
  | (k', v') :: rest =>
      if String.eqb k k' then (k, v) :: rest else (k', v') :: with_property k v rest
  end.

(** The URL returned by [prepareLogin], before it is rendered. *)
Record Url : Type := mkUrl {
  href : string;
  searchParams : list (string * string);
}.

Section Helpers.
Context `{JsonCodec} `{ZkLoginSdk} (cfg : ViteEnv) (env : Env).

(** [await fetch(...)]. *)
Definition fetch (c : Call) : M Response :=
  do! record c in lift (fetch_response env c).

(** Step 1: prepare login (ephemeral key and nonce) and return the Google
    OAuth URL. *)
Definition prepareLogin : M Url :=
  try_catch
    (let! response := fetch FetchEpoch in
     if negb (ok response) then throw (Error "Failed to fetch epoch info")
     else
       let! epochInfo := lift (json response) in
       let! epoch := lift (prop epochInfo "epoch") in
       let maxEpoch := number_add (Number epoch) 2 in
       let ephemeralKeyPair := new_Ed25519Keypair env in
       let ephemeralSecretKey := getSecretKey ephemeralKeyPair in
       do! setItem EPHEMERAL_PRIVATE_KEY ephemeralSecretKey in
       let randomness := generateRandomness env in
       let! nonce := lift (generateNonce (getPublicKey ephemeralKeyPair) maxEpoch randomness) in
       do! setItem MAX_EPOCH (number_to_string maxEpoch) in
       do! setItem RANDOMNESS randomness in
       do! setItem NONCE nonce in
       ret (mkUrl "https://accounts.google.com/o/oauth2/v2/auth"
              [("client_id", CLIENT_ID cfg);
               ("response_type", "id_token");
               ("redirect_uri", REDIRECT_URL cfg);
               ("scope", "openid");
               ("nonce", nonce)]))
    (fun error =>
       throw (Error ("Failed to prepare login: " ++ message_or "Unknown error" error))).

(** Send the salt backup email for wallet recovery. *)
Definition sendSaltBackupEmail (userSalt userSub userEmail : JSValue) : M unit :=
  try_catch
    (let! response := fetch (FetchSaltBackup userSub userEmail userSalt (now_ISOString env)) in
     if negb (ok response)
     then throw (Error ("Email service returned " ++ dec (status response)))
     else
       let! result := lift (json response) in
       ret tt)
    (fun error => throw error).

(** Lines 167-174: the detail shown when the salt request is refused. *)
Definition salt_error_details (errorText : string) : JSValue :=
  match JSON_parse errorText with
  | inl _ => Some (JStr errorText)
  | inr errorData =>
      match prop errorData "details" with
      | inl _ => Some (JStr errorText)
      | inr details =>
          if truthy details
          then
            match JSON_parse (value_to_string details) with
            | inl _ => Some (JStr errorText)
            | inr inner =>
                match prop inner "error" with
                | inl _ => Some (JStr errorText)
                | inr detail => detail
                end
            end
          else field errorData "error"
      end
  end.

(** Step 2: handle the OAuth callback and complete the zkLogin set-up. *)
Definition completeZkLogin (encodedJWT : string) : M (string * JSON) :=
  try_catch
    (let! decodedJwt := lift (jwtDecode encodedJWT) in
     do! lift (prop decodedJwt "aud") in
     let! ephemeralPrivateKeyStr := getItem EPHEMERAL_PRIVATE_KEY in
     let! maxEpoch := getItem MAX_EPOCH in
     let! randomness := getItem RANDOMNESS in
     let! storedNonce := getItem NONCE in
     if falsy_item ephemeralPrivateKeyStr || falsy_item maxEpoch || falsy_item randomness
     then throw (Error "Missing session data. Please login again.")
     else
       let ephemeralPrivateKeyStr := default "" ephemeralPrivateKeyStr in
       let maxEpoch := default "" maxEpoch in
       let randomness := default "" randomness in
       if negb (strict_eq storedNonce (field decodedJwt "nonce"))
       then throw (Error "Nonce mismatch. Please try logging in again.")
       else
         let! ephemeralKeyPair := lift (fromSecretKey ephemeralPrivateKeyStr) in
         let! verifyNonce := lift (generateNonce (getPublicKey ephemeralKeyPair)
                                (Number_of_string maxEpoch) randomness) in
         if negb (strict_eq (Some verifyNonce) (field decodedJwt "nonce"))
         then throw (Error "Ephemeral key mismatch. Please try logging in again.")
         else
           let! saltResponse := fetch (FetchSalt encodedJWT) in
           let! userSalt :=
             (if ok saltResponse
              then
                let! data := lift (json saltResponse) in
                lift (prop data "salt")
              else
                let errorDetails := salt_error_details (text saltResponse) in
                throw (Error ("Failed to fetch user salt: "
                              ++ value_to_string errorDetails))) in
           do! setItem USER_SALT (value_to_string userSalt) in
           do! localStorage_setItem
             ("zklogin_salt_" ++ value_to_string (field decodedJwt "sub"))
             (value_to_string userSalt) in
           let! saltBackupSent := getItem SALT_BACKUP_SENT in
           do! (if falsy_item saltBackupSent && truthy (field decodedJwt "sub")
            then
              try_catch
                (let userEmail :=
                   if truthy (field decodedJwt "email")
                   then field decodedJwt "email" else Some (JStr "") in
                 do! sendSaltBackupEmail userSalt (field decodedJwt "sub") userEmail in
                 setItem SALT_BACKUP_SENT "true")
                (fun emailError => ret tt)
            else ret tt) in
           let! zkLoginUserAddress := lift (jwtToAddress encodedJWT userSalt) in
           let! extendedEphemeralPublicKey :=
             lift (getExtendedEphemeralPublicKey (getPublicKey ephemeralKeyPair)) in
           let! proofResponse :=
             fetch (FetchZkProof encodedJWT extendedEphemeralPublicKey
                      (Number_of_string maxEpoch) randomness userSalt) in
           if negb (ok proofResponse)
           then throw (Error ("Failed to generate ZK proof: " ++ text proofResponse))
           else
             let! partialZkLoginSignature := lift (json proofResponse) in
             do! setItem ZK_PROOF (JSON_stringify partialZkLoginSignature) in
             do! setItem USER_SALT (value_to_string userSalt) in
             do! setItem DECODED_JWT (JSON_stringify decodedJwt) in
             do! setItem ZKLOGIN_ADDRESS zkLoginUserAddress in
             ret (zkLoginUserAddress, decodedJwt))
    (fun error =>
       throw (Error ("Failed to complete zkLogin: " ++ message_or "Unknown error" error))).

(** Lines 284-294: the address seed, from the stored claims and salt. *)
Definition address_seed (decodedJwt : JSON) (userSalt : string) : Exn + string :=
  match prop decodedJwt "aud" with
  | inl e => inl e
  | inr audClaim =>
      let aud := first_if_array audClaim in
      if negb (truthy aud)
      then inl (Error ("JWT " ++ dquote ++ "aud" ++ dquote ++ " claim is missing"))
      else
        match BigInt userSalt with
        | inl e => inl e
        | inr salt =>
            match genAddressSeed salt "sub" (field decodedJwt "sub") aud with
            | inl e => inl e
            | inr seed => inr (dec seed)
            end
        end
  end.

(** Sign a transaction block with the session and submit it. *)
Definition executeZkLoginTransaction (transactionBlock : Transaction) : M JSON :=
  try_catch
    (let! ephemeralPrivateKeyStr := getItem EPHEMERAL_PRIVATE_KEY in
     let! maxEpoch := getItem MAX_EPOCH in
     let! zkProofStr := getItem ZK_PROOF in
     let! userSalt := getItem USER_SALT in
     let! decodedJwtStr := getItem DECODED_JWT in
     let! zkLoginAddress := getItem ZKLOGIN_ADDRESS in
     if falsy_item ephemeralPrivateKeyStr || falsy_item zkProofStr || falsy_item userSalt
        || falsy_item decodedJwtStr || falsy_item maxEpoch
     then throw (Error "Missing zkLogin session data. Please login again.")
     else
       let ephemeralPrivateKeyStr := default "" ephemeralPrivateKeyStr in
       let maxEpoch := default "" maxEpoch in
       let zkProofStr := default "" zkProofStr in
       let userSalt := default "" userSalt in
       let decodedJwtStr := default "" decodedJwtStr in
       let! zkProof := lift (JSON_parse zkProofStr) in
       let! decodedJwt := lift (JSON_parse decodedJwtStr) in
       let! ephemeralKeyPair := lift (fromSecretKey ephemeralPrivateKeyStr) in
       if falsy_item zkLoginAddress
       then throw (Error "zkLogin address not found")
       else
         let transactionBlock := setSender (default "" zkLoginAddress) transactionBlock in
         do! record (SignTransaction transactionBlock ephemeralKeyPair) in
         let! signed := lift (sign_response env transactionBlock ephemeralKeyPair) in
         let bytes := fst signed in
         let userSignature := snd signed in
         let! addressSeed := lift (address_seed decodedJwt userSalt) in
         let inputs := JObj (with_property "addressSeed" (JStr addressSeed) (spread zkProof)) in
         let! zkLoginSignature := lift (getZkLoginSignature inputs maxEpoch userSignature) in
         do! record (ExecuteTransactionBlock bytes zkLoginSignature) in
         let! result := lift (execute_response env bytes zkLoginSignature) in
         ret result)
    (fun error =>
       throw (Error ("Failed to execute transaction: " ++ message_or "Unknown error" error))).

(** Utility: is there an active zkLogin session? *)
Definition isZkLoginSessionActive : M bool :=
  let! address := getItem ZKLOGIN_ADDRESS in
  ret (bool_decide (address <> None)).

(** Utility: the current zkLogin address. *)
Definition getZkLoginAddress : M (option string) :=
  getItem ZKLOGIN_ADDRESS.

(** Utility: log out and clear the session. *)
Fixpoint removeItems (keys : list string) : M unit :=
  match keys with
  | [] => ret tt
  | key :: rest => do! removeItem key in removeItems rest
  end.

Definition zkLoginLogout : M unit := removeItems SESSION_KEYS.

(** Recover the salt from browser storage. *)
Definition recoverSaltFromStorage (userSub : string) : M (option string) :=
  localStorage_getItem ("zklogin_salt_" ++ userSub).

End Helpers.

End Client.

(* ===================================================================== *)
(** * The browser talking to the server                                   *)
(* ===================================================================== *)

Module Deployment.
Import JS.

(** What [fetch] makes of [res.status(...).json(...)]. *)
Definition response_of_reply `{JsonCodec} (r : Server.Reply) : Response :=
  let code := Server.reply_status r in
  mkResponse ((200 <=? code) && (code <=? 299)) code
    (if code =? 200 then "OK"
     else if code =? 400 then "Bad Request"
     else if code =? 403 then "Forbidden"
     else "Internal Server Error")
    (JSON_stringify (Server.reply_body r)).

(** The body of [POST /zklogin/salt] as [express.json()] hands it to the
    route. *)
Definition salt_request (token : string) : JSON := JObj [("token", JStr token)].

(** An environment whose salt endpoint is the route of this repository,
    holding the cache [userSalts]; everything else is answered by [env]. *)
Definition with_salt_route `{JsonCodec} `{Server.NodeLibs}
    (cfg : Server.Config) (userSalts : gmap string string) (env : Client.Env)
  : Client.Env :=
  Client.mkEnv
    (fun c =>
       match c with
       | Client.FetchSalt token =>
           inr (response_of_reply (fst (Server.salt_route cfg userSalts (salt_request token))))
       | _ => Client.fetch_response env c
       end)
    (Client.sign_response env)
    (Client.execute_response env)
    (Client.new_Ed25519Keypair env)
    (Client.generateRandomness env)
    (Client.now_ISOString env).

(** An environment whose backup endpoint answers [backup]; everything else
    is answered by [env]. *)
Definition with_backup_response (backup : Client.Call -> Exn + Response)
    (env : Client.Env) : Client.Env :=
  Client.mkEnv
    (fun c =>
       match c with
       | Client.FetchSaltBackup _ _ _ _ => backup c
       | _ => Client.fetch_response env c
       end)
    (Client.sign_response env)
    (Client.execute_response env)
    (Client.new_Ed25519Keypair env)
    (Client.generateRandomness env)
    (Client.now_ISOString env).

End Deployment.

(* ===================================================================== *)
(** * A small concrete world                                              *)
(* ===================================================================== *)

(** Concrete stand-ins for the packages and for the outside world, used
    to run the flow on explicit inputs. *)
Module Sample.
Import JS.

(** A JSON printer (strings without escapes). *)
Fixpoint render (v : JSON) : string :=
  match v with
  | JNull => "null"
  | JBool true => "true"
  | JBool false => "false"
  | JNum n => dec n
  | JStr s => dquote ++ s ++ dquote
  | JArr items => "[" ++ join "," (List.map render items) ++ "]"
  | JObj fields =>
      "{" ++ join ","
               (List.map (fun '(k, x) => dquote ++ k ++ dquote ++ ":" ++ render x) fields)
          ++ "}"
  end.

(** A parser that recognises the printed form of the given documents. *)
Definition parse_among (documents : list JSON) (s : string) : Exn + JSON :=
  match List.find (fun d => String.eqb (render d) s) documents with
  | Some d => inr d
  | None => inl (Error "Unexpected token in JSON")
  end.

(** Tokens and their claims. *)
Definition the_nonce : string := "nonce-k1-7-r1".

Definition alice_fields : list (string * JSON) :=
  [("iss", JStr "https://accounts.google.com"); ("sub", JStr "user-42");
   ("aud", JStr "client-a"); ("nonce", JStr the_nonce); ("exp", JNum 1700000000)].

Definition alice_list_fields : list (string * JSON) :=
  [("iss", JStr "https://accounts.google.com"); ("sub", JStr "user-42");
   ("aud", JArr [JStr "client-a"]); ("nonce", JStr the_nonce);
   ("exp", JNum 1700000000)].

Definition no_aud_fields : list (string * JSON) :=
  [("iss", JStr "https://accounts.google.com"); ("sub", JStr "user-42");
   ("nonce", JStr the_nonce); ("exp", JNum 1700000000)].

Definition no_sub_fields : list (string * JSON) :=
  [("iss", JStr "https://accounts.google.com"); ("aud", JStr "client-a");
   ("nonce", JStr the_nonce); ("exp", JNum 1700000000)].

Definition other_nonce_fields : list (string * JSON) :=
  [("iss", JStr "https://accounts.google.com"); ("sub", JStr "user-42");
   ("aud", JStr "client-a"); ("nonce", JStr "nonce-k1-7-r2");
   ("exp", JNum 1700000000)].

Definition alice_claims : JSON := JObj alice_fields.
Definition alice_list_claims : JSON := JObj alice_list_fields.
Definition no_aud_claims : JSON := JObj no_aud_fields.
Definition no_sub_claims : JSON := JObj no_sub_fields.
Definition other_nonce_claims : JSON := JObj other_nonce_fields.

Definition alice_token : string := "h.alice.s".
Definition alice_list_token : string := "h.alice-list.s".
Definition no_sub_token : string := "h.no-sub.s".
Definition other_nonce_token : string := "h.other-nonce.s".

Definition tokens : list (string * JSON) :=
  [(alice_token, alice_claims); (alice_list_token, alice_list_claims);
   (no_sub_token, no_sub_claims); (other_nonce_token, other_nonce_claims)].

Definition decode (token : string) : Exn + JSON :=
  match lookup_field token tokens with
  | Some claims => inr claims
  | None => inl (Error "Invalid token specified")
  end.

Definition the_proof : JSON :=
  JObj [("proofPoints", JObj [("a", JStr "1"); ("b", JStr "2"); ("c", JStr "3")]);
        ("issBase64Details", JObj [("value", JStr "aXNz"); ("indexMod4", JNum 1)]);
        ("headerBase64", JStr "aGVhZGVy")].

Definition epoch_info (epoch : string) : JSON :=
  JObj [("epoch", JStr epoch); ("epochDurationMs", JStr "86400000");
        ("epochStartTimestampMs", JStr "1700000000000")].

Definition documents : list JSON :=
  [alice_claims; alice_list_claims; no_aud_claims; no_sub_claims; other_nonce_claims;
   the_proof; epoch_info "5"; epoch_info "9"; epoch_info "11";
   JObj [("salt", JStr "123456789")];
   JObj [("success", JBool true)];
   JObj [("error", JStr "Missing user subject (sub)")];
   JObj [("error", JStr "Salt service error");
         ("details", JStr (render (JObj [("error", JStr "Missing user subject (sub)")])))]].

#[export] Instance codec : JsonCodec :=
  {| JSON_stringify := render; JSON_parse := parse_among documents |}.

(** The server packages: a table-driven decoder, and a keyed digest that
    pads or cuts key and message to thirty-two bytes. *)
Fixpoint take_padded (n : nat) (bs : list byte) : list byte :=
  match n with
  | O => []
  | S n' =>
      match bs with
      | [] => x00 :: take_padded n' []
      | b :: rest => b :: take_padded n' rest
      end
  end.

Definition take_padded_length (n : nat) : forall bs, length (take_padded n bs) = n.
Proof.
  induction n as [|n IH]; intros bs; [reflexivity|].
  destruct bs; cbn [take_padded length]; rewrite IH; reflexivity.
Qed.

Definition keyed_digest (key message : string) : Server.Digest :=
  Server.mkDigest (take_padded 32 (list_byte_of_string (message ++ key)))
    (take_padded_length 32 _).

#[export] Instance node_libs : Server.NodeLibs :=
  {| Server.jwt_decode := decode; Server.hmac_sha256 := keyed_digest |}.

Definition server_config : Server.Config :=
  Server.mkConfig "client-a" "https://prover-dev.mystenlabs.com/v1" None.

(** The client packages. *)
Definition secret_prefix : string := "suiprivkey-".

Fixpoint strip_prefix (p s : string) : option string :=
  match p, s with
  | EmptyString, _ => Some s
  | String a p', String b s' => if Ascii.eqb a b then strip_prefix p' s' else None
  | String _ _, EmptyString => None
  end.

#[export] Instance sdk : Client.ZkLoginSdk :=
  {| Client.jwtDecode := decode;
     Client.getSecretKey := fun '(Client.Ed25519Keypair m) => secret_prefix ++ m;
     Client.fromSecretKey := fun s =>
       match strip_prefix secret_prefix s with
       | Some m => inr (Client.Ed25519Keypair m)
       | None => inl (Error "Invalid secret key")
       end;
     Client.getPublicKey := fun '(Client.Ed25519Keypair m) => Client.Ed25519PublicKey m;
     Client.generateNonce := fun '(Client.Ed25519PublicKey m) maxEpoch randomness =>
       match maxEpoch with
       | Num n => inr ("nonce-" ++ m ++ "-" ++ dec n ++ "-" ++ randomness)
       | NaN => inl (Error "Cannot convert NaN to a BigInt")
       end;
     Client.jwtToAddress := fun token salt =>
       match salt with
       | Some (JStr digits) => inr ("0x" ++ token ++ "-" ++ digits)
       | _ => inl (Error "Cannot convert salt to a BigInt")
       end;
     Client.getExtendedEphemeralPublicKey := fun '(Client.Ed25519PublicKey m) =>
       inr ("ext-" ++ m);
     Client.genAddressSeed := fun salt name value aud =>
       match value, aud with
       | Some (JStr v), Some (JStr a) =>
           inr (salt * 1000 + Z.of_nat (String.length v) * 10 + Z.of_nat (String.length a))
       | _, _ => inl (Error "Invalid claim")
       end;
     Client.getZkLoginSignature := fun inputs maxEpoch userSignature =>
       inr ("zk(" ++ render inputs ++ ";" ++ maxEpoch ++ ";" ++ userSignature ++ ")") |}.

Definition client_config : Client.ViteEnv :=
  Client.mkViteEnv "http://localhost:5173" "client-a".

Definition ok_response (body : JSON) : Response := mkResponse true 200 "OK" (render body).

(** A world in which every service answers, and the ledger is in the
    given epoch. *)
Definition world (epoch : string) : Client.Env :=
  Client.mkEnv
    (fun c =>
       match c with
       | Client.FetchEpoch => inr (ok_response (epoch_info epoch))
       | Client.FetchSalt _ => inr (ok_response (JObj [("salt", JStr "123456789")]))
       | Client.FetchZkProof _ _ _ _ _ => inr (ok_response the_proof)
       | Client.FetchSaltBackup _ _ _ _ => inr (ok_response (JObj [("success", JBool true)]))
       | _ => inl (Error "Failed to fetch")
       end)
    (fun tx '(Client.Ed25519Keypair m) =>
       inr ("bytes-" ++ Client.commands tx, "signature-" ++ m))
    (fun bytes signature => inr (JObj [("digest", JStr "digest-1")]))
    (Client.Ed25519Keypair "k1")
    "r1"
    "2024-01-01T00:00:00.000Z".

Definition empty_browser : Client.Browser := Client.mkBrowser ∅ ∅ [].

(** The session left by [prepareLogin] in epoch 5. *)
Definition pending_session : gmap string string :=
  <[Client.NONCE := the_nonce]>
    (<[Client.RANDOMNESS := "r1"]>
       (<[Client.MAX_EPOCH := "7"]>
          (<[Client.EPHEMERAL_PRIVATE_KEY := "suiprivkey-k1"]> ∅))).

Definition pending_browser : Client.Browser := Client.mkBrowser pending_session ∅ [].

(** An authenticated session with the given bound and claims. *)
Definition authenticated_session (maxEpoch : string) (claims : JSON)
  : gmap string string :=
  <[Client.ZKLOGIN_ADDRESS := "0xh.alice.s-123456789"]>
    (<[Client.DECODED_JWT := render claims]>
       (<[Client.USER_SALT := "123456789"]>
          (<[Client.ZK_PROOF := render the_proof]>
             (<[Client.NONCE := the_nonce]>
                (<[Client.RANDOMNESS := "r1"]>
                   (<[Client.MAX_EPOCH := maxEpoch]>
                      (<[Client.EPHEMERAL_PRIVATE_KEY := "suiprivkey-k1"]> ∅))))))).

Definition authenticated_browser (maxEpoch : string) (claims : JSON) : Client.Browser :=
  Client.mkBrowser (authenticated_session maxEpoch claims)
    {[ "zklogin_salt_user-42" := "123456789" ]} [].

Definition transfer : Client.Transaction := Client.mkTransaction "split-and-transfer" None.

End Sample.

(* ===================================================================== *)
(** * Invariants and predicates used in the statements                    *)
(* ===================================================================== *)

Module Inv.
Import JS.

(** Every cached salt is the salt derived for its subject. *)
Definition cache_sound `{Server.NodeLibs} (cfg : Server.Config)
    (userSalts : gmap string string) : Prop :=
  forall userSub salt,
    userSalts !! userSub = Some salt -> Server.derive_salt cfg userSub = inr salt.

(** The keyed derivation of the salt, from scratch. *)
Definition keyed_salt `{Server.NodeLibs} (cfg : Server.Config) (userSub : string) : Z :=
  be_value (firstn 16 (Server.digest_bytes
                         (Server.hmac_sha256 (Server.masterSecret cfg) userSub))).

(** The subject carried by the token of a salt request. *)
Definition subject_of `{Server.NodeLibs} (body : JSON) : option string :=
  match field body "token" with
  | Some (JStr token) =>
      match Server.jwt_decode token with
      | inr decoded =>
          match field decoded "sub" with
          | Some (JStr userSub) => Some userSub
          | _ => None
          end
      | inl _ => None
      end
  | _ => None
  end.

(** The nonce recomputed from the stored key, epoch bound and randomness,
    when all three are stored and the SDK accepts them. *)
Definition rederived_nonce `{Client.ZkLoginSdk} (b : Client.Browser) : option string :=
  match Client.sessionStorage b !! Client.EPHEMERAL_PRIVATE_KEY,
        Client.sessionStorage b !! Client.MAX_EPOCH,
        Client.sessionStorage b !! Client.RANDOMNESS with
  | Some key, Some maxEpoch, Some randomness =>
      match Client.fromSecretKey key with
      | inr keypair =>
          match Client.generateNonce (Client.getPublicKey keypair)
                  (Number_of_string maxEpoch) randomness with
          | inr nonce => Some nonce
          | inl _ => None
          end
      | inl _ => None
      end
  | _, _, _ => None
  end.

(** Both nonce checks: the stored nonce and the recomputed nonce are each
    strictly equal to the nonce of the token. *)
Definition nonce_verified `{Client.ZkLoginSdk} (b : Client.Browser)
    (tokenNonce : JSValue) : bool :=
  Client.strict_eq (Client.sessionStorage b !! Client.NONCE) tokenNonce
  && match rederived_nonce b with
     | Some nonce => Client.strict_eq (Some nonce) tokenNonce
     | None => false
     end.

(** The session binding is stored: key, epoch bound and randomness are
    present and not empty. *)
Definition binding_stored (b : Client.Browser) : bool :=
  negb (falsy_item (Client.sessionStorage b !! Client.EPHEMERAL_PRIVATE_KEY))
  && negb (falsy_item (Client.sessionStorage b !! Client.MAX_EPOCH))
  && negb (falsy_item (Client.sessionStorage b !! Client.RANDOMNESS)).

(** Two browsers that sent the same requests and hold the same storage,
    the one-shot flag [salt_backup_sent] apart. *)
Definition agree_but_flag (b1 b2 : Client.Browser) : Prop :=
  Client.calls b1 = Client.calls b2
  /\ Client.localStorage b1 = Client.localStorage b2
  /\ delete Client.SALT_BACKUP_SENT (Client.sessionStorage b1)
     = delete Client.SALT_BACKUP_SENT (Client.sessionStorage b2).

(** Two computations that, started in browsers related by [P], end with
    the same outcome in browsers related by [Q]. *)
Definition related {A} (P : Client.Browser -> Client.Browser -> Prop)
    (m1 m2 : Client.M A) (Q : Client.Browser -> Client.Browser -> Prop) : Prop :=
  forall b1 b2, P b1 b2 -> fst (m1 b1) = fst (m2 b2) /\ Q (snd (m1 b1)) (snd (m2 b2)).

(** What [executeZkLoginTransaction] loads before it builds the signature:
    the six stored items, the parsed proof and claims, the reloaded key
    pair, and the bytes and signature of the signed transaction. *)
Record Loaded : Type := mkLoaded {
  key : string;
  maxEpoch : string;
  proofText : string;
  userSalt : string;
  jwtText : string;
  address : string;
  zkProof : JSON;
  decodedJwt : JSON;
  keypair : Client.Keypair;
  bytes : string;
  userSignature : string;
}.

(** The item is stored and is not the empty string. *)
Definition holds (b : Client.Browser) (item value : string) : Prop :=
  Client.sessionStorage b !! item = Some value /\ String.eqb value "" = false.

(** The browser holds an authenticated session that loads as [s], and the
    transaction signs. *)
Definition loaded `{JsonCodec} `{Client.ZkLoginSdk} (env : Client.Env)
    (tx : Client.Transaction) (b : Client.Browser) (s : Loaded) : Prop :=
  holds b Client.EPHEMERAL_PRIVATE_KEY (key s)
  /\ holds b Client.MAX_EPOCH (maxEpoch s)
  /\ holds b Client.ZK_PROOF (proofText s)
  /\ holds b Client.USER_SALT (userSalt s)
  /\ holds b Client.DECODED_JWT (jwtText s)
  /\ holds b Client.ZKLOGIN_ADDRESS (address s)
  /\ JSON_parse (proofText s) = inr (zkProof s)
  /\ JSON_parse (jwtText s) = inr (decodedJwt s)
  /\ Client.fromSecretKey (key s) = inr (keypair s)
  /\ Client.sign_response env (Client.setSender (address s) tx) (keypair s)
     = inr (bytes s, userSignature s).


(** The wrapped error of [executeZkLoginTransaction]. *)
Definition execution_failure {A} (e : Exn) : Client.Outcome A :=
  Client.Thrown (Error ("Failed to execute transaction: " ++ message_or "Unknown error" e)).


(** The five inputs of a proof request. *)
Definition proof_inputs : list string :=
  ["jwt"; "extendedEphemeralPublicKey"; "maxEpoch"; "jwtRandomness"; "salt"].

End Inv.

(** Sessions of the sample world, as they load. *)
Module Fixtures.
Import JS.

Definition alice_session (bound : string) (claims : JSON) : Inv.Loaded :=
  Inv.mkLoaded "suiprivkey-k1" bound (Sample.render Sample.the_proof) "123456789"
    (Sample.render claims) "0xh.alice.s-123456789" Sample.the_proof claims
    (Client.Ed25519Keypair "k1") "bytes-split-and-transfer" "signature-k1".

(** The value of a call that did not throw. *)
Definition sign_of (r : Exn + string) : option string :=
  match r with
  | inr signature => Some signature
  | inl _ => None
  end.

End Fixtures.

(* ===================================================================== *)
(** * Reasoning about one run                                             *)
(* ===================================================================== *)

Module Run.
Import JS Client.

(** [Q] holds of the outcome and of the browser in which [m] ends when
    started in [b]. *)
Definition wp {A} (m : M A) (Q : Outcome A -> Browser -> Prop) (b : Browser) : Prop :=
  Q (fst (m b)) (snd (m b)).

(** The requests a computation added to those of [b]. *)
Definition sent (b after : Browser) (new : list Call) : Prop :=
  calls after = (calls b ++ new)%list.

(** Storage is as it was. *)
Definition same_storage (b after : Browser) : Prop :=
  sessionStorage after = sessionStorage b /\ localStorage after = localStorage b.

(** [url.searchParams.get(name)]. *)
Fixpoint search_param (name : string) (params : list (string * string)) : option string :=
  match params with
  | [] => None
  | (k, v) :: rest => if String.eqb name k then Some v else search_param name rest
  end.

(** The items of the session binding, which [prepareLogin] writes. *)
Definition BINDING_KEYS : list string :=
  [EPHEMERAL_PRIVATE_KEY; MAX_EPOCH; RANDOMNESS; NONCE].

(** The items of an authenticated session that only a completed login
    writes. *)
Definition AUTHENTICATED_KEYS : list string := [ZK_PROOF; DECODED_JWT; ZKLOGIN_ADDRESS].

(** The requests one login may send, in order: the salt request, then at
    most one backup request, then at most one proof request; the proof
    request carries the token, the stored bound and randomness of [b], and
    the salt that went into the backup. *)
Definition login_requests (token : string) (b : Browser) (new : list Call) : Prop :=
  let proves jwt maxEpoch jwtRandomness :=
    jwt = token
    /\ maxEpoch = Number_of_string (default "" (sessionStorage b !! MAX_EPOCH))
    /\ jwtRandomness = default "" (sessionStorage b !! RANDOMNESS) in
  match new with
  | [] => True
  | [FetchSalt t] => t = token
  | [FetchSalt t; FetchSaltBackup _ _ _ _] => t = token
  | [FetchSalt t; FetchZkProof jwt _ maxEpoch jwtRandomness _] =>
      t = token /\ proves jwt maxEpoch jwtRandomness
  | [FetchSalt t; FetchSaltBackup _ _ backedUp _;
     FetchZkProof jwt _ maxEpoch jwtRandomness salt] =>
      t = token /\ backedUp = salt /\ proves jwt maxEpoch jwtRandomness
  | _ => False
  end.

(** What a login that returned [address] and [decoded] has established:
    the binding of [b] it verified, the salt and the proof it obtained,
    and where it stored them. *)
Definition logged_in `{JsonCodec} `{ZkLoginSdk} (env : Env) (token : string)
    (b : Browser) (address : string) (decoded : JSON) (after : Browser) : Prop :=
  exists key maxEpoch keypair salt proofResponse proof,
    jwtDecode token = inr decoded
    /\ sessionStorage b !! EPHEMERAL_PRIVATE_KEY = Some key
    /\ String.eqb key "" = false
    /\ sessionStorage b !! MAX_EPOCH = Some maxEpoch
    /\ String.eqb maxEpoch "" = false
    /\ fromSecretKey key = inr keypair
    /\ jwtToAddress token salt = inr address
    /\ ok proofResponse = true
    /\ json proofResponse = inr proof
    /\ sessionStorage after !! EPHEMERAL_PRIVATE_KEY = Some key
    /\ sessionStorage after !! MAX_EPOCH = Some maxEpoch
    /\ sessionStorage after !! ZK_PROOF = Some (JSON_stringify proof)
    /\ sessionStorage after !! USER_SALT = Some (value_to_string salt)
    /\ sessionStorage after !! DECODED_JWT = Some (JSON_stringify decoded)
    /\ sessionStorage after !! ZKLOGIN_ADDRESS = Some address
    /\ localStorage after !! ("zklogin_salt_" ++ value_to_string (field decoded "sub"))
       = Some (value_to_string salt).

(** The backup mark after a login that obtained [salt]: set when the
    login sent the backup request and read the JSON of an [ok] answer, and
    as it was otherwise. *)
Definition backup_marked `{JsonCodec} (env : Env) (decoded : JSON) (salt : JSValue)
    (b after : Browser) : Prop :=
  let unchanged :=
    sessionStorage after !! SALT_BACKUP_SENT = sessionStorage b !! SALT_BACKUP_SENT in
  if falsy_item (sessionStorage b !! SALT_BACKUP_SENT) && truthy (field decoded "sub")
  then
    let userEmail :=
      if truthy (field decoded "email") then field decoded "email" else Some (JStr "") in
    match fetch_response env
            (FetchSaltBackup (field decoded "sub") userEmail salt (now_ISOString env)) with
    | inr response =>
        if ok response
        then match json response with
             | inr _ => sessionStorage after !! SALT_BACKUP_SENT = Some "true"
             | inl _ => unchanged
             end
        else unchanged
    | inl _ => unchanged
    end
  else unchanged.

(** The answers a login that returned [address] and [decoded] has had from
    the salt and proof endpoints, and what it made of them. *)
Definition exchanged `{JsonCodec} `{ZkLoginSdk} (env : Env) (token : string)
    (b : Browser) (address : string) (decoded : JSON) (after : Browser) : Prop :=
  exists saltResponse data salt extended proofResponse proof,
    jwtDecode token = inr decoded
    /\ fetch_response env (FetchSalt token) = inr saltResponse
    /\ ok saltResponse = true
    /\ json saltResponse = inr data
    /\ prop data "salt" = inr salt
    /\ jwtToAddress token salt = inr address
    /\ fetch_response env
         (FetchZkProof token extended
            (Number_of_string (default "" (sessionStorage b !! MAX_EPOCH)))
            (default "" (sessionStorage b !! RANDOMNESS)) salt) = inr proofResponse
    /\ ok proofResponse = true
    /\ json proofResponse = inr proof
    /\ sessionStorage after !! ZK_PROOF = Some (JSON_stringify proof)
    /\ sessionStorage after !! USER_SALT = Some (value_to_string salt)
    /\ localStorage after !! ("zklogin_salt_" ++ value_to_string (field decoded "sub"))
       = Some (value_to_string salt)
    /\ backup_marked env decoded salt b after.

(** The answers to the backup request on which [sendSaltBackupEmail]
    throws: [fetch] rejects, the answer is not [ok], or its body is not
    JSON. *)
Definition backup_failed `{JsonCodec} (answer : Exn + Response) : bool :=
  match answer with
  | inl _ => true
  | inr response =>
      negb (ok response)
      || match json response with
         | inl _ => true
         | inr _ => false
         end
  end.
(** The requests one transaction may send, in order. *)
Definition signing_requests (new : list Call) : Prop :=
  match new with
  | [] => True
  | [SignTransaction _ _] => True
  | [SignTransaction _ _; ExecuteTransactionBlock _ _] => True
  | _ => False
  end.

End Run.

(* ===================================================================== *)
(** * The remaining helpers of zklogin.utils.ts                           *)
(* ===================================================================== *)

Module ClientUtil.
Import JS Client.

Section Helpers.
Context `{JsonCodec}.

(** Utility: the decoded JWT of the session ([JNull] is [null]). *)
Definition getDecodedJwt : M JSON :=
  let! decodedJwtStr := getItem DECODED_JWT in
  if falsy_item decodedJwtStr then ret JNull
  else lift (JSON_parse (default "" decodedJwtStr)).

End Helpers.

(** [key.startsWith('zklogin_salt_')]. *)
Definition is_salt_key (key : string) : bool := String.prefix "zklogin_salt_" key.

(** The loop of [clearSaltBackups], from index [i], for at most [steps]
    rounds: [keys store] is the order in which [localStorage.key] numbers
    the keys of [store], [size store] is [localStorage.length]. *)
Fixpoint clear_from (keys : gmap string string -> list string) (steps i : nat)
    (store : gmap string string) : gmap string string :=
  match steps with
  | O => store
  | S steps' =>
      if (i <? size store)%nat
      then
        let store' :=
          match keys store !! i with
          | Some key => if is_salt_key key then delete key store else store
          | None => store
          end in
        clear_from keys steps' (S i) store'
      else store
  end.

(** Utility: clear all salt backups.  The index never exceeds the number of
    keys the storage started with, which bounds the rounds. *)
Definition clearSaltBackups (keys : gmap string string -> list string) : M unit :=
  fun b =>
    (Returned tt,
     mkBrowser (sessionStorage b)
       (clear_from keys (size (localStorage b)) 0 (localStorage b)) (calls b)).

(** [keys] numbers exactly the keys of every storage, each once. *)
Definition enumerates (keys : gmap string string -> list string) : Prop :=
  forall store : gmap string string,
    NoDup (keys store) /\ forall key, key ∈ keys store <-> is_Some (store !! key).

End ClientUtil.

(* ===================================================================== *)
(** * The other routes (zklogin.routes.ts)                                *)
(* ===================================================================== *)

Module Routes.
Import JS Server.

Section Routes.
Context `{JsonCodec}.

(** [router.get('/epoch')]: [systemState] is what
    [suiClient.getLatestSuiSystemState()] resolves to, or what it throws. *)
Definition epoch_route (systemState : Exn + JSON) : Reply :=
  match systemState with
  | inl e => internal_error "Unknown error" e
  | inr state =>
      match prop state "epoch" with
      | inl e => internal_error "Unknown error" e
      | inr epoch =>
          mkReply 200
            (JObj (object_fields
                     [("epoch", epoch);
                      ("epochDurationMs", field state "epochDurationMs");
                      ("epochStartTimestampMs", field state "epochStartTimestampMs")]))
      end
  end.

(** [router.post('/email-salt-backup')].  The mail is only composed and
    logged, so the reply does not depend on its text. *)
Definition email_backup_route (body : JSON) : Reply :=
  match prop body "userSub" with
  | inl e => internal_error "Failed to send salt backup email" e
  | inr userSub =>
      let userSalt := field body "userSalt" in
      let timestamp := field body "timestamp" in
      if negb (truthy userSub) || negb (truthy userSalt)
      then mkReply 400 (JObj [("error", JStr "Missing userSub or userSalt")])
      else
        mkReply 200
          (JObj (object_fields
                   [("success", Some (JBool true));
                    ("message", Some (JStr "Salt backup email would be sent"));
                    ("userSub", userSub);
                    ("timestamp", timestamp)]))
  end.

End Routes.

End Routes.

(* ===================================================================== *)
(** * The browser against all four routes                                 *)
(* ===================================================================== *)

Module Stack.
Import JS.

(** A number on its way through [JSON.stringify]: [NaN] becomes [null]. *)
Definition number_json (x : JSNumber) : JSON :=
  match x with
  | Num n => JNum n
  | NaN => JNull
  end.

(** The bodies of the browser's requests as [express.json()] hands them to
    the routes. *)
Definition zkproof_request (jwt extendedEphemeralPublicKey : string) (maxEpoch : JSNumber)
    (jwtRandomness : string) (salt : JSValue) : JSON :=
  JObj (object_fields
          [("jwt", Some (JStr jwt));
           ("extendedEphemeralPublicKey", Some (JStr extendedEphemeralPublicKey));
           ("maxEpoch", Some (number_json maxEpoch));
           ("jwtRandomness", Some (JStr jwtRandomness));
           ("salt", salt)]).

Definition backup_request (userSub userEmail userSalt : JSValue) (timestamp : string)
  : JSON :=
  JObj (object_fields
          [("userSub", userSub); ("userEmail", userEmail); ("userSalt", userSalt);
           ("timestamp", Some (JStr timestamp))]).

(** The server of this repository: its configuration, the salts it has
    cached, the prover it calls and the full node behind [suiClient]. *)
Record Backend : Type := mkBackend {
  config : Server.Config;
  userSalts : gmap string string;
  prover : Server.ProverCall -> Exn + Response;
  systemState : Exn + JSON;
}.

(** An environment whose four endpoints are the routes of this
    repository; signing and execution are answered by [env]. *)
Definition served `{JsonCodec} `{Server.NodeLibs} (backend : Backend) (env : Client.Env)
  : Client.Env :=
  Client.mkEnv
    (fun c =>
       match c with
       | Client.FetchEpoch =>
           inr (Deployment.response_of_reply (Routes.epoch_route (systemState backend)))
       | Client.FetchSalt token =>
           inr (Deployment.response_of_reply
                  (fst (Server.salt_route (config backend) (userSalts backend)
                          (Deployment.salt_request token))))
       | Client.FetchZkProof jwt extendedEphemeralPublicKey maxEpoch jwtRandomness salt =>
           inr (Deployment.response_of_reply
                  (fst (Server.zkproof_route (config backend) (prover backend)
                          (zkproof_request jwt extendedEphemeralPublicKey maxEpoch
                             jwtRandomness salt))))
       | Client.FetchSaltBackup userSub userEmail userSalt timestamp =>
           inr (Deployment.response_of_reply
                  (Routes.email_backup_route
                     (backup_request userSub userEmail userSalt timestamp)))
       | _ => Client.fetch_response env c
       end)
    (Client.sign_response env)
    (Client.execute_response env)
    (Client.new_Ed25519Keypair env)
    (Client.generateRandomness env)
    (Client.now_ISOString env).

End Stack.

(* ===================================================================== *)
(** * Formatting a Groth16 proof for Sui (the proof generation script)    *)
(* ===================================================================== *)

Module Snark.
Import JS.

(** [n.toString(16)] on a BigInt: lower-case digits, no leading zero, a
    minus sign on negative numbers. *)
Definition to_hex (n : Z) : string :=
  HexadecimalString.NilZero.string_of_int (Z.to_hex_int n).

Fixpoint zeros (count : nat) : string :=
  match count with
  | O => EmptyString
  | S count' => String "0" (zeros count')
  end.

(** [s.padStart(targetLength, '0')]. *)
Definition padStart (targetLength : nat) (s : string) : string :=
  zeros (targetLength - String.length s) ++ s.

(** The longest run of digits at the start of [s], read in the given
    radix after the digits worth [acc]; [None] when there is no digit. *)
Fixpoint digit_prefix (radix : Z) (acc : option Z) (s : string) : option Z :=
  match s with
  | EmptyString => acc
  | String c rest =>
      match digit_value c with
      | Some d =>
          if d <? radix then digit_prefix radix (Some (radix * default 0 acc + d)) rest
          else acc
      | None => acc
      end
  end.

(** [parseInt(s, 16)]: leading white space, a sign and a radix prefix are
    skipped, then the digits are read as far as they go. *)
Definition parseInt16 (s : string) : JSNumber :=
  let unsigned negative digits :=
    let digits :=
      match digits with
      | String "0" (String "x" rest) | String "0" (String "X" rest) => rest
      | _ => digits
      end in
    match digit_prefix 16 None digits with
    | Some value => Num (if negative : bool then - value else value)
    | None => NaN
    end in
  match trim_start s with
  | String "-" rest => unsigned true rest
  | String "+" rest => unsigned false rest
  | rest => unsigned false rest
  end.

(** The loop of [bigIntToBytes32], with [rounds] rounds left from index
    [i]: [hex.substr(i, 2)] is read as a byte. *)
Fixpoint bytes_from (rounds i : nat) (hex : string) : list JSNumber :=
  match rounds with
  | O => []
  | S rounds' => parseInt16 (substring i 2 hex) :: bytes_from rounds' (i + 2) hex
  end.

Definition bigIntToBytes32 (n : Z) : list JSNumber :=
  let hex := padStart 64 (to_hex n) in
  bytes_from 32 0 hex.

(** [array.map(s => BigInt(s))], stopping at the first string that is no
    integer literal. *)
Fixpoint BigInts (strings : list string) : Exn + list Z :=
  match strings with
  | [] => inr []
  | s :: rest =>
      match BigInt s with
      | inl e => inl e
      | inr n =>
          match BigInts rest with
          | inl e => inl e
          | inr ns => inr (n :: ns)
          end
      end
  end.

Fixpoint BigInt_rows (rows : list (list string)) : Exn + list (list Z) :=
  match rows with
  | [] => inr []
  | row :: rest =>
      match BigInts row with
      | inl e => inl e
      | inr ns =>
          match BigInt_rows rest with
          | inl e => inl e
          | inr nss => inr (ns :: nss)
          end
      end
  end.

(** [bytes.push(...bigIntToBytes32(coord))] for every coordinate. *)
Definition push_all (coords : list Z) : list JSNumber :=
  concat (List.map bigIntToBytes32 coords).

Definition formatPublicInputsForSui (publicSignals : list string) : Exn + list JSNumber :=
  match BigInts publicSignals with
  | inl e => inl e
  | inr signals => inr (push_all signals)
  end.

(** A Groth16 proof as snarkjs returns it: the coordinates are decimal
    strings. *)
Record Groth16Proof : Type := mkProof {
  pi_a : list string;
  pi_b : list (list string);
  pi_c : list string;
}.

(** [formatProofForSui]: the two coordinates of [pi_a], the two pairs of
    [pi_b] each in reverse order, the two coordinates of [pi_c]. *)
Definition formatProofForSui (proof : Groth16Proof) : Exn + list JSNumber :=
  match BigInts (firstn 2 (pi_a proof)) with
  | inl e => inl e
  | inr a =>
      match BigInt_rows (firstn 2 (pi_b proof)) with
      | inl e => inl e
      | inr b =>
          match BigInts (firstn 2 (pi_c proof)) with
          | inl e => inl e
          | inr c =>
              inr (push_all a ++ concat (List.map (fun pair => push_all (rev pair)) b)
                   ++ push_all c)%list
          end
      end
  end.

(** The value of a hexadecimal numeral read after the digits worth
    [acc]. *)
Fixpoint hex_uint_value (d : Hexadecimal.uint) (acc : Z) : Z :=
  match d with
  | Hexadecimal.Nil => acc
  | Hexadecimal.D0 d => hex_uint_value d (16 * acc)
  | Hexadecimal.D1 d => hex_uint_value d (16 * acc + 1)
  | Hexadecimal.D2 d => hex_uint_value d (16 * acc + 2)
  | Hexadecimal.D3 d => hex_uint_value d (16 * acc + 3)
  | Hexadecimal.D4 d => hex_uint_value d (16 * acc + 4)
  | Hexadecimal.D5 d => hex_uint_value d (16 * acc + 5)
  | Hexadecimal.D6 d => hex_uint_value d (16 * acc + 6)
  | Hexadecimal.D7 d => hex_uint_value d (16 * acc + 7)
  | Hexadecimal.D8 d => hex_uint_value d (16 * acc + 8)
  | Hexadecimal.D9 d => hex_uint_value d (16 * acc + 9)
  | Hexadecimal.Da d => hex_uint_value d (16 * acc + 10)
  | Hexadecimal.Db d => hex_uint_value d (16 * acc + 11)
  | Hexadecimal.Dc d => hex_uint_value d (16 * acc + 12)
  | Hexadecimal.Dd d => hex_uint_value d (16 * acc + 13)
  | Hexadecimal.De d => hex_uint_value d (16 * acc + 14)
  | Hexadecimal.Df d => hex_uint_value d (16 * acc + 15)
  end.

(** Big-endian value of a list of bytes given as integers. *)
Definition be_integer (bytes : list Z) : Z :=
  fold_left (fun acc b => 256 * acc + b) bytes 0.


(** [bytes] is the concatenation of thirty-two-byte big-endian words, one
    for each of [values] in order. *)
Definition encodes (bytes : list JSNumber) (values : list Z) : Prop :=
  exists words : list (list Z),
    bytes = List.map Num (concat words)
    /\ Forall2 (fun word value =>
                  length word = 32%nat
                  /\ Forall (fun b => 0 <= b < 256) word
                  /\ be_integer word = value) words values.

(** A character that is a hexadecimal digit of value [v]. *)
Definition hex_char (c : ascii) (v : Z) : Prop := digit_value c = Some v /\ 0 <= v < 16.

(** A string of hexadecimal digits whose value after [acc] is [v]. *)
Fixpoint hex_string (s : string) (acc v : Z) : Prop :=
  match s with
  | EmptyString => v = acc
  | String c rest => exists d, hex_char c d /\ hex_string rest (16 * acc + d) v
  end.

End Snark.

(* ===================================================================== *)
(** * The component ZkLoginAuth.tsx                                       *)
(* ===================================================================== *)

(** A handler is run to its end; the state it leaves is the last one it
    set. *)
Module Components.
Import JS Client.

(** [ZkLoginState]. *)
Record ZkLoginState : Type := mkZkLoginState {
  isLoggedIn : bool;
  address : option string;
  loading : bool;
  error : option string;
}.

(** The state [useState] starts from. *)
Definition logged_out : ZkLoginState := mkZkLoginState false None false None.

Section Components.
Context `{JsonCodec} `{ZkLoginSdk} (cfg : ViteEnv) (env : Env).

(** The effect [ZkLoginAuth] runs when it is mounted; [idToken] is
    [params.get('id_token')] of the URL fragment.  It returns the state it
    leaves and whether it has cleared the fragment. *)
Definition mount (idToken : option string) : M (ZkLoginState * bool) :=
  let! active := isZkLoginSessionActive in
  let! state :=
    (if active : bool
     then
       let! stored := getZkLoginAddress in
       ret (mkZkLoginState true stored false None)
     else ret logged_out) in
  if falsy_item idToken then ret (state, false)
  else
    try_catch
      (let! login := completeZkLogin env (default "" idToken) in
       ret (mkZkLoginState true (Some (fst login)) false None, true))
      (fun err =>
         ret (mkZkLoginState false None false (Some (message_or "Login failed" err)),
              false)).

(** [handleLogin]: the state it leaves and the URL it navigates to. *)
Definition handleLogin (state : ZkLoginState) : M (ZkLoginState * option Url) :=
  try_catch
    (let! authUrl := prepareLogin cfg env in
     ret (mkZkLoginState (isLoggedIn state) (address state) true None, Some authUrl))
    (fun err =>
       ret (mkZkLoginState (isLoggedIn state) (address state) false
              (Some (message_or "Failed to prepare login" err)), None)).

Definition handleLogout : M ZkLoginState :=
  do! zkLoginLogout in
  ret logged_out.

(** What the logged-in view computes before it renders:
    [jwt?.sub ? recoverSaltFromStorage(jwt.sub) : null]. *)
Definition recoveredSalt : M (option string) :=
  let! jwt := ClientUtil.getDecodedJwt in
  if truthy (field jwt "sub")
  then recoverSaltFromStorage (value_to_string (field jwt "sub"))
  else ret None.

End Components.

End Components.

(* ===================================================================== *)
(** * A sample deployment: the browser against the sample server         *)
(* ===================================================================== *)

Module Site.
Import JS Sample.

(** The salt the sample server derives for the subject of the sample
    tokens. *)
Definition alice_salt : string := dec (Inv.keyed_salt server_config "user-42").

Definition backup_reply : JSON :=
  JObj [("success", JBool true);
        ("message", JStr "Salt backup email would be sent");
        ("userSub", JStr "user-42");
        ("timestamp", JStr "2024-01-01T00:00:00.000Z")].

(** The address the sample SDK derives from the sample token and that
    salt. *)
Definition site_address : string := "0xh.alice.s-" ++ alice_salt.

(** A codec that also reads the replies of the salt and backup routes. *)
Definition codec : JsonCodec :=
  {| JSON_stringify := render;
     JSON_parse := parse_among (documents ++ [JObj [("salt", JStr alice_salt)]; backup_reply]) |}.

(** The system state of a full node in epoch 5. *)
Definition system_state : JSON :=
  JObj [("epoch", JStr "5"); ("protocolVersion", JStr "70");
        ("epochDurationMs", JStr "86400000");
        ("epochStartTimestampMs", JStr "1700000000000")].

(** The sample server with an empty cache, a prover that answers with the
    sample proof and a full node in epoch 5. *)
Definition backend : Stack.Backend :=
  Stack.mkBackend server_config ∅ (fun _ => inr (ok_response the_proof)) (inr system_state).

(** Three salt backups on the device. *)
Definition three_backups : Client.Browser :=
  Client.mkBrowser ∅
    (<["zklogin_salt_user-1" := "11"]>
       (<["zklogin_salt_user-2" := "22"]> (<["zklogin_salt_user-3" := "33"]> ∅)))
    [].

(** [localStorage.key] numbering the keys in the order of [map_to_list]. *)
Definition keys_in_order (store : gmap string string) : list string :=
  (map_to_list store).*1.

(** A proof whose coordinates are small numbers. *)
Definition small_proof : Snark.Groth16Proof :=
  Snark.mkProof ["1"; "2"; "1"] [["3"; "4"]; ["5"; "6"]; ["1"; "0"]] ["7"; "8"; "1"].

End Site.

(* ===================================================================== *)
(** * The Move modules                                                    *)
(* ===================================================================== *)

(** A transaction either commits or fails as a whole, so an entry function
    is a function from the objects it is given to the objects it leaves,
    or to the failure.  Integers of type [u8] and [u64] are integers here;
    additions fail where they leave the range of [u64]. *)
Module Move.

Inductive Failure : Type :=
| Abort (code : Z)
| ArithmeticError.

Abbreviation Result A := (Failure + A)%type.

Abbreviation address := Z (only parsing).

(** [vector<u8>]. *)
Abbreviation bytes := (list Z) (only parsing).

Definition U64_MAX : Z := 2 ^ 64 - 1.

(** [a + b] on [u64]. *)
Definition add_u64 (a b : Z) : Result Z :=
  if a + b <=? U64_MAX then inr (a + b) else inl ArithmeticError.

(** [assert!(condition, code)]. *)
Definition assert_that (condition : bool) (code : Z) : Result unit :=
  if condition then inr tt else inl (Abort code).

Definition bind {A B} (r : Result A) (k : A -> Result B) : Result B :=
  match r with
  | inl failure => inl failure
  | inr a => k a
  end.

(** An object id: the digest of the transaction that created the object
    and the number of objects that transaction had created before. *)
Record UID : Type := mkUID {
  created_by : Z;
  created_as : nat;
}.

(** [TxContext]. *)
Record TxContext : Type := mkTxContext {
  sender : Z;
  tx_hash : Z;
  epoch_timestamp_ms : Z;
  ids_created : nat;
}.

(** [object::new(ctx)], for the [n]-th object the function creates. *)
Definition fresh (ctx : TxContext) (n : nat) : UID :=
  mkUID (tx_hash ctx) (ids_created ctx + n).

(** What the modules use of the framework: the UTF-8 check behind
    [string::utf8] and the BCS encoding of an address. *)
Class Natives : Type := {
  internal_check_utf8 : list Z -> bool;
  address_to_bytes : Z -> list Z;
}.

(** [string::utf8(bytes)]: a string is its bytes. *)
Definition utf8 `{Natives} (data : list Z) : Result (list Z) :=
  if internal_check_utf8 data then inr data else inl (Abort 1).

End Move.

Declare Scope move_scope.
Delimit Scope move_scope with move.
Notation "'let*' x ':=' r 'in' k" := (Move.bind r (fun x => k))
  (at level 10, x pattern, r at level 200, k at level 200, only parsing) : move_scope.
Notation "'check!' condition 'else' code 'in' k" :=
  (Move.bind (Move.assert_that condition code) (fun _ => k))
  (at level 10, condition at level 200, code at level 0, k at level 200, only parsing)
  : move_scope.

(** ** [contract::contract]: the user registry *)

Module UserRegistry.
Import Move.
#[local] Open Scope move_scope.

Definition E_USER_NOT_FOUND : Z := 0.
Definition E_USER_ALREADY_EXISTS : Z := 1.
Definition E_INVALID_KYC_STATUS : Z := 2.
Definition E_UNAUTHORIZED : Z := 3.

Definition KYC_PENDING : Z := 0.
Definition KYC_VERIFIED : Z := 1.
Definition KYC_REJECTED : Z := 2.

Record UserData : Type := mkUserData {
  id : UID;
  wallet_address : Z;
  kyc_status : Z;
  category : list Z;
  cid_hash : list Z;
  created_at : Z;
  updated_at : Z;
}.

Record Registry : Type := mkRegistry {
  registry_id : UID;
  users : gmap Z UserData;
  admin : Z;
}.

Record AdminCap : Type := mkAdminCap {
  cap_id : UID;
}.

Inductive Event : Type :=
| UserRegistered (wallet : Z) (category cid_hash : list Z)
| KYCStatusUpdated (wallet : Z) (old_status new_status : Z)
| UserDataUpdated (wallet : Z) (category cid_hash : list Z).

(** [init]: the shared registry, and the capability with its owner.  The
    table of the registry takes the second id. *)
Definition init (ctx : TxContext) : Registry * (AdminCap * Z) :=
  (mkRegistry (fresh ctx 0) ∅ (sender ctx), (mkAdminCap (fresh ctx 2), sender ctx)).

Definition register_user (registry : Registry) (wallet : Z) (category cid_hash : list Z)
    (ctx : TxContext) : Result (Registry * list Event) :=
  check! bool_decide (users registry !! wallet = None) else E_USER_ALREADY_EXISTS in
  let current_time := epoch_timestamp_ms ctx in
  let user_data :=
    mkUserData (fresh ctx 0) wallet KYC_PENDING category cid_hash current_time current_time in
  inr (mkRegistry (registry_id registry) (<[wallet := user_data]> (users registry))
         (admin registry),
       [UserRegistered wallet category cid_hash]).

Definition update_kyc_status (registry : Registry) (_admin_cap : AdminCap) (wallet : Z)
    (new_status : Z) (ctx : TxContext) : Result (Registry * list Event) :=
  match users registry !! wallet with
  | None => inl (Abort E_USER_NOT_FOUND)
  | Some user_data =>
      check! new_status <=? KYC_REJECTED else E_INVALID_KYC_STATUS in
      let old_status := kyc_status user_data in
      let user_data :=
        mkUserData (id user_data) (wallet_address user_data) new_status
          (category user_data) (cid_hash user_data) (created_at user_data)
          (epoch_timestamp_ms ctx) in
      inr (mkRegistry (registry_id registry) (<[wallet := user_data]> (users registry))
             (admin registry),
           [KYCStatusUpdated wallet old_status new_status])
  end.

Definition update_user_data (registry : Registry) (wallet : Z)
    (new_category new_cid_hash : list Z) (ctx : TxContext)
  : Result (Registry * list Event) :=
  check! (sender ctx =? wallet) || (sender ctx =? admin registry) else E_UNAUTHORIZED in
  match users registry !! wallet with
  | None => inl (Abort E_USER_NOT_FOUND)
  | Some user_data =>
      let user_data :=
        mkUserData (id user_data) (wallet_address user_data) (kyc_status user_data)
          new_category new_cid_hash (created_at user_data) (epoch_timestamp_ms ctx) in
      inr (mkRegistry (registry_id registry) (<[wallet := user_data]> (users registry))
             (admin registry),
           [UserDataUpdated wallet new_category new_cid_hash])
  end.

Definition get_user_data (registry : Registry) (wallet : Z)
  : Result (Z * Z * list Z * list Z * Z * Z) :=
  match users registry !! wallet with
  | None => inl (Abort E_USER_NOT_FOUND)
  | Some user_data =>
      inr (wallet_address user_data, kyc_status user_data, category user_data,
           cid_hash user_data, created_at user_data, updated_at user_data)
  end.

Definition user_exists (registry : Registry) (wallet : Z) : bool :=
  bool_decide (is_Some (users registry !! wallet)).

Definition get_kyc_status (registry : Registry) (wallet : Z) : Result Z :=
  match users registry !! wallet with
  | None => inl (Abort E_USER_NOT_FOUND)
  | Some user_data => inr (kyc_status user_data)
  end.

Definition is_kyc_verified (registry : Registry) (wallet : Z) : bool :=
  match users registry !! wallet with
  | None => false
  | Some user_data => kyc_status user_data =? KYC_VERIFIED
  end.

(** [remove_user]: the registry, and the id it deletes. *)
Definition remove_user (registry : Registry) (_admin_cap : AdminCap) (wallet : Z)
  : Result (Registry * UID) :=
  match users registry !! wallet with
  | None => inl (Abort E_USER_NOT_FOUND)
  | Some user_data =>
      inr (mkRegistry (registry_id registry) (delete wallet (users registry))
             (admin registry),
           id user_data)
  end.

(** [transfer_admin]: the registry, and the capability with its new
    owner. *)
Definition transfer_admin (registry : Registry) (admin_cap : AdminCap) (new_admin : Z)
    (ctx : TxContext) : Result (Registry * (AdminCap * Z)) :=
  check! sender ctx =? admin registry else E_UNAUTHORIZED in
  inr (mkRegistry (registry_id registry) (users registry) new_admin,
       (admin_cap, new_admin)).

Definition get_admin (registry : Registry) : Z := admin registry.

(** The entry functions as transactions.  The capability is an owned
    object: a transaction that passes it is signed by its owner. *)
Inductive Call : Type :=
| RegisterUser (wallet : Z) (category cid_hash : list Z)
| UpdateKycStatus (wallet : Z) (new_status : Z)
| UpdateUserData (wallet : Z) (new_category new_cid_hash : list Z)
| RemoveUser (wallet : Z)
| TransferAdmin (new_admin : Z).

(** The chain as far as this module goes: the shared registry, the
    capability and its owner. *)
Record Chain : Type := mkChain {
  registry : Registry;
  capability : AdminCap;
  capability_owner : Z;
}.

Definition deploy (ctx : TxContext) : Chain :=
  let '(registry, (cap, owner)) := init ctx in
  mkChain registry cap owner.

(** Whether the call passes the capability. *)
Definition takes_capability (call : Call) : bool :=
  match call with
  | UpdateKycStatus _ _ | RemoveUser _ | TransferAdmin _ => true
  | _ => false
  end.

(** The chain after a function that changes the registry only. *)
Definition with_registry {A} (chain : Chain) (r : Result (Registry * A)) : Result Chain :=
  match r with
  | inl failure => inl failure
  | inr (registry, _) => inr (mkChain registry (capability chain) (capability_owner chain))
  end.

(** One transaction. *)
Definition execute (chain : Chain) (call : Call) (ctx : TxContext) : Result Chain :=
  match call with
  | RegisterUser wallet category cid_hash =>
      with_registry chain (register_user (registry chain) wallet category cid_hash ctx)
  | UpdateKycStatus wallet new_status =>
      with_registry chain
        (update_kyc_status (registry chain) (capability chain) wallet new_status ctx)
  | UpdateUserData wallet new_category new_cid_hash =>
      with_registry chain
        (update_user_data (registry chain) wallet new_category new_cid_hash ctx)
  | RemoveUser wallet =>
      with_registry chain (remove_user (registry chain) (capability chain) wallet)
  | TransferAdmin new_admin =>
      match transfer_admin (registry chain) (capability chain) new_admin ctx with
      | inl failure => inl failure
      | inr (registry, (cap, owner)) => inr (mkChain registry cap owner)
      end
  end.

(** The arguments are of their types ([new_status] is a [u8]). *)
Definition well_typed (call : Call) : bool :=
  match call with
  | UpdateKycStatus _ new_status => (0 <=? new_status) && (new_status <=? 255)
  | _ => true
  end.

(** The transaction is accepted for execution: its arguments are of their
    types, and the sender owns the capability when the call passes it. *)
Definition accepted (chain : Chain) (call : Call) (ctx : TxContext) : bool :=
  well_typed call
  && (negb (takes_capability call) || (sender ctx =? capability_owner chain)).

(** A transaction that is not accepted, or fails, leaves the chain as it
    was. *)
Definition step (chain : Chain) (tx : Call * TxContext) : Chain :=
  if accepted chain (fst tx) (snd tx)
  then match execute chain (fst tx) (snd tx) with
       | inr chain' => chain'
       | inl _ => chain
       end
  else chain.

Definition run (chain : Chain) (txs : list (Call * TxContext)) : Chain :=
  fold_left step txs chain.

(** Every record sits under its own address with a status of the enum,
    and the admin of the registry owns the capability. *)
Definition chain_ok (chain : Chain) : Prop :=
  capability_owner chain = admin (registry chain)
  /\ forall wallet data,
       users (registry chain) !! wallet = Some data ->
       wallet_address data = wallet /\ 0 <= kyc_status data <= KYC_REJECTED.

End UserRegistry.

(** ** [zk_login::kyc_auth] *)

Module KycAuth.
Import Move.
#[local] Open Scope move_scope.

Definition EInvalidProof : Z := 1.
Definition EUserAlreadyExists : Z := 2.
Definition EUserNotFound : Z := 3.
Definition EKYCNotVerified : Z := 4.
Definition EInvalidDigiLockerData : Z := 5.
Definition ESessionExpired : Z := 6.
Definition EUnauthorized : Z := 7.
Definition EInvalidImageHash : Z := 8.
Definition EKYCAlreadyCompleted : Z := 9.

Definition SESSION_VALIDITY_MS : Z := 86400000.
Definition KYC_EXPIRY_MS : Z := 31536000000.

Record AdminCap : Type := mkAdminCap {
  cap_id : UID;
}.

Record UserIdentity : Type := mkUserIdentity {
  user_address : Z;
  digilocker_id : list Z;
  aadhaar_hash : list Z;
  pan_hash : list Z;
  name_hash : list Z;
  dob_hash : list Z;
  live_photo_hash : list Z;
  zk_identity_commitment : list Z;
  kyc_status : Z;
  kyc_timestamp : Z;
  kyc_expiry : Z;
  verification_level : Z;
}.

Record KYCRegistry : Type := mkKYCRegistry {
  registry_id : UID;
  users : gmap Z UserIdentity;
  zk_proofs : gmap (list Z) Z;
  total_users : Z;
  verified_users : Z;
}.

Record ZKLoginCredential : Type := mkCredential {
  credential_id : UID;
  credential_user : Z;
  identity_commitment : list Z;
  nullifier_hash : list Z;
  issued_at : Z;
  credential_expires_at : Z;
  is_active : bool;
}.

Record UserSession : Type := mkSession {
  session_id : UID;
  session_user : Z;
  session_token_hash : list Z;
  created_at : Z;
  expires_at : Z;
  last_activity : Z;
}.

Record ZKVerifierConfig : Type := mkConfig {
  config_id : UID;
  verification_key : list Z;
  allowed_issuers : list (list Z);
  min_verification_level : Z;
}.

Inductive Event : Type :=
| UserRegistered (user : Z) (digilocker : list Z) (timestamp : Z)
| KYCCompleted (user : Z) (level : Z) (timestamp : Z)
| ZKLoginSuccess (user : Z) (session : UID) (timestamp : Z)
| KYCRevoked (user : Z) (reason : list Z) (timestamp : Z).

(** The placeholder hash. *)
Definition hash_data (data : list Z) : list Z := data.

(** The loop of [u64_to_bytes], with [rounds] rounds left. *)
Fixpoint u64_to_bytes_from (rounds : nat) (v : Z) (result : list Z) : list Z :=
  match rounds with
  | O => result
  | S rounds' =>
      u64_to_bytes_from rounds' (Z.shiftr v 8) (result ++ [Z.land v 255])%list
  end.

Definition u64_to_bytes (value : Z) : list Z := u64_to_bytes_from 8 value [].

(** The placeholder verifier. *)
Definition verify_zk_proof (_verification_key _proof _public_inputs _commitment : list Z)
  : bool := true.

Definition generate_nullifier (commitment : list Z) (timestamp : Z) : list Z :=
  hash_data (commitment ++ u64_to_bytes timestamp)%list.

Section Natives.
Context `{Natives}.

Definition generate_session_token (user : Z) (timestamp : Z) : list Z :=
  hash_data (address_to_bytes user ++ u64_to_bytes timestamp)%list.

(** [init]: the capability with its owner, the shared registry (its two
    tables take the ids in between) and the shared verifier
    configuration. *)
Definition init (ctx : TxContext) : (AdminCap * Z) * KYCRegistry * ZKVerifierConfig :=
  (mkAdminCap (fresh ctx 0), sender ctx,
   mkKYCRegistry (fresh ctx 1) ∅ ∅ 0 0,
   mkConfig (fresh ctx 4) [] [] 1).

Definition with_user (registry : KYCRegistry) (user : Z) (identity : UserIdentity)
  : KYCRegistry :=
  mkKYCRegistry (registry_id registry) (<[user := identity]> (users registry))
    (zk_proofs registry) (total_users registry) (verified_users registry).

Definition register_user (registry : KYCRegistry)
    (digilocker aadhaar pan name dob : list Z) (clock : Z) (ctx : TxContext)
  : Result (KYCRegistry * list Event) :=
  let sender := sender ctx in
  check! bool_decide (users registry !! sender = None) else EUserAlreadyExists in
  check! 0 <? Z.of_nat (length digilocker) else EInvalidDigiLockerData in
  check! Z.of_nat (length aadhaar) =? 32 else EInvalidDigiLockerData in
  let current_time := clock in
  let* digilocker_id := utf8 digilocker in
  let user_identity :=
    mkUserIdentity sender digilocker_id aadhaar pan name dob [] [] 0 0 0 0 in
  let* total := add_u64 (total_users registry) 1 in
  let* digilocker_id := utf8 digilocker in
  inr (mkKYCRegistry (registry_id registry) (<[sender := user_identity]> (users registry))
         (zk_proofs registry) total (verified_users registry),
       [UserRegistered sender digilocker_id current_time]).

Definition submit_live_photo (registry : KYCRegistry)
    (photo photo_metadata : list Z) (ctx : TxContext) : Result KYCRegistry :=
  let sender := sender ctx in
  match users registry !! sender with
  | None => inl (Abort EUserNotFound)
  | Some user =>
      check! Z.of_nat (length photo) =? 32 else EInvalidImageHash in
      check! negb (kyc_status user =? 2) else EKYCAlreadyCompleted in
      let combined := (photo ++ photo_metadata)%list in
      let user :=
        mkUserIdentity (user_address user) (digilocker_id user) (aadhaar_hash user)
          (pan_hash user) (name_hash user) (dob_hash user) (hash_data combined)
          (zk_identity_commitment user) 1 (kyc_timestamp user) (kyc_expiry user)
          (verification_level user) in
      inr (with_user registry sender user)
  end.

(** [complete_kyc_verification]: the registry, the credential with its
    owner, and the event. *)
Definition complete_kyc_verification (_cap : AdminCap) (registry : KYCRegistry)
    (user_address : Z) (commitment : list Z) (level : Z) (clock : Z) (ctx : TxContext)
  : Result (KYCRegistry * (ZKLoginCredential * Z) * list Event) :=
  match users registry !! user_address with
  | None => inl (Abort EUserNotFound)
  | Some user =>
      let current_time := clock in
      check! 0 <? Z.of_nat (length (live_photo_hash user)) else EInvalidImageHash in
      let* expiry := add_u64 current_time KYC_EXPIRY_MS in
      let user :=
        mkUserIdentity (KycAuth.user_address user) (digilocker_id user) (aadhaar_hash user)
          (pan_hash user) (name_hash user) (dob_hash user) (live_photo_hash user)
          commitment 2 current_time expiry level in
      let proofs :=
        match zk_proofs registry !! commitment with
        | None => <[commitment := user_address]> (zk_proofs registry)
        | Some _ => zk_proofs registry
        end in
      let* verified := add_u64 (verified_users registry) 1 in
      let* expires_at := add_u64 current_time KYC_EXPIRY_MS in
      let credential :=
        mkCredential (fresh ctx 0) user_address commitment
          (generate_nullifier commitment current_time) current_time expires_at true in
      inr (mkKYCRegistry (registry_id registry) (<[user_address := user]> (users registry))
             proofs (total_users registry) verified,
           (credential, user_address),
           [KYCCompleted user_address level current_time])
  end.

(** [zk_login]: the session with its owner, and the event. *)
Definition zk_login (registry : KYCRegistry) (config : ZKVerifierConfig)
    (credential : ZKLoginCredential) (zk_proof public_inputs : list Z) (clock : Z)
    (ctx : TxContext) : Result ((UserSession * Z) * list Event) :=
  let sender := sender ctx in
  let current_time := clock in
  check! credential_user credential =? sender else EUnauthorized in
  check! is_active credential else EUnauthorized in
  check! current_time <? credential_expires_at credential else ESessionExpired in
  match users registry !! sender with
  | None => inl (Abort EUserNotFound)
  | Some user =>
      check! kyc_status user =? 2 else EKYCNotVerified in
      check! current_time <? kyc_expiry user else ESessionExpired in
      check! min_verification_level config <=? verification_level user
        else EKYCNotVerified in
      check! verify_zk_proof (verification_key config) zk_proof public_inputs
               (identity_commitment credential) else EInvalidProof in
      let* expires := add_u64 current_time SESSION_VALIDITY_MS in
      let session :=
        mkSession (fresh ctx 0) sender (generate_session_token sender current_time)
          current_time expires current_time in
      inr ((session, sender), [ZKLoginSuccess sender (session_id session) current_time])
  end.

Definition verify_session (session : UserSession) (clock : Z) : bool :=
  clock <? expires_at session.

Definition refresh_session (session : UserSession) (clock : Z) (ctx : TxContext)
  : Result UserSession :=
  check! session_user session =? sender ctx else EUnauthorized in
  let current_time := clock in
  check! current_time <? expires_at session else ESessionExpired in
  let* expires := add_u64 current_time SESSION_VALIDITY_MS in
  inr (mkSession (session_id session) (session_user session) (session_token_hash session)
         (created_at session) expires current_time).

(** [logout]: the id it deletes. *)
Definition logout (session : UserSession) (ctx : TxContext) : Result UID :=
  check! session_user session =? sender ctx else EUnauthorized in
  inr (session_id session).

Definition revoke_kyc (_cap : AdminCap) (registry : KYCRegistry) (user_address : Z)
    (reason : list Z) (clock : Z) : Result (KYCRegistry * list Event) :=
  match users registry !! user_address with
  | None => inl (Abort EUserNotFound)
  | Some user =>
      let user :=
        mkUserIdentity (KycAuth.user_address user) (digilocker_id user) (aadhaar_hash user)
          (pan_hash user) (name_hash user) (dob_hash user) (live_photo_hash user)
          (zk_identity_commitment user) 3 (kyc_timestamp user) (kyc_expiry user)
          (verification_level user) in
      let verified :=
        if 0 <? verified_users registry then verified_users registry - 1
        else verified_users registry in
      let* reason := utf8 reason in
      inr (mkKYCRegistry (registry_id registry) (<[user_address := user]> (users registry))
             (zk_proofs registry) (total_users registry) verified,
           [KYCRevoked user_address reason clock])
  end.

Definition update_verifier_config (_cap : AdminCap) (config : ZKVerifierConfig)
    (new_verification_key : list Z) (min_level : Z) : ZKVerifierConfig :=
  mkConfig (config_id config) new_verification_key (allowed_issuers config) min_level.

Definition add_allowed_issuer (_cap : AdminCap) (config : ZKVerifierConfig)
    (issuer : list Z) : Result ZKVerifierConfig :=
  let* issuer := utf8 issuer in
  inr (mkConfig (config_id config) (verification_key config)
         (allowed_issuers config ++ [issuer])%list (min_verification_level config)).

Definition deactivate_credential (credential : ZKLoginCredential) (ctx : TxContext)
  : Result ZKLoginCredential :=
  check! credential_user credential =? sender ctx else EUnauthorized in
  inr (mkCredential (credential_id credential) (credential_user credential)
         (identity_commitment credential) (nullifier_hash credential)
         (issued_at credential) (credential_expires_at credential) false).

Definition get_kyc_status (registry : KYCRegistry) (user : Z) : Z :=
  match users registry !! user with
  | None => 0
  | Some identity => kyc_status identity
  end.

Definition get_verification_level (registry : KYCRegistry) (user : Z) : Z :=
  match users registry !! user with
  | None => 0
  | Some identity => verification_level identity
  end.

Definition is_user_verified (registry : KYCRegistry) (user : Z) (clock : Z) : bool :=
  match users registry !! user with
  | None => false
  | Some identity => (kyc_status identity =? 2) && (clock <? kyc_expiry identity)
  end.

Definition get_total_users (registry : KYCRegistry) : Z := total_users registry.

Definition get_verified_users (registry : KYCRegistry) : Z := verified_users registry.

Definition is_credential_valid (credential : ZKLoginCredential) (clock : Z) : bool :=
  is_active credential && (clock <? credential_expires_at credential).

(** The entry functions that take the registry by mutable reference, as
    transactions with the time of the clock. *)
Inductive Call : Type :=
| RegisterUser (digilocker aadhaar pan name dob : list Z)
| SubmitLivePhoto (photo photo_metadata : list Z)
| CompleteKycVerification (cap : AdminCap) (user : Z) (commitment : list Z) (level : Z)
| RevokeKyc (cap : AdminCap) (user : Z) (reason : list Z).

(** One transaction on the registry; a failed one leaves it as it was. *)
Definition step (registry : KYCRegistry) (tx : Call * Z * TxContext) : KYCRegistry :=
  let '(call, clock, ctx) := tx in
  let after :=
    match call with
    | RegisterUser digilocker aadhaar pan name dob =>
        match register_user registry digilocker aadhaar pan name dob clock ctx with
        | inr (registry', _) => Some registry'
        | inl _ => None
        end
    | SubmitLivePhoto photo photo_metadata =>
        match submit_live_photo registry photo photo_metadata ctx with
        | inr registry' => Some registry'
        | inl _ => None
        end
    | CompleteKycVerification cap user commitment level =>
        match complete_kyc_verification cap registry user commitment level clock ctx with
        | inr (registry', _, _) => Some registry'
        | inl _ => None
        end
    | RevokeKyc cap user reason =>
        match revoke_kyc cap registry user reason clock with
        | inr (registry', _) => Some registry'
        | inl _ => None
        end
    end in
  default registry after.

Definition run (registry : KYCRegistry) (txs : list (Call * Z * TxContext)) : KYCRegistry :=
  fold_left step txs registry.

End Natives.

(** Little-endian value of a list of bytes. *)
Fixpoint le_integer (data : list Z) : Z :=
  match data with
  | [] => 0
  | b :: rest => b + 256 * le_integer rest
  end.

(** An identity under its own address: its status is from 0 to 3; its
    photo hash is empty or has 32 bytes or more, and is not empty once a
    photo is submitted or the KYC verified; when verified, it expires a
    year after the verification. *)
Definition identity_ok (user : Z) (identity : UserIdentity) : Prop :=
  user_address identity = user
  /\ 0 <= kyc_status identity <= 3
  /\ (live_photo_hash identity = [] \/ (32 <= length (live_photo_hash identity))%nat)
  /\ (kyc_status identity = 1 \/ kyc_status identity = 2 ->
      (32 <= length (live_photo_hash identity))%nat)
  /\ (kyc_status identity = 2 ->
      kyc_expiry identity = kyc_timestamp identity + KYC_EXPIRY_MS).

(** The counter of users is the size of the table, every identity is as
    above, and every recorded commitment belongs to a registered user. *)
Definition registry_ok (registry : KYCRegistry) : Prop :=
  total_users registry = Z.of_nat (size (users registry))
  /\ (forall user identity,
        users registry !! user = Some identity -> identity_ok user identity)
  /\ (forall commitment user,
        zk_proofs registry !! commitment = Some user ->
        is_Some (users registry !! user)).

End KycAuth.

(** ** A sample ledger *)

Module Ledger.
Import Move.

(** ASCII only, and an address as one byte. *)
Definition natives : Natives :=
  {| internal_check_utf8 := forallb (fun b => (0 <=? b) && (b <? 128));
     address_to_bytes := fun a => [a] |}.

(** A transaction of [sender]. *)
Definition from (sender : Z) (digest : Z) : TxContext := mkTxContext sender digest 1700 0.

(** The deployer 1 registers wallet 7 and verifies it. *)
Definition registry_history : list (UserRegistry.Call * TxContext) :=
  [(UserRegistry.RegisterUser 7 [107] [99], from 5 11);
   (UserRegistry.UpdateKycStatus 7 1, from 5 12);
   (UserRegistry.UpdateKycStatus 7 1, from 1 13)].

(** Thirty-two bytes. *)
Definition digest32 : list Z := repeat 9 32.

(** User 7 registers, submits a photo and is verified at time 2000. *)
Definition kyc_history : list (KycAuth.Call * Z * TxContext) :=
  [(KycAuth.RegisterUser [100] digest32 [1] [2] [3], 1000, from 7 21);
   (KycAuth.SubmitLivePhoto digest32 [4], 1500, from 7 22);
   (KycAuth.CompleteKycVerification (KycAuth.mkAdminCap (fresh (from 1 20) 0)) 7 [42] 2, 2000,
    from 1 23)].

Definition kyc_registry : KycAuth.KYCRegistry :=
  KycAuth.run (H := natives) (snd (fst (KycAuth.init (from 1 20)))) kyc_history.

Definition kyc_config : KycAuth.ZKVerifierConfig := snd (KycAuth.init (from 1 20)).

(** The credential issued to user 7 by that verification. *)
Definition credential : KycAuth.ZKLoginCredential :=
  KycAuth.mkCredential (fresh (from 1 23) 0) 7 [42]
    (KycAuth.generate_nullifier [42] 2000) 2000 (2000 + KycAuth.KYC_EXPIRY_MS) true.

End Ledger.

(* ===================================================================== *)
(** * Properties of the JavaScript primitives                             *)
(* ===================================================================== *)

Module JSFacts.
Import JS.

Lemma hex_digit_value n :
  (n < 16)%N -> digit_value (hex_digit n) = Some (Z.of_N n).
Proof.
  intros Hn.
  destruct n as [|p]; [reflexivity|].
  do 4 (destruct p as [p|p|]; try reflexivity; try lia).
Qed.

Lemma hex_digit_not_whitespace n :
  (n < 16)%N -> is_whitespace (hex_digit n) = false.
Proof.
  intros Hn.
  destruct n as [|p]; [reflexivity|].
  do 4 (destruct p as [p|p|]; try reflexivity; try lia).
Qed.

Lemma byte_nibbles b :
  let n := Byte.to_N b in
  (n / 16 < 16)%N /\ (n mod 16 < 16)%N
  /\ 16 * Z.of_N (n / 16) + Z.of_N (n mod 16) = Z.of_N n.
Proof.
  cbv zeta.
  pose proof (Byte.to_N_bounded b) as Hb.
  assert (Byte.to_N b < 256)%N as Hlt by lia.
  repeat split.
  - apply N.Div0.div_lt_upper_bound. lia.
  - apply N.mod_lt. lia.
  - rewrite (N.div_mod (Byte.to_N b) 16) at 3 by lia. lia.
Qed.

(** Reading back the hexadecimal rendering of a byte string. *)
Lemma digits_from_hex bs : forall acc,
  digits_from 16 acc (hex_of_bytes bs)
  = Some (fold_left (fun a b => 256 * a + Z.of_N (Byte.to_N b)) bs acc).
Proof.
  induction bs as [|b bs IH]; intros acc; [reflexivity|].
  destruct (byte_nibbles b) as (Hhi & Hlo & Hsum).
  cbn [hex_of_bytes digits_from fold_left].
  rewrite (hex_digit_value _ Hhi), (hex_digit_value _ Hlo).
  assert ((Z.of_N (Byte.to_N b / 16) <? 16) = true) as -> by (apply Z.ltb_lt; lia).
  assert ((Z.of_N (Byte.to_N b mod 16) <? 16) = true) as -> by (apply Z.ltb_lt; lia).
  rewrite IH. do 2 f_equal. lia.
Qed.

Lemma trim_end_no_whitespace s : no_whitespace s = true -> trim_end s = s.
Proof.
  induction s as [|c s IH]; [reflexivity|].
  cbn [no_whitespace trim_end]. intros [Hc Hs]%andb_prop.
  rewrite (IH Hs). apply negb_true_iff in Hc. rewrite Hc.
  destruct s; reflexivity.
Qed.

Lemma hex_no_whitespace bs : no_whitespace (hex_of_bytes bs) = true.
Proof.
  induction bs as [|b bs IH]; [reflexivity|].
  destruct (byte_nibbles b) as (Hhi & Hlo & _).
  cbn [hex_of_bytes no_whitespace].
  rewrite (hex_digit_not_whitespace _ Hhi), (hex_digit_not_whitespace _ Hlo), IH.
  reflexivity.
Qed.

(** [BigInt('0x' + buffer.toString('hex'))] is the big-endian value of a
    non-empty buffer. *)
Lemma BigInt_hex bs :
  bs <> [] -> BigInt ("0x" ++ hex_of_bytes bs) = inr (be_value bs).
Proof.
  intros Hne. unfold BigInt, integer_literal, trim.
  change ("0x" ++ hex_of_bytes bs) with (String "0" (String "x" (hex_of_bytes bs))).
  assert (trim_end (trim_start (String "0" (String "x" (hex_of_bytes bs))))
          = String "0" (String "x" (hex_of_bytes bs))) as ->.
  { cbn [trim_start]. change (is_whitespace "0") with false. cbv iota.
    apply trim_end_no_whitespace. cbn [no_whitespace].
    rewrite hex_no_whitespace. reflexivity. }
  cbv iota.
  destruct bs as [|b bs]; [contradiction|].
  change (digits 16 (hex_of_bytes (b :: bs)))
    with (digits_from 16 0 (hex_of_bytes (b :: bs))).
  rewrite digits_from_hex. reflexivity.
Qed.

Lemma be_value_bounds bs : forall acc,
  0 <= acc ->
  0 <= fold_left (fun a b => 256 * a + Z.of_N (Byte.to_N b)) bs acc
    < (acc + 1) * 256 ^ Z.of_nat (length bs).
Proof.
  induction bs as [|b bs IH]; intros acc Hacc.
  - cbn. lia.
  - cbn [fold_left length]. rewrite Nat2Z.inj_succ, Z.pow_succ_r by lia.
    pose proof (Byte.to_N_bounded b) as Hb.
    specialize (IH (256 * acc + Z.of_N (Byte.to_N b))).
    assert (0 < 256 ^ Z.of_nat (length bs)) by (apply Z.pow_pos_nonneg; lia).
    split; [apply IH; lia|].
    eapply Z.lt_le_trans; [apply IH; lia|]. nia.
Qed.

(** Sixteen bytes at most stay below 2^128. *)
Lemma be_value_16 bs : 0 <= be_value (firstn 16 bs) < 2 ^ 128.
Proof.
  unfold be_value.
  pose proof (be_value_bounds (firstn 16 bs) 0 ltac:(lia)) as [Hlo Hhi].
  split; [exact Hlo|].
  eapply Z.lt_le_trans; [exact Hhi|].
  change (2 ^ 128) with (256 ^ 16). rewrite Z.mul_1_l.
  apply Z.pow_le_mono_r; [lia|].
  pose proof (firstn_le_length 16 bs). lia.
Qed.

(** ** Reading back a decimal rendering *)

Lemma trim_start_no_whitespace s : no_whitespace s = true -> trim_start s = s.
Proof.
  destruct s as [|c s]; [reflexivity|].
  cbn [no_whitespace trim_start]. intros [Hc _]%andb_prop.
  apply negb_true_iff in Hc. rewrite Hc. reflexivity.
Qed.

Lemma trim_no_whitespace s : no_whitespace s = true -> trim s = s.
Proof.
  intros Hs. unfold trim.
  rewrite (trim_start_no_whitespace _ Hs). apply trim_end_no_whitespace, Hs.
Qed.

Lemma numeral_no_whitespace d : no_whitespace (NilEmpty.string_of_uint d) = true.
Proof. induction d; cbn [NilEmpty.string_of_uint no_whitespace]; try rewrite IHd; reflexivity. Qed.

Lemma digits_from_numeral d : forall acc,
  digits_from 10 acc (NilEmpty.string_of_uint d) = Some (uint_value d acc).
Proof.
  induction d; intros acc; cbn [NilEmpty.string_of_uint uint_value]; [reflexivity|..];
    (etransitivity; [|apply IHd]); cbn [digits_from];
    (match goal with
     | |- context [digit_value ?c] =>
         let v := eval vm_compute in (digit_value c) in change (digit_value c) with v
     end);
    cbv iota; change (_ <? 10) with true; cbv iota; f_equal; lia.
Qed.

Lemma uint_value_acc d : forall acc,
  uint_value d (Z.pos acc) = Z.pos (Pos.of_uint_acc d acc).
Proof.
  induction d; intros acc; cbn [uint_value Pos.of_uint_acc]; [reflexivity|..];
    rewrite <- IHd; f_equal; lia.
Qed.

Lemma uint_value_of_uint d : uint_value d 0 = Z.of_N (Pos.of_uint d).
Proof.
  induction d; cbn [uint_value Pos.of_uint]; [reflexivity|exact IHd|..];
    cbn [Z.mul Z.add Z.of_N]; apply uint_value_acc.
Qed.

(** A numeral that is not empty is read in radix ten. *)
Lemma integer_literal_numeral d :
  d <> Decimal.Nil ->
  integer_literal (NilEmpty.string_of_uint d) = Some (uint_value d 0).
Proof.
  intros Hd. unfold integer_literal.
  rewrite (trim_no_whitespace _ (numeral_no_whitespace d)).
  rewrite <- digits_from_numeral.
  destruct d as [|d|d|d|d|d|d|d|d|d|d]; try contradiction; try reflexivity.
  destruct d; reflexivity.
Qed.

Lemma integer_literal_dec n : integer_literal (dec n) = Some n.
Proof.
  unfold dec. destruct n as [|p|p]; [reflexivity|..]; cbn [Z.to_int NilZero.string_of_int].
  - pose proof (DecimalPos.Unsigned.to_uint_nonnil p) as Hnil.
    pose proof (DecimalPos.Unsigned.of_to p) as Hvalue.
    unfold NilZero.string_of_uint.
    destruct (Pos.to_uint p) eqn:Hu; try contradiction;
      rewrite integer_literal_numeral by discriminate;
      rewrite uint_value_of_uint, Hvalue; reflexivity.
  - pose proof (DecimalPos.Unsigned.to_uint_nonnil p) as Hnil.
    pose proof (DecimalPos.Unsigned.of_to p) as Hvalue.
    unfold integer_literal.
    assert (no_whitespace (String "-" (NilZero.string_of_uint (Pos.to_uint p))) = true)
      as Hclean.
    { cbn [no_whitespace]. unfold NilZero.string_of_uint.
      destruct (Pos.to_uint p); try reflexivity; apply numeral_no_whitespace. }
    rewrite (trim_no_whitespace _ Hclean). cbv iota.
    unfold NilZero.string_of_uint, digits.
    destruct (Pos.to_uint p) eqn:Hu; try contradiction;
      rewrite digits_from_numeral, uint_value_of_uint, Hvalue; reflexivity.
Qed.

(** [BigInt(n.toString())] and [Number(n.toString())] are [n]. *)
Lemma BigInt_dec n : BigInt (dec n) = inr n.
Proof. unfold BigInt. rewrite integer_literal_dec. reflexivity. Qed.

Lemma Number_dec n : Number_of_string (dec n) = Num n.
Proof. unfold Number_of_string. rewrite integer_literal_dec. reflexivity. Qed.

End JSFacts.

(* ===================================================================== *)
(** * Properties of the server routes                                     *)
(* ===================================================================== *)

Module ServerFacts.
Import JS Server Inv.

Section Routes.
Context `{JsonCodec} `{NodeLibs} (cfg : Config).

(** The derivation never throws: a digest has thirty-two bytes, so its
    first sixteen are a non-empty hexadecimal literal. *)
Lemma derive_salt_keyed userSub :
  derive_salt cfg userSub = inr (dec (keyed_salt cfg userSub)).
Proof.
  unfold derive_salt, keyed_salt.
  set (d := hmac_sha256 (masterSecret cfg) userSub).
  rewrite JSFacts.BigInt_hex; [reflexivity|].
  pose proof (digest_length d) as Hlen.
  destruct (digest_bytes d); [discriminate|]. discriminate.
Qed.

Lemma decode_claims_decoded token decoded :
  decode_claims token = Some decoded -> jwt_decode token = inr decoded.
Proof.
  unfold decode_claims. intros Hd.
  repeat case_match; congruence.
Qed.

Lemma cache_sound_empty : cache_sound cfg ∅.
Proof. intros userSub salt Hlook. rewrite lookup_empty in Hlook. discriminate. Qed.

Lemma salt_route_sound userSalts body :
  cache_sound cfg userSalts -> cache_sound cfg (snd (salt_route cfg userSalts body)).
Proof.
  intros Hsound. unfold salt_route.
  repeat case_match; cbn [snd]; try exact Hsound.
  intros userSub' salt'. rewrite lookup_insert.
  case_decide; [|apply Hsound].
  intros; simplify_eq. assumption.
Qed.

Lemma serve_salts_sound bodies : forall userSalts,
  cache_sound cfg userSalts -> cache_sound cfg (serve_salts cfg userSalts bodies).
Proof.
  induction bodies as [|body bodies IH]; intros userSalts Hsound; [exact Hsound|].
  cbn. apply IH, salt_route_sound, Hsound.
Qed.

(** A sound cache never changes the reply. *)
Lemma salt_route_cache_irrelevant userSalts body :
  cache_sound cfg userSalts ->
  fst (salt_route cfg userSalts body) = fst (salt_route cfg ∅ body).
Proof.
  intros Hsound. unfold salt_route.
  repeat case_match; cbn [fst]; try reflexivity; simplify_eq;
    try (rewrite lookup_empty in *; discriminate).
  all: match goal with
       | Hc : _ !! _ = Some _ |- _ => apply Hsound in Hc
       end; congruence.
Qed.

(** A reply of status 200 carries the salt derived for the subject of the
    token. *)
Lemma salt_route_200 userSalts body :
  cache_sound cfg userSalts ->
  reply_status (fst (salt_route cfg userSalts body)) = 200 ->
  exists userSub,
    subject_of body = Some userSub
    /\ fst (salt_route cfg userSalts body)
       = mkReply 200 (JObj [("salt", JStr (dec (keyed_salt cfg userSub)))]).
Proof.
  intros Hsound. rewrite (salt_route_cache_irrelevant _ _ Hsound).
  unfold salt_route, subject_of, prop.
  repeat case_match; cbn [fst reply_status salt_service_error internal_error];
    try discriminate; simplify_eq; intros _.
  all: try (rewrite lookup_empty in *; discriminate).
  all: match goal with
       | Hd : decode_claims _ = Some _ |- _ => apply decode_claims_decoded in Hd
       end.
  all: match goal with
       | Hs : derive_salt _ _ = inr _ |- _ => rewrite derive_salt_keyed in Hs
       end; simplify_eq.
  all: eexists; split; [|reflexivity]; congruence.
Qed.

(** C3.  For every subject, any two salt requests whose tokens carry that
    subject and that are answered with a salt are answered with the same
    salt, and that salt is the keyed derivation: the decimal rendering of
    the first sixteen bytes of the HMAC-SHA256 of the subject under the
    master secret.  This holds whatever requests the process has served
    before, that is whatever the cache holds: the reply is the one an
    empty cache gives. *)
Theorem salt_is_pure_derivation
    (earlier1 earlier2 : list JSON) (body1 body2 : JSON)
    (userSub salt1 salt2 : string) :
  subject_of body1 = Some userSub ->
  subject_of body2 = Some userSub ->
  fst (salt_route cfg (serve_salts cfg ∅ earlier1) body1)
    = mkReply 200 (JObj [("salt", JStr salt1)]) ->
  fst (salt_route cfg (serve_salts cfg ∅ earlier2) body2)
    = mkReply 200 (JObj [("salt", JStr salt2)]) ->
  salt1 = salt2
  /\ salt1 = dec (keyed_salt cfg userSub)
  /\ fst (salt_route cfg (serve_salts cfg ∅ earlier1) body1)
     = fst (salt_route cfg ∅ body1).
Proof.
  intros Hsub1 Hsub2 Hreply1 Hreply2.
  pose proof (serve_salts_sound earlier1 ∅ cache_sound_empty) as Hsound1.
  pose proof (serve_salts_sound earlier2 ∅ cache_sound_empty) as Hsound2.
  destruct (salt_route_200 _ body1 Hsound1) as (sub1 & Hs1 & Hr1);
    [rewrite Hreply1; reflexivity|].
  destruct (salt_route_200 _ body2 Hsound2) as (sub2 & Hs2 & Hr2);
    [rewrite Hreply2; reflexivity|].
  assert (salt1 = dec (keyed_salt cfg userSub)) as E1 by congruence.
  assert (salt2 = dec (keyed_salt cfg userSub)) as E2 by congruence.
  repeat split; [congruence|exact E1|].
  apply salt_route_cache_irrelevant, Hsound1.
Qed.

(** C9.  Every salt the salt route hands out, after any sequence of earlier
    requests, is the decimal rendering of an integer [n] with
    [0 <= n < 2^128], which [BigInt] reads back as [n]. *)
Theorem derived_salt_fits_128_bits (earlier : list JSON) (body : JSON) :
  let reply := fst (salt_route cfg (serve_salts cfg ∅ earlier) body) in
  reply_status reply = 200 ->
  exists n,
    0 <= n < 2 ^ 128
    /\ reply_body reply = JObj [("salt", JStr (dec n))]
    /\ BigInt (dec n) = inr n.
Proof.
  cbv zeta. intros Hstatus.
  pose proof (serve_salts_sound earlier ∅ cache_sound_empty) as Hsound.
  destruct (salt_route_200 _ body Hsound Hstatus) as (userSub & _ & ->).
  exists (keyed_salt cfg userSub).
  split; [apply JSFacts.be_value_16|]. split; [reflexivity|apply JSFacts.BigInt_dec].
Qed.

(** C8.  A proof request in which one of the five inputs is absent is
    answered with 400 "Missing required fields" without any call to the
    prover; and whenever the prover is called, all five inputs are
    present. *)
Theorem zkproof_requires_all_inputs
    (prover : ProverCall -> Exn + Response) (fields : list (string * JSON)) :
  (forall input,
      In input proof_inputs -> field (JObj fields) input = None ->
      zkproof_route cfg prover (JObj fields)
      = (mkReply 400 (JObj [("error", JStr "Missing required fields")]), []))
  /\ (snd (zkproof_route cfg prover (JObj fields)) <> [] ->
      Forall (fun input => is_Some (field (JObj fields) input)) proof_inputs).
Proof.
  split.
  - intros input Hin Habsent. unfold zkproof_route, prop.
    cbn [In proof_inputs] in Hin.
    destruct Hin as [<-|[<-|[<-|[<-|[<-|[]]]]]]; rewrite Habsent; cbn [truthy negb orb];
      rewrite ?orb_true_r; reflexivity.
  - unfold zkproof_route, prop. intros Hcalled.
    destruct (field (JObj fields) "jwt") as [jwt|] eqn:E1;
      [|exfalso; apply Hcalled; reflexivity].
    destruct (field (JObj fields) "extendedEphemeralPublicKey") as [key|] eqn:E2;
      [|exfalso; apply Hcalled; cbn [truthy negb orb]; rewrite ?orb_true_r; reflexivity].
    destruct (field (JObj fields) "maxEpoch") as [maxEpoch|] eqn:E3;
      [|exfalso; apply Hcalled; cbn [truthy negb orb]; rewrite ?orb_true_r; reflexivity].
    destruct (field (JObj fields) "jwtRandomness") as [randomness|] eqn:E4;
      [|exfalso; apply Hcalled; cbn [truthy negb orb]; rewrite ?orb_true_r; reflexivity].
    destruct (field (JObj fields) "salt") as [salt|] eqn:E5;
      [|exfalso; apply Hcalled; cbn [truthy negb orb]; rewrite ?orb_true_r; reflexivity].
    unfold proof_inputs. repeat constructor; rewrite ?E1, ?E2, ?E3, ?E4, ?E5; eauto.
Qed.

End Routes.

End ServerFacts.

Module ServerWitness.
Import JS Server Inv Sample ServerFacts.

(** The two subjects' requests of C3 on the sample server: the first after
    the cache was filled, the second on a fresh process and with another
    token for the same subject. *)
Lemma salt_is_pure_derivation_witness :
  let first := Deployment.salt_request Sample.alice_token in
  let second := Deployment.salt_request Sample.alice_list_token in
  let salt := "156118847214937085694865853727635764781" in
  subject_of first = Some "user-42"
  /\ subject_of second = Some "user-42"
  /\ (salt = salt
      /\ salt = dec (keyed_salt Sample.server_config "user-42")
      /\ fst (salt_route Sample.server_config
                (serve_salts Sample.server_config ∅ [first]) first)
         = fst (salt_route Sample.server_config ∅ first)).
Proof.
  cbv zeta. split; [reflexivity|]. split; [reflexivity|].
  apply (salt_is_pure_derivation Sample.server_config
           [Deployment.salt_request Sample.alice_token] []
           (Deployment.salt_request Sample.alice_token)
           (Deployment.salt_request Sample.alice_list_token) "user-42");
    vm_compute; reflexivity.
Defined.

Lemma derived_salt_fits_128_bits_witness :
  let request := Deployment.salt_request Sample.alice_token in
  let reply :=
    fst (salt_route Sample.server_config
           (serve_salts Sample.server_config ∅ [request]) request) in
  reply_status reply = 200
  /\ exists n,
       0 <= n < 2 ^ 128
       /\ reply_body reply = JObj [("salt", JStr (dec n))]
       /\ BigInt (dec n) = inr n.
Proof.
  cbv zeta. split; [vm_compute; reflexivity|].
  apply (derived_salt_fits_128_bits Sample.server_config
           [Deployment.salt_request Sample.alice_token]
           (Deployment.salt_request Sample.alice_token)).
  vm_compute; reflexivity.
Defined.

Lemma zkproof_requires_all_inputs_witness :
  let prover := fun _ : ProverCall => inr (ok_response the_proof) : Exn + Response in
  let partial :=
    [("jwt", JStr alice_token); ("extendedEphemeralPublicKey", JStr "ext-k1");
     ("maxEpoch", JNum 7); ("jwtRandomness", JStr "r1")] in
  let complete := ("salt", JStr "123456789") :: partial in
  zkproof_route server_config prover (JObj partial)
  = (mkReply 400 (JObj [("error", JStr "Missing required fields")]), [])
  /\ snd (zkproof_route server_config prover (JObj complete)) <> []
  /\ Forall (fun input => is_Some (field (JObj complete) input)) proof_inputs.
Proof.
  cbv zeta. split; [|split].
  - apply (proj1 (zkproof_requires_all_inputs server_config _ _) "salt").
    + cbn. tauto.
    + reflexivity.
  - vm_compute. discriminate.
  - apply (proj2 (zkproof_requires_all_inputs server_config
                    (fun _ => inr (ok_response the_proof)) _)).
    vm_compute. discriminate.
Defined.

End ServerWitness.

(* ===================================================================== *)
(** * Properties of the browser helpers                                   *)
(* ===================================================================== *)

Module ClientFacts.
Import JS Client Inv.

(** Unfolding the monad. *)
Ltac run :=
  repeat (progress (unfold fetch, try_catch, bind, lift, record, getItem, setItem,
                      removeItem, localStorage_getItem, localStorage_setItem, ret, throw;
                    cbv beta iota zeta)).

Lemma removeItems_deletes keys : forall b,
  removeItems keys b
  = (Returned tt,
     mkBrowser (fold_left (fun m key => delete key m) keys (sessionStorage b))
       (localStorage b) (calls b)).
Proof.
  induction keys as [|key keys IH]; intros b; [destruct b; reflexivity|].
  cbn [removeItems fold_left]. run. rewrite IH. reflexivity.
Qed.

Lemma lookup_deleted keys : forall (m : gmap string string) key,
  fold_left (fun m key => delete key m) keys m !! key
  = if bool_decide (key ∈ keys) then None else m !! key.
Proof.
  induction keys as [|k keys IH]; intros m key; [reflexivity|].
  cbn [fold_left]. rewrite IH.
  destruct (decide (key = k)) as [->|Hne].
  - rewrite lookup_delete_eq, (bool_decide_eq_true_2 (k ∈ k :: keys))
      by (apply elem_of_cons; left; reflexivity).
    case_bool_decide; reflexivity.
  - rewrite lookup_delete_ne by congruence.
    rewrite (bool_decide_ext (key ∈ k :: keys) (key ∈ keys)); [reflexivity|].
    rewrite elem_of_cons. tauto.
Qed.


Section Flow.
Context `{JsonCodec} `{ZkLoginSdk} (cfg : ViteEnv) (env : Env).

(** C4.  When the epoch endpoint answers with an epoch that reads as the
    number [e] (in the range where JavaScript numbers are exact),
    [prepareLogin] takes [e + 2] as the bound, which is strictly above [e]:
    it stores the fresh secret key, the decimal rendering of [e + 2] (which
    reads back as the number [e + 2]), the fresh randomness, and the nonce
    computed from the fresh public key, [e + 2] and that randomness, and it
    returns the provider URL carrying that nonce. *)
Theorem prepareLogin_max_epoch
    (b : Browser) (response : Response) (epochInfo : JSON) (epoch : JSValue)
    (e : Z) (nonce : string) :
  fetch_response env FetchEpoch = inr response ->
  ok response = true ->
  json response = inr epochInfo ->
  prop epochInfo "epoch" = inr epoch ->
  Number epoch = Num e ->
  0 <= e -> e + 2 <= MAX_SAFE_INTEGER ->
  generateNonce (getPublicKey (new_Ed25519Keypair env)) (Num (e + 2))
    (generateRandomness env) = inr nonce ->
  let after := snd (prepareLogin cfg env b) in
  e < e + 2
  /\ fst (prepareLogin cfg env b)
     = Returned (mkUrl "https://accounts.google.com/o/oauth2/v2/auth"
                   [("client_id", CLIENT_ID cfg); ("response_type", "id_token");
                    ("redirect_uri", REDIRECT_URL cfg); ("scope", "openid");
                    ("nonce", nonce)])
  /\ sessionStorage after
     = <[NONCE := nonce]>
         (<[RANDOMNESS := generateRandomness env]>
            (<[MAX_EPOCH := dec (e + 2)]>
               (<[EPHEMERAL_PRIVATE_KEY := getSecretKey (new_Ed25519Keypair env)]>
                  (sessionStorage b))))
  /\ Number_of_string (dec (e + 2)) = Num (e + 2)
  /\ localStorage after = localStorage b
  /\ calls after = (calls b ++ [FetchEpoch])%list.
Proof.
  intros Hfetch Hok Hjson Hprop Hnumber _ _ Hnonce. cbv zeta.
  unfold prepareLogin. run.
  rewrite Hfetch. run. rewrite Hok. cbn [negb]. run.
  rewrite Hjson. run. rewrite Hprop. run.
  rewrite Hnumber. cbn [number_add number_to_string].
  rewrite Hnonce. run. cbn [fst snd sessionStorage localStorage calls].
  repeat split; [lia|apply JSFacts.Number_dec].
Qed.

(** C2.  For every stored session and every token whose claims decode:
    unless the stored nonce and the recomputed nonce both equal the nonce
    of the token, [completeZkLogin] throws and leaves the browser as it was
    (no request is sent, neither storage changes); and when the binding is
    stored and the nonce of the token differs from the stored nonce, the
    error is the nonce mismatch. *)
Theorem nonce_binding_enforced
    (token : string) (claims : list (string * JSON)) (b : Browser) :
  jwtDecode token = inr (JObj claims) ->
  (nonce_verified b (lookup_field "nonce" claims) = false ->
   (exists message, fst (completeZkLogin env token b) = Thrown (Error message))
   /\ snd (completeZkLogin env token b) = b)
  /\ (binding_stored b = true ->
      strict_eq (sessionStorage b !! NONCE) (lookup_field "nonce" claims) = false ->
      fst (completeZkLogin env token b)
      = Thrown (Error "Failed to complete zkLogin: Nonce mismatch. Please try logging in again.")).
Proof.
  intros Hdecode. unfold completeZkLogin, nonce_verified, rederived_nonce, binding_stored.
  run. rewrite Hdecode. cbn [prop field].
  destruct (sessionStorage b !! EPHEMERAL_PRIVATE_KEY) as [key|];
    destruct (sessionStorage b !! MAX_EPOCH) as [maxEpoch|];
    destruct (sessionStorage b !! RANDOMNESS) as [randomness|];
    cbn [falsy_item orb negb andb from_option id];
    rewrite ?orb_true_r, ?andb_false_r;
    try (split; [intros _; split; [eexists; reflexivity|reflexivity]|discriminate]).
  destruct (String.eqb key "") eqn:Ekey; cbn [orb negb andb];
    [split; [intros _; split; [eexists; reflexivity|reflexivity]|discriminate]|].
  destruct (String.eqb maxEpoch "") eqn:Eepoch; cbn [orb negb andb];
    [split; [intros _; split; [eexists; reflexivity|reflexivity]|discriminate]|].
  destruct (String.eqb randomness "") eqn:Erandomness; cbn [orb negb andb];
    [split; [intros _; split; [eexists; reflexivity|reflexivity]|discriminate]|].
  destruct (strict_eq (sessionStorage b !! NONCE) (lookup_field "nonce" claims)) eqn:Estored;
    cbn [negb andb];
    [|split; [intros _; split; [eexists; reflexivity|reflexivity]|reflexivity]].
  split; [|discriminate].
  destruct (fromSecretKey key) as [e|keypair]; run;
    [intros _; split; [eexists; reflexivity|reflexivity]|].
  destruct (generateNonce (getPublicKey keypair) (Number_of_string maxEpoch) randomness)
    as [e|verifyNonce]; run;
    [intros _; split; [eexists; reflexivity|reflexivity]|].
  intros ->. cbn [negb]. split; [eexists; reflexivity|reflexivity].
Qed.

(** ** Relating two runs *)

Lemma related_bind {A B} P Q T (m1 m2 : M A) (k1 k2 : A -> M B) :
  related P m1 m2 Q ->
  (forall x, related Q (k1 x) (k2 x) T) ->
  (forall b1 b2, Q b1 b2 -> T b1 b2) ->
  related P (bind m1 k1) (bind m2 k2) T.
Proof.
  intros Hm Hk Hweak b1 b2 HP. unfold bind.
  destruct (Hm b1 b2 HP) as [Hout HQ].
  destruct (m1 b1) as [[x1|e1] b1'], (m2 b2) as [[x2|e2] b2'];
    cbn [fst snd] in *; simplify_eq.
  - apply Hk, HQ.
  - split; [reflexivity|apply Hweak, HQ].
Qed.

Lemma related_try_catch {A} P Q T (m1 m2 : M A) (h1 h2 : Exn -> M A) :
  related P m1 m2 Q ->
  (forall e, related Q (h1 e) (h2 e) T) ->
  (forall b1 b2, Q b1 b2 -> T b1 b2) ->
  related P (try_catch m1 h1) (try_catch m2 h2) T.
Proof.
  intros Hm Hh Hweak b1 b2 HP. unfold try_catch.
  destruct (Hm b1 b2 HP) as [Hout HQ].
  destruct (m1 b1) as [[x1|e1] b1'], (m2 b2) as [[x2|e2] b2'];
    cbn [fst snd] in *; simplify_eq.
  - split; [reflexivity|apply Hweak, HQ].
  - apply Hh, HQ.
Qed.

Lemma related_same {A} (m : M A) : related eq m m eq.
Proof. intros b1 b2 ->. split; reflexivity. Qed.

Lemma related_ret {A} P (x : A) : related P (ret x) (ret x) P.
Proof. intros b1 b2 HP. split; [reflexivity|exact HP]. Qed.

Lemma related_throw {A} P (e : Exn) : related P (@throw A e) (throw e) P.
Proof. intros b1 b2 HP. split; [reflexivity|exact HP]. Qed.

Lemma related_lift {A} P (r : Exn + A) : related P (lift r) (lift r) P.
Proof. destruct r; [apply related_throw|apply related_ret]. Qed.

Lemma agree_but_flag_refl b : agree_but_flag b b.
Proof. repeat split. Qed.

Lemma related_setItem key value :
  related agree_but_flag (setItem key value) (setItem key value) agree_but_flag.
Proof.
  intros b1 b2 (Hcalls & Hlocal & Hsession). unfold setItem, agree_but_flag.
  cbn [fst snd calls localStorage sessionStorage].
  repeat split; try assumption.
  destruct (decide (SALT_BACKUP_SENT = key)) as [<-|Hne].
  - rewrite !delete_insert_eq. exact Hsession.
  - rewrite !(delete_insert_ne _ _ _ _ Hne), Hsession. reflexivity.
Qed.

Lemma related_record c :
  related agree_but_flag (record c) (record c) agree_but_flag.
Proof.
  intros b1 b2 (Hcalls & Hlocal & Hsession). unfold record, agree_but_flag.
  cbn [fst snd calls localStorage sessionStorage].
  repeat split; try assumption. rewrite Hcalls. reflexivity.
Qed.

(** One step of two runs that are still in the same browser. *)
Ltac same_start :=
  lazymatch goal with
  | |- related eq (bind ?m _) (bind ?m _) agree_but_flag =>
      apply (related_bind eq eq agree_but_flag m m);
      [apply related_same|intros ?|intros ? ? ->; apply agree_but_flag_refl]
  | |- related eq (if ?c then _ else _) (if ?c then _ else _) _ => destruct c
  | |- related eq (throw _) (throw _) _ =>
      intros ? ? ->; split; [reflexivity|apply agree_but_flag_refl]
  end.

(** One step of two runs of the same code in browsers that agree but for
    the flag. *)
Ltac flag_step :=
  lazymatch goal with
  | |- related agree_but_flag (bind _ _) (bind _ _) agree_but_flag =>
      eapply (related_bind agree_but_flag agree_but_flag agree_but_flag);
      [|intros ?|auto]
  | |- related agree_but_flag (if ?c then _ else _) (if ?c then _ else _) _ => destruct c
  | |- related _ (lift _) (lift _) _ => apply related_lift
  | |- related _ (ret _) (ret _) _ => apply related_ret
  | |- related _ (throw _) (throw _) _ => apply related_throw
  | |- related _ (setItem _ _) (setItem _ _) _ => apply related_setItem
  | |- related _ (record _) (record _) _ => apply related_record
  end.

(** The backup step: whatever the endpoint answers, it returns, and it
    changes nothing but the flag and the list of requests. *)
Lemma related_backup_step (r1 r2 : Exn + Response) (c : Call) :
  related eq
    (try_catch
       (do! try_catch
              (let! response := do! record c in lift r1 in
               if negb (ok response)
               then throw (Error ("Email service returned " ++ dec (status response)))
               else let! result := lift (json response) in ret tt)
              (fun error => throw error)
        in setItem SALT_BACKUP_SENT "true")
       (fun emailError => ret tt))
    (try_catch
       (do! try_catch
              (let! response := do! record c in lift r2 in
               if negb (ok response)
               then throw (Error ("Email service returned " ++ dec (status response)))
               else let! result := lift (json response) in ret tt)
              (fun error => throw error)
        in setItem SALT_BACKUP_SENT "true")
       (fun emailError => ret tt))
    agree_but_flag.
Proof.
  intros b1 b2 ->. run. unfold agree_but_flag.
  destruct r1 as [e1|response1], r2 as [e2|response2]; run;
    try destruct (ok response1); try destruct (ok response2); cbn [negb]; run;
    try destruct (json response1); try destruct (json response2); run;
    cbn [fst snd calls localStorage sessionStorage];
    rewrite ?delete_insert_eq; repeat split; reflexivity.
Qed.

(** Two logins that differ only in what the backup endpoint answers (an
    error, a refusal, an unreadable body or a success) end with the same
    result, send the same requests and leave the same storage, the
    one-shot flag [salt_backup_sent] apart. *)
Lemma backup_answers_agree
    (backup1 backup2 : Call -> Exn + Response) (token : string) (b : Browser) :
  let run1 := completeZkLogin (Deployment.with_backup_response backup1 env) token b in
  let run2 := completeZkLogin (Deployment.with_backup_response backup2 env) token b in
  fst run1 = fst run2
  /\ calls (snd run1) = calls (snd run2)
  /\ localStorage (snd run1) = localStorage (snd run2)
  /\ delete SALT_BACKUP_SENT (sessionStorage (snd run1))
     = delete SALT_BACKUP_SENT (sessionStorage (snd run2)).
Proof.
  cbv zeta.
  assert (related eq
            (completeZkLogin (Deployment.with_backup_response backup1 env) token)
            (completeZkLogin (Deployment.with_backup_response backup2 env) token)
            agree_but_flag) as Hrelated.
  { unfold completeZkLogin, sendSaltBackupEmail, fetch.
    cbn [Deployment.with_backup_response fetch_response now_ISOString]. cbv zeta.
    apply related_try_catch with (Q := agree_but_flag);
      [|intros e; apply related_throw|auto].
    repeat same_start.
    apply related_bind with (Q := agree_but_flag); [| |auto].
    - destruct (_ && _).
      + apply related_backup_step.
      + intros b1 b2 ->. split; [reflexivity|apply agree_but_flag_refl].
    - intros _. repeat flag_step. }
  destruct (Hrelated b b eq_refl) as (Hout & Hcalls & Hlocal & Hsession).
  repeat split; assumption.
Qed.

(** ** Signing *)

(** What [executeZkLoginTransaction] does once the session has loaded and
    the transaction is signed. *)
Lemma executeZkLoginTransaction_loaded (tx : Transaction) (b : Browser) (s : Loaded) :
  loaded env tx b s ->
  executeZkLoginTransaction env tx b
  = let signing := SignTransaction (setSender (address s) tx) (keypair s) in
    let signed := mkBrowser (sessionStorage b) (localStorage b) (calls b ++ [signing]) in
    match address_seed (decodedJwt s) (userSalt s) with
    | inl e => (execution_failure e, signed)
    | inr addressSeed =>
        let inputs :=
          JObj (with_property "addressSeed" (JStr addressSeed) (spread (zkProof s))) in
        match getZkLoginSignature inputs (maxEpoch s) (userSignature s) with
        | inl e => (execution_failure e, signed)
        | inr signature =>
            let submitted :=
              mkBrowser (sessionStorage b) (localStorage b)
                ((calls b ++ [signing]) ++ [ExecuteTransactionBlock (bytes s) signature]) in
            match execute_response env (bytes s) signature with
            | inl e => (execution_failure e, submitted)
            | inr result => (Returned result, submitted)
            end
        end
    end.
Proof.
  intros ([K1 K2] & [E1 E2] & [P1 P2] & [S1 S2] & [J1 J2] & [A1 A2]
          & Hproof & Hjwt & Hkey & Hsign).
  unfold executeZkLoginTransaction, execution_failure. run.
  rewrite K1, E1, P1, S1, J1, A1. cbn [falsy_item from_option id].
  rewrite K2, E2, P2, S2, J2, A2. cbn [orb].
  rewrite Hproof. run. rewrite Hjwt. run. rewrite Hkey. run.
  rewrite Hsign. run. cbn [fst snd sessionStorage localStorage calls].
  destruct (address_seed (decodedJwt s) (userSalt s)) as [e|addressSeed]; run;
    [reflexivity|].
  destruct (getZkLoginSignature _ (maxEpoch s) (userSignature s)) as [e|signature]; run;
    [reflexivity|].
  cbn [fst snd sessionStorage localStorage calls].
  destruct (execute_response env (bytes s) signature); reflexivity.
Qed.




(** C1 (as the code has it).  [executeZkLoginTransaction] never compares
    the stored bound with the epoch of the ledger: once the session has
    loaded and the signature is assembled, it signs and submits, sending
    exactly the two requests to the full node, and its result is the answer
    of the ledger; the stored bound only goes into the signature.  None of
    this depends on what the HTTP endpoints, the epoch endpoint among them,
    would answer. *)
Theorem session_expiry_not_checked
    (tx : Transaction) (b : Browser) (s : Loaded) (addressSeed signature : string) :
  loaded env tx b s ->
  address_seed (decodedJwt s) (userSalt s) = inr addressSeed ->
  getZkLoginSignature
    (JObj (with_property "addressSeed" (JStr addressSeed) (spread (zkProof s))))
    (maxEpoch s) (userSignature s) = inr signature ->
  calls (snd (executeZkLoginTransaction env tx b))
  = (calls b ++ [SignTransaction (setSender (address s) tx) (keypair s);
                 ExecuteTransactionBlock (bytes s) signature])%list
  /\ fst (executeZkLoginTransaction env tx b)
     = match execute_response env (bytes s) signature with
       | inl e => execution_failure e
       | inr result => Returned result
       end
  /\ forall http freshKeypair freshRandomness now,
       executeZkLoginTransaction
         (mkEnv http (sign_response env) (execute_response env)
            freshKeypair freshRandomness now) tx b
       = executeZkLoginTransaction env tx b.
Proof.
  intros Hloaded Hseed Hsignature.
  split; [|split]; [| |intros; reflexivity].
  all: rewrite (executeZkLoginTransaction_loaded _ _ _ Hloaded), Hseed; cbv zeta.
  all: rewrite Hsignature, <- app_assoc; cbn [app].
  all: destruct (execute_response env (bytes s) signature); reflexivity.
Qed.

(** ** The salt request of a login *)

(** When the salt endpoint refuses, the login fails, and the salt request
    is the only request it may have sent. *)
Lemma completeZkLogin_salt_refused (token : string) (b : Browser) :
  (forall response,
      fetch_response env (FetchSalt token) = inr response -> ok response = false) ->
  (exists message, fst (completeZkLogin env token b) = Thrown (Error message))
  /\ (snd (completeZkLogin env token b) = b
      \/ snd (completeZkLogin env token b)
         = mkBrowser (sessionStorage b) (localStorage b)
             (calls b ++ [FetchSalt token])).
Proof.
  intros Hrefused. unfold completeZkLogin. run.
  destruct (jwtDecode token) as [e|decoded]; run;
    [split; [eexists; reflexivity|left; reflexivity]|].
  destruct (prop decoded "aud") as [e|aud]; run;
    [split; [eexists; reflexivity|left; reflexivity]|].
  destruct (falsy_item _ || falsy_item _ || falsy_item _);
    [split; [eexists; reflexivity|left; reflexivity]|].
  destruct (negb (strict_eq _ _));
    [split; [eexists; reflexivity|left; reflexivity]|].
  destruct (fromSecretKey _) as [e|keypair]; run;
    [split; [eexists; reflexivity|left; reflexivity]|].
  destruct (generateNonce _ _ _) as [e|verifyNonce]; run;
    [split; [eexists; reflexivity|left; reflexivity]|].
  destruct (negb (strict_eq _ _));
    [split; [eexists; reflexivity|left; reflexivity]|].
  destruct (fetch_response env (FetchSalt token)) as [e|response] eqn:Hfetch; run;
    [split; [eexists; reflexivity|right; reflexivity]|].
  rewrite (Hrefused _ eq_refl). run.
  split; [eexists; reflexivity|right; reflexivity].
Qed.

(** When the binding is stored and both nonce checks pass, a refusal of
    the salt endpoint comes after the salt request has been sent. *)
Lemma completeZkLogin_salt_refused_after_request
    (token : string) (claims : list (string * JSON)) (b : Browser) :
  jwtDecode token = inr (JObj claims) ->
  binding_stored b = true ->
  nonce_verified b (lookup_field "nonce" claims) = true ->
  (forall response,
      fetch_response env (FetchSalt token) = inr response -> ok response = false) ->
  calls (snd (completeZkLogin env token b)) = (calls b ++ [FetchSalt token])%list.
Proof.
  intros Hdecode Hstored Hverified Hrefused.
  unfold binding_stored in Hstored. unfold nonce_verified, rederived_nonce in Hverified.
  unfold completeZkLogin. run. rewrite Hdecode. cbn [prop field].
  destruct (sessionStorage b !! EPHEMERAL_PRIVATE_KEY) as [key|]; [|discriminate].
  destruct (sessionStorage b !! MAX_EPOCH) as [maxEpoch|];
    [|rewrite andb_false_r in Hstored; discriminate].
  destruct (sessionStorage b !! RANDOMNESS) as [randomness|];
    [|rewrite andb_false_r in Hstored; discriminate].
  apply andb_prop in Hstored as [Hstored Hrandom].
  apply andb_prop in Hstored as [Hkey Hepoch].
  apply negb_true_iff in Hkey, Hepoch, Hrandom.
  rewrite Hkey, Hepoch, Hrandom. cbn [orb from_option id].
  apply andb_prop in Hverified as [Hnonce Hrederived].
  rewrite Hnonce. cbn [negb].
  destruct (fromSecretKey key) as [e|keypair]; [discriminate|]. run.
  destruct (generateNonce _ _ _) as [e|verifyNonce]; [discriminate|]. run.
  rewrite Hrederived. cbn [negb].
  destruct (fetch_response env (FetchSalt token)) as [e|response] eqn:Hfetch; run;
    [reflexivity|].
  rewrite (Hrefused _ eq_refl). run. reflexivity.
Qed.
End Flow.

Section Deployed.
Context `{JsonCodec} `{ZkLoginSdk} `{Server.NodeLibs}.
Context (cfg : Server.Config) (userSalts : gmap string string) (env : Env).

(** The salt route refuses a token without subject with status 403 and
    leaves its cache alone. *)
Lemma salt_route_refuses_missing_sub (token : string) (claims : list (string * JSON)) :
  Server.jwt_decode token = inr (JObj claims) ->
  lookup_field "sub" claims = None ->
  Server.reply_status
    (fst (Server.salt_route cfg userSalts (Deployment.salt_request token))) = 403
  /\ snd (Server.salt_route cfg userSalts (Deployment.salt_request token)) = userSalts.
Proof.
  intros Hdecode Hsub.
  unfold Server.salt_route, Deployment.salt_request.
  cbn [prop field lookup_field String.eqb Ascii.eqb Bool.eqb truthy is_string andb negb].
  rewrite andb_false_r.
  destruct (String.eqb token "" || negb (Server.parts token =? 3)); [split; reflexivity|].
  destruct (Server.decode_claims token) as [decoded|] eqn:Hclaims; [|split; reflexivity].
  apply ServerFacts.decode_claims_decoded in Hclaims.
  assert (decoded = JObj claims) as -> by congruence.
  cbn [field]. rewrite Hsub. split; reflexivity.
Qed.

(** C5 (as the code has it).  The browser does not look at the subject: a
    token without [sub] is refused by the salt route, with status 403 and
    before any derivation.  Such a login always fails; it sends no proof
    request and no backup request (at most the salt request), and it
    leaves both storage areas as they were.  When the binding is stored
    and both nonce checks pass, the salt request is sent. *)
Theorem token_without_sub_refused_by_salt_route
    (token : string) (claims : list (string * JSON)) (b : Browser) :
  Server.jwt_decode token = inr (JObj claims) ->
  lookup_field "sub" claims = None ->
  let served := Deployment.with_salt_route cfg userSalts env in
  (exists message, fst (completeZkLogin served token b) = Thrown (Error message))
  /\ (calls (snd (completeZkLogin served token b)) = calls b
      \/ calls (snd (completeZkLogin served token b))
         = (calls b ++ [FetchSalt token])%list)
  /\ sessionStorage (snd (completeZkLogin served token b)) = sessionStorage b
  /\ localStorage (snd (completeZkLogin served token b)) = localStorage b
  /\ Server.reply_status
       (fst (Server.salt_route cfg userSalts (Deployment.salt_request token))) = 403
  /\ snd (Server.salt_route cfg userSalts (Deployment.salt_request token)) = userSalts
  /\ forall browserClaims : list (string * JSON),
       jwtDecode token = inr (JObj browserClaims) ->
       binding_stored b = true ->
       nonce_verified b (lookup_field "nonce" browserClaims) = true ->
       calls (snd (completeZkLogin served token b)) = (calls b ++ [FetchSalt token])%list.
Proof.
  intros Hdecode Hsub. cbv zeta.
  destruct (salt_route_refuses_missing_sub token claims Hdecode Hsub) as [Hstatus Hcache].
  assert (forall response,
             fetch_response (Deployment.with_salt_route cfg userSalts env) (FetchSalt token)
             = inr response ->
             ok response = false) as Hrefused.
  { intros response. cbn [Deployment.with_salt_route fetch_response].
    intros [= <-]. unfold Deployment.response_of_reply. cbn [ok].
    rewrite Hstatus. reflexivity. }
  assert (forall browserClaims : list (string * JSON),
             jwtDecode token = inr (JObj browserClaims) ->
             binding_stored b = true ->
             nonce_verified b (lookup_field "nonce" browserClaims) = true ->
             calls (snd (completeZkLogin (Deployment.with_salt_route cfg userSalts env)
                           token b))
             = (calls b ++ [FetchSalt token])%list) as Hsends.
  { intros browserClaims Hread Hstored Hverified.
    exact (completeZkLogin_salt_refused_after_request _ token browserClaims b
             Hread Hstored Hverified Hrefused). }
  destruct (completeZkLogin_salt_refused
              (Deployment.with_salt_route cfg userSalts env) token b Hrefused)
    as [Hfails [Hsame|Hsent]].
  - split; [exact Hfails|]. rewrite Hsame in Hsends |- *. repeat split; auto.
  - split; [exact Hfails|]. rewrite Hsent in Hsends |- *.
    cbn [calls sessionStorage localStorage] in Hsends |- *. repeat split; auto.
Qed.

End Deployed.

End ClientFacts.

(* ===================================================================== *)
(** * The flow on the sample world                                        *)
(* ===================================================================== *)

Module ClientWitness.
Import JS Client Inv Sample Fixtures ClientFacts.

Lemma prepareLogin_max_epoch_witness :
  let after := snd (prepareLogin client_config (world "5") empty_browser) in
  fetch_response (world "5") FetchEpoch = inr (ok_response (epoch_info "5"))
  /\ Number (Some (JStr "5")) = Num 5
  /\ sessionStorage after !! MAX_EPOCH = Some "7"
  /\ sessionStorage after = pending_session.
Proof.
  cbv zeta.
  destruct (prepareLogin_max_epoch client_config (world "5") empty_browser
              (ok_response (epoch_info "5")) (epoch_info "5") (Some (JStr "5")) 5
              the_nonce)
    as (_ & _ & Hsession & _ & _); try (vm_compute; reflexivity); try (vm_compute; discriminate).
  do 2 (split; [vm_compute; reflexivity|]).
  rewrite Hsession. split; vm_compute; reflexivity.
Defined.

Lemma nonce_binding_enforced_witness :
  let run := completeZkLogin (world "5") other_nonce_token pending_browser in
  jwtDecode other_nonce_token = inr other_nonce_claims
  /\ nonce_verified pending_browser (field other_nonce_claims "nonce") = false
  /\ binding_stored pending_browser = true
  /\ fst run
     = Thrown (Error "Failed to complete zkLogin: Nonce mismatch. Please try logging in again.")
  /\ snd run = pending_browser.
Proof.
  cbv zeta.
  destruct (nonce_binding_enforced (world "5") other_nonce_token other_nonce_fields
              pending_browser) as [Hclosed Hreported]; [vm_compute; reflexivity|].
  destruct Hclosed as [_ Hstate]; [vm_compute; reflexivity|].
  do 3 (split; [vm_compute; reflexivity|]).
  split; [apply Hreported; vm_compute; reflexivity|exact Hstate].
Defined.

Ltac session_loaded := unfold loaded, holds; repeat split; vm_compute; reflexivity.


Lemma session_expiry_not_checked_witness :
  let b := authenticated_browser "10" alice_claims in
  let run := executeZkLoginTransaction (world "9") transfer b in
  loaded (world "9") transfer b (alice_session "10" alice_claims)
  /\ calls (snd run)
     = [SignTransaction (setSender "0xh.alice.s-123456789" transfer) (Ed25519Keypair "k1");
        ExecuteTransactionBlock "bytes-split-and-transfer"
          (default "" (sign_of (getZkLoginSignature
             (JObj (with_property "addressSeed" (JStr "123456789078") (spread the_proof)))
             "10" "signature-k1")))]
  /\ fst run = Returned (JObj [("digest", JStr "digest-1")]).
Proof.
  cbv zeta.
  assert (loaded (world "9") transfer (authenticated_browser "10" alice_claims)
            (alice_session "10" alice_claims)) as Hloaded by session_loaded.
  destruct (session_expiry_not_checked (world "9") transfer
              (authenticated_browser "10" alice_claims)
              (alice_session "10" alice_claims) "123456789078"
              (default "" (sign_of (getZkLoginSignature
                 (JObj (with_property "addressSeed" (JStr "123456789078") (spread the_proof)))
                 "10" "signature-k1")))
              Hloaded)
    as (Hcalls & Hresult & _); try (vm_compute; reflexivity).
  split; [exact Hloaded|]. split; [exact Hcalls|exact Hresult].
Defined.

(** C1, as stated, fails: with the bound 10 stored and the ledger in epoch
    11, the transaction is signed and submitted, and the result is the
    answer of the ledger. *)
Lemma expired_session_is_submitted :
  let b := authenticated_browser "10" alice_claims in
  let run := executeZkLoginTransaction (world "11") transfer b in
  (exists response info,
      fetch_response (world "11") FetchEpoch = inr response
      /\ json response = inr info
      /\ Number (field info "epoch") = Num 11)
  /\ sessionStorage b !! MAX_EPOCH = Some "10"
  /\ fst run = Returned (JObj [("digest", JStr "digest-1")])
  /\ exists signature,
       calls (snd run)
       = [SignTransaction (setSender "0xh.alice.s-123456789" transfer) (Ed25519Keypair "k1");
          ExecuteTransactionBlock "bytes-split-and-transfer" signature].
Proof.
  cbv zeta. split; [|split; [|split]].
  - exists (ok_response (epoch_info "11")), (epoch_info "11").
    repeat split; vm_compute; reflexivity.
  - vm_compute; reflexivity.
  - vm_compute; reflexivity.
  - eexists. vm_compute. reflexivity.
Qed.

Lemma token_without_sub_refused_by_salt_route_witness :
  let served := Deployment.with_salt_route server_config ∅ (world "5") in
  let run := completeZkLogin served no_sub_token pending_browser in
  Server.jwt_decode no_sub_token = inr (JObj no_sub_fields)
  /\ lookup_field "sub" no_sub_fields = None
  /\ (exists message, fst run = Thrown (Error message))
  /\ sessionStorage (snd run) = pending_session
  /\ Server.reply_status
       (fst (Server.salt_route server_config ∅ (Deployment.salt_request no_sub_token)))
     = 403
  /\ calls (snd run) = [FetchSalt no_sub_token].
Proof.
  cbv zeta.
  destruct (token_without_sub_refused_by_salt_route server_config ∅ (world "5")
              no_sub_token no_sub_fields pending_browser)
    as (Hfails & _ & Hsession & _ & Hstatus & _ & Hsends); try reflexivity.
  do 2 (split; [reflexivity|]).
  split; [exact Hfails|]. split; [exact Hsession|]. split; [exact Hstatus|].
  apply (Hsends no_sub_fields); vm_compute; reflexivity.
Defined.

(** C5, as stated, fails: a login with a token without [sub] whose nonce
    matches the session does send the salt request. *)
Lemma token_without_sub_reaches_salt_endpoint :
  let served := Deployment.with_salt_route server_config ∅ (world "5") in
  let run := completeZkLogin served no_sub_token pending_browser in
  jwtDecode no_sub_token = inr no_sub_claims
  /\ field no_sub_claims "sub" = None
  /\ calls (snd run) = [FetchSalt no_sub_token]
  /\ fst run
     = Thrown (Error "Failed to complete zkLogin: Failed to fetch user salt: Missing user subject (sub)").
Proof. cbv zeta. repeat split; vm_compute; reflexivity. Qed.

(** A login whose backup request fails still succeeds. *)
Lemma login_survives_backup_failure :
  let failing := Deployment.with_backup_response
                   (fun _ => inl (Error "Failed to fetch")) (world "5") in
  fst (completeZkLogin failing alice_token pending_browser)
  = Returned ("0xh.alice.s-123456789", alice_claims).
Proof. vm_compute. reflexivity. Qed.

End ClientWitness.

(* ===================================================================== *)
(** * Stepping through one run                                            *)
(* ===================================================================== *)

Module RunFacts.
Import JS Client Inv Run.

Lemma wp_bind {A B} (m : M A) (k : A -> M B) Q b :
  wp m (fun o b' =>
          match o with
          | Returned a => wp (k a) Q b'
          | Thrown e => Q (Thrown e) b'
          end) b ->
  wp (bind m k) Q b.
Proof. unfold wp, bind. destruct (m b) as [[a|e] b']; exact id. Qed.

Lemma wp_try_catch {A} (m : M A) (h : Exn -> M A) Q b :
  wp m (fun o b' =>
          match o with
          | Returned a => Q (Returned a) b'
          | Thrown e => wp (h e) Q b'
          end) b ->
  wp (try_catch m h) Q b.
Proof. unfold wp, try_catch. destruct (m b) as [[a|e] b']; exact id. Qed.

Lemma wp_ret {A} (a : A) Q b : Q (Returned a) b -> wp (ret a) Q b.
Proof. exact id. Qed.

Lemma wp_throw {A} (e : Exn) (Q : Outcome A -> Browser -> Prop) b :
  Q (Thrown e) b -> wp (throw e) Q b.
Proof. exact id. Qed.

Lemma wp_lift {A} (r : Exn + A) Q b :
  match r with
  | inl e => Q (Thrown e) b
  | inr a => Q (Returned a) b
  end ->
  wp (lift r) Q b.
Proof. destruct r; exact id. Qed.

Lemma wp_getItem key Q b :
  Q (Returned (sessionStorage b !! key)) b -> wp (getItem key) Q b.
Proof. exact id. Qed.

Lemma wp_setItem key value Q b :
  Q (Returned tt)
    (mkBrowser (<[key := value]> (sessionStorage b)) (localStorage b) (calls b)) ->
  wp (setItem key value) Q b.
Proof. exact id. Qed.

Lemma wp_removeItem key Q b :
  Q (Returned tt)
    (mkBrowser (delete key (sessionStorage b)) (localStorage b) (calls b)) ->
  wp (removeItem key) Q b.
Proof. exact id. Qed.

Lemma wp_localStorage_getItem key Q b :
  Q (Returned (localStorage b !! key)) b -> wp (localStorage_getItem key) Q b.
Proof. exact id. Qed.

Lemma wp_localStorage_setItem key value Q b :
  Q (Returned tt)
    (mkBrowser (sessionStorage b) (<[key := value]> (localStorage b)) (calls b)) ->
  wp (localStorage_setItem key value) Q b.
Proof. exact id. Qed.

Lemma wp_record c Q b :
  Q (Returned tt) (mkBrowser (sessionStorage b) (localStorage b) (calls b ++ [c])) ->
  wp (record c) Q b.
Proof. exact id. Qed.

(** One step of a run: the head of the computation is taken apart, and a
    library call or a test is split into its cases. *)
Ltac wp_tidy := cbv beta iota zeta; cbn [sessionStorage localStorage calls fst snd].

Ltac wp_step :=
  lazymatch goal with
  | |- wp (bind _ _) _ _ => apply wp_bind
  | |- wp (try_catch _ _) _ _ => apply wp_try_catch
  | |- wp (ret _) _ _ => apply wp_ret
  | |- wp (throw _) _ _ => apply wp_throw
  | |- wp (lift ?r) _ _ =>
      apply wp_lift;
      first [ is_var r; destruct r
            | let E := fresh "E" in destruct r eqn:E ]
  | |- wp (getItem _) _ _ => apply wp_getItem
  | |- wp (setItem _ _) _ _ => apply wp_setItem
  | |- wp (removeItem _) _ _ => apply wp_removeItem
  | |- wp (localStorage_getItem _) _ _ => apply wp_localStorage_getItem
  | |- wp (localStorage_setItem _ _) _ _ => apply wp_localStorage_setItem
  | |- wp (record _) _ _ => apply wp_record
  | |- wp (fetch _ _) _ _ => unfold fetch
  | |- wp (sendSaltBackupEmail _ _ _ _) _ _ => unfold sendSaltBackupEmail
  | |- wp (if ?c then _ else _) _ _ =>
      let E := fresh "E" in destruct c eqn:E
  end; wp_tidy.

(** The steps that do not branch. *)
Ltac wp_straight :=
  repeat (lazymatch goal with
          | |- wp (bind _ _) _ _ => apply wp_bind
          | |- wp (try_catch _ _) _ _ => apply wp_try_catch
          | |- wp (ret _) _ _ => apply wp_ret
          | |- wp (throw _) _ _ => apply wp_throw
          | |- wp (getItem _) _ _ => apply wp_getItem
          | |- wp (setItem _ _) _ _ => apply wp_setItem
          | |- wp (removeItem _) _ _ => apply wp_removeItem
          | |- wp (localStorage_getItem _) _ _ => apply wp_localStorage_getItem
          | |- wp (localStorage_setItem _ _) _ _ => apply wp_localStorage_setItem
          | |- wp (record _) _ _ => apply wp_record
          | |- wp (fetch _ _) _ _ => unfold fetch
          | |- wp (lift (inr _)) _ _ => apply wp_lift
          | |- wp (lift (inl _)) _ _ => apply wp_lift
          | |- wp (if true then _ else _) _ _ => idtac
          | |- wp (if false then _ else _) _ _ => idtac
          end; wp_tidy).

Ltac wp_run := repeat wp_step.

(** A lookup, at one of the listed keys, in a storage reached by writing
    other keys. *)
Ltac storage_lookup Hkey :=
  unfold BINDING_KEYS, AUTHENTICATED_KEYS in Hkey;
  repeat (apply elem_of_cons in Hkey as [->|Hkey]);
  [..|apply elem_of_nil in Hkey; contradiction];
  rewrite ?lookup_insert_ne by (intros ?; discriminate); reflexivity.

(** The requests added so far, read off the browser reached. *)
Ltac sent_so_far :=
  rewrite <- ?app_assoc; cbn [app];
  first [ exists []; split; [symmetry; apply app_nil_r|]
        | eexists; split; [reflexivity|] ].

Section Flow.
Context `{JsonCodec} `{ZkLoginSdk} (cfg : ViteEnv) (env : Env).

(** ** [prepareLogin] *)

(** What [prepareLogin] has stored when it returns. *)
Lemma prepareLogin_returned (b : Browser) :
  wp (prepareLogin cfg env)
    (fun outcome after =>
       match outcome with
       | Returned url =>
           exists maxEpoch nonce,
             generateNonce (getPublicKey (new_Ed25519Keypair env)) maxEpoch
               (generateRandomness env) = inr nonce
             /\ search_param "nonce" (searchParams url) = Some nonce
             /\ sessionStorage after
                = <[NONCE := nonce]>
                    (<[RANDOMNESS := generateRandomness env]>
                       (<[MAX_EPOCH := number_to_string maxEpoch]>
                          (<[EPHEMERAL_PRIVATE_KEY := getSecretKey (new_Ed25519Keypair env)]>
                             (sessionStorage b))))
       | Thrown _ => True
       end) b.
Proof.
  unfold prepareLogin. wp_run.
  all: try exact I.
  eauto 10.
Qed.

(** X1.  [prepareLogin] sends exactly one request, the epoch request, and never
    touches the device storage.  Either it returns, and then the whole
    binding is stored and the nonce of the returned URL is the stored
    nonce, computed from the fresh key, the stored bound and the fresh
    randomness; or it throws a wrapped error, and then it has stored
    nothing, except that the fresh private key has already replaced the
    stored one when it is the nonce computation that threw. *)
Theorem prepareLogin_outcomes (b : Browser) :
  wp (prepareLogin cfg env)
    (fun outcome after =>
       let secret := getSecretKey (new_Ed25519Keypair env) in
       let publicKey := getPublicKey (new_Ed25519Keypair env) in
       sent b after [FetchEpoch]
       /\ localStorage after = localStorage b
       /\ match outcome with
          | Returned url =>
              exists maxEpoch nonce,
                generateNonce publicKey maxEpoch (generateRandomness env) = inr nonce
                /\ search_param "nonce" (searchParams url) = Some nonce
                /\ sessionStorage after
                   = <[NONCE := nonce]>
                       (<[RANDOMNESS := generateRandomness env]>
                          (<[MAX_EPOCH := number_to_string maxEpoch]>
                             (<[EPHEMERAL_PRIVATE_KEY := secret]> (sessionStorage b))))
          | Thrown e =>
              (exists reason, e = Error ("Failed to prepare login: " ++ reason))
              /\ (sessionStorage after = sessionStorage b
                  \/ (sessionStorage after
                      = <[EPHEMERAL_PRIVATE_KEY := secret]> (sessionStorage b)
                      /\ exists maxEpoch reason,
                           generateNonce publicKey maxEpoch (generateRandomness env)
                           = inl reason))
          end) b.
Proof.
  unfold prepareLogin, sent. wp_run.
  all: repeat split; eauto 10.
Qed.

(** ** [completeZkLogin] *)

(** X2.  The requests of a login come in a fixed order: nothing at all, or the
    salt request, followed by at most one backup request and then at most
    one proof request.  A proof request is never sent without the salt
    request before it, and it carries the token, the stored bound and
    randomness, and the very salt that went into the backup. *)
Theorem completeZkLogin_request_order (token : string) (b : Browser) :
  wp (completeZkLogin env token)
    (fun outcome after =>
       exists new, sent b after new /\ login_requests token b new) b.
Proof.
  unfold completeZkLogin, sent. wp_run.
  all: sent_so_far; cbn; auto.
Qed.

(** X3.  A login never changes the session binding (key, bound, randomness
    and nonce stay as they were), and in the device storage it changes at
    most the salt entry of the subject of the token.  A login that fails
    throws a wrapped error and leaves the proof, the claims and the address
    of the session as they were: whether a session is active, and for
    which address, is not changed by a failed login. *)
Theorem completeZkLogin_frame (token : string) (b : Browser) :
  wp (completeZkLogin env token)
    (fun outcome after =>
       (forall key, key ∈ BINDING_KEYS ->
                    sessionStorage after !! key = sessionStorage b !! key)
       /\ (localStorage after = localStorage b
           \/ exists decoded salt,
                jwtDecode token = inr decoded
                /\ localStorage after
                   = <["zklogin_salt_" ++ value_to_string (field decoded "sub") := salt]>
                       (localStorage b))
       /\ match outcome with
          | Returned _ => True
          | Thrown e =>
              (exists reason, e = Error ("Failed to complete zkLogin: " ++ reason))
              /\ (forall key, key ∈ AUTHENTICATED_KEYS ->
                              sessionStorage after !! key = sessionStorage b !! key)
              /\ fst (isZkLoginSessionActive after) = fst (isZkLoginSessionActive b)
              /\ fst (getZkLoginAddress after) = fst (getZkLoginAddress b)
          end) b.
Proof.
  unfold completeZkLogin. wp_run.
  all: split; [intros key Hkey; storage_lookup Hkey|].
  all: split; [eauto 10|].
  all: try exact I.
  all: split; [eexists; reflexivity|].
  all: split; [intros key Hkey; storage_lookup Hkey|].
  all: unfold isZkLoginSessionActive, getZkLoginAddress; ClientFacts.run;
    cbn [fst sessionStorage];
    rewrite ?lookup_insert_ne by (intros ?; discriminate); split; reflexivity.
Qed.

Lemma stored_item (o : option string) :
  falsy_item o = false -> exists s, o = Some s /\ String.eqb s "" = false.
Proof. destruct o as [s|]; [eauto|discriminate]. Qed.

(** What a login has done when it returns. *)
Lemma completeZkLogin_returned (token : string) (b : Browser) :
  wp (completeZkLogin env token)
    (fun outcome after =>
       match outcome with
       | Returned (address, decoded) => logged_in env token b address decoded after
       | Thrown _ => True
       end) b.
Proof.
  unfold completeZkLogin. wp_run.
  all: try exact I.
  all: match goal with
       | E : _ || _ || _ = false |- _ =>
           apply orb_false_elim in E as [E Erandomness];
           apply orb_false_elim in E as [Ekey Eepoch];
           apply stored_item in Ekey as (key & Hkey & Ekey);
           apply stored_item in Eepoch as (maxEpoch & Hepoch & Eepoch)
       end.
  all: rewrite Hkey, Hepoch in *; cbn [from_option id] in *.
  all: unfold logged_in; cbn [sessionStorage localStorage calls].
  all: match goal with
       | Hk : sessionStorage _ !! EPHEMERAL_PRIVATE_KEY = Some ?key,
         He : sessionStorage _ !! MAX_EPOCH = Some ?maxEpoch,
         Ek : fromSecretKey ?key = inr ?keypair,
         Ef : fetch_response env (FetchZkProof _ _ _ _ ?salt) = inr ?response,
         Ej : json ?response = inr ?proof |- _ =>
           exists key, maxEpoch, keypair, salt, response, proof
       end.
  all: repeat (split; [first [eassumption|reflexivity|apply negb_false_iff; eassumption
                             |rewrite ?lookup_insert_ne by (intros ?; discriminate);
                              first [eassumption|apply lookup_insert_eq]]|]).
  all: apply lookup_insert_eq.
Qed.

(** X4.  When a login returns an address and claims, the claims are those of
    the token, the address is the one derived from the token and the salt
    now stored, it is the stored address (so a session is active and
    [getZkLoginAddress] returns it), and the device storage holds that salt
    for the subject. *)
Theorem login_stores_what_it_returns
    (token : string) (b : Browser) (address : string) (decoded : JSON) :
  fst (completeZkLogin env token b) = Returned (address, decoded) ->
  let after := snd (completeZkLogin env token b) in
  jwtDecode token = inr decoded
  /\ (exists salt,
        jwtToAddress token salt = inr address
        /\ sessionStorage after !! USER_SALT = Some (value_to_string salt)
        /\ forall userSub,
             field decoded "sub" = Some (JStr userSub) ->
             fst (recoverSaltFromStorage userSub after)
             = Returned (Some (value_to_string salt)))
  /\ fst (isZkLoginSessionActive after) = Returned true
  /\ fst (getZkLoginAddress after) = Returned (Some address).
Proof.
  intros Hreturned. cbv zeta.
  pose proof (completeZkLogin_returned token b) as Hwp. unfold wp in Hwp.
  rewrite Hreturned in Hwp.
  destruct Hwp as (key & maxEpoch & keypair & salt & response & proof & Hwp).
  destruct Hwp as (Hdecoded & _ & _ & _ & _ & _ & Haddress & _ & _ & _ & _ & _
                   & Hsalt & _ & Hstored & Hdevice).
  split; [exact Hdecoded|]. split.
  - exists salt. repeat split; try assumption.
    intros userSub Hsub. rewrite Hsub in Hdevice.
    cbn [value_to_string to_string] in Hdevice.
    unfold recoverSaltFromStorage, localStorage_getItem. cbn [fst].
    rewrite Hdevice. reflexivity.
  - unfold isZkLoginSessionActive, getZkLoginAddress. ClientFacts.run.
    cbn [fst]. rewrite Hstored. split; reflexivity.
Qed.

(** X5.  The session a successful login leaves is one that
    [executeZkLoginTransaction] accepts: when [JSON.parse] reads back the
    stored proof and claims and none of the stored texts is empty, the
    transaction is signed for the address the login returned, with the key
    pair reloaded from the stored key. *)
Theorem login_then_sign
    (token : string) (b : Browser) (address : string) (decoded : JSON)
    (tx : Transaction) :
  fst (completeZkLogin env token b) = Returned (address, decoded) ->
  let after := snd (completeZkLogin env token b) in
  (forall text, sessionStorage after !! ZK_PROOF = Some text ->
                String.eqb text "" = false /\ exists proof, JSON_parse text = inr proof) ->
  (forall text, sessionStorage after !! DECODED_JWT = Some text ->
                String.eqb text "" = false /\ exists claims, JSON_parse text = inr claims) ->
  (forall text, sessionStorage after !! USER_SALT = Some text -> String.eqb text "" = false) ->
  String.eqb address "" = false ->
  exists key keypair,
    sessionStorage after !! EPHEMERAL_PRIVATE_KEY = Some key
    /\ fromSecretKey key = inr keypair
    /\ exists rest,
         calls (snd (executeZkLoginTransaction env tx after))
         = (calls after ++ SignTransaction (setSender address tx) keypair :: rest)%list.
Proof.
  intros Hreturned. cbv zeta. intros Hproof Hclaims Hsalt Haddress.
  pose proof (completeZkLogin_returned token b) as Hwp. unfold wp in Hwp.
  rewrite Hreturned in Hwp.
  destruct Hwp as (key & maxEpoch & keypair & salt & response & proof & Hwp).
  destruct Hwp as (_ & _ & Ekey & _ & Eepoch & Hkeypair & _ & _ & _ & Hkey & Hepoch
                   & Hp & Hs & Hc & Ha & _).
  destruct (Hproof _ Hp) as (Eproof & zkProof & Hparsed).
  destruct (Hclaims _ Hc) as (Eclaims & claims & Hread).
  specialize (Hsalt _ Hs).
  exists key, keypair. split; [exact Hkey|]. split; [exact Hkeypair|].
  set (after := snd (completeZkLogin env token b)) in *. clearbody after.
  change (wp (executeZkLoginTransaction env tx)
            (fun _ final =>
               exists rest,
                 calls final
                 = (calls after ++ SignTransaction (setSender address tx) keypair
                                :: rest)%list) after).
  unfold executeZkLoginTransaction. wp_straight.
  rewrite Hkey, Hepoch, Hp, Hs, Hc, Ha. cbn [falsy_item from_option id].
  rewrite Ekey, Eepoch, Eproof, Eclaims, Hsalt, Haddress. cbn [orb]. wp_straight.
  rewrite Hparsed. wp_straight. rewrite Hread. wp_straight.
  rewrite Hkeypair. wp_straight. wp_run.
  all: rewrite <- ?app_assoc; cbn [app]; eexists; reflexivity.
Qed.

(** ** [executeZkLoginTransaction] *)

(** X6.  Signing never writes to storage.  It sends at most two requests, the
    signing and then the submission; it returns only what the ledger
    answered to the submission, and every failure is a wrapped error. *)
Theorem executeZkLoginTransaction_frame (tx : Transaction) (b : Browser) :
  wp (executeZkLoginTransaction env tx)
    (fun outcome after =>
       same_storage b after
       /\ exists new,
            sent b after new
            /\ signing_requests new
            /\ match outcome with
               | Returned result =>
                   exists signedTx signer bytes signature,
                     new = [SignTransaction signedTx signer;
                            ExecuteTransactionBlock bytes signature]
                     /\ execute_response env bytes signature = inr result
               | Thrown e =>
                   exists reason, e = Error ("Failed to execute transaction: " ++ reason)
               end) b.
Proof.
  unfold executeZkLoginTransaction, same_storage, sent. wp_run.
  all: split; [split; reflexivity|].
  all: sent_so_far; cbn; eauto 10.
Qed.

(** X7.  Without a complete session nothing is signed: when the key, the proof,
    the salt, the claims or the bound is missing or empty, signing fails
    with the missing-session error and the browser is as it was (no
    request is sent). *)
Theorem executeZkLoginTransaction_needs_session
    (tx : Transaction) (b : Browser) (item : string) :
  item ∈ [EPHEMERAL_PRIVATE_KEY; ZK_PROOF; USER_SALT; DECODED_JWT; MAX_EPOCH] ->
  falsy_item (sessionStorage b !! item) = true ->
  executeZkLoginTransaction env tx b
  = (Thrown (Error "Failed to execute transaction: Missing zkLogin session data. Please login again."),
     b).
Proof.
  intros Hitem Hmissing.
  unfold executeZkLoginTransaction. ClientFacts.run.
  repeat (apply elem_of_cons in Hitem as [->|Hitem]);
    [..|apply elem_of_nil in Hitem; contradiction];
    rewrite Hmissing, ?orb_true_r; reflexivity.
Qed.


(** ** After logout *)

(** X8.  After [zkLoginLogout] nothing can proceed on the old session: signing
    fails with the missing-session error, completing a login fails, both
    without sending a request or changing storage, and [getDecodedJwt]
    returns [null]. *)
Theorem logout_ends_session (b : Browser) (tx : Transaction) (token : string) :
  let out := snd (zkLoginLogout b) in
  executeZkLoginTransaction env tx out
  = (Thrown (Error "Failed to execute transaction: Missing zkLogin session data. Please login again."),
     out)
  /\ (exists message, fst (completeZkLogin env token out) = Thrown (Error message))
  /\ snd (completeZkLogin env token out) = out
  /\ ClientUtil.getDecodedJwt out = (Returned JNull, out).
Proof.
  cbv zeta. unfold zkLoginLogout. rewrite ClientFacts.removeItems_deletes.
  cbn [snd]. set (out := mkBrowser _ _ _).
  assert (forall key, key ∈ SESSION_KEYS -> sessionStorage out !! key = None) as Hgone.
  { intros key Hkey. subst out. cbn [sessionStorage].
    rewrite ClientFacts.lookup_deleted, bool_decide_eq_true_2 by exact Hkey.
    reflexivity. }
  assert (sessionStorage out !! EPHEMERAL_PRIVATE_KEY = None) as Hkey
      by (apply Hgone; unfold SESSION_KEYS; set_solver).
  assert (sessionStorage out !! DECODED_JWT = None) as Hjwt
      by (apply Hgone; unfold SESSION_KEYS; set_solver).
  clearbody out.
  assert (wp (completeZkLogin env token)
            (fun outcome after =>
               (exists message, outcome = Thrown (Error message)) /\ after = out) out)
    as Hlogin.
  { unfold completeZkLogin. wp_straight. wp_step; wp_straight; [eauto|].
    wp_step; wp_straight; [eauto|].
    rewrite Hkey. cbn [falsy_item orb]. wp_straight. eauto. }
  split; [|split; [|split]].
  - unfold executeZkLoginTransaction. ClientFacts.run. rewrite Hkey. reflexivity.
  - apply Hlogin.
  - apply Hlogin.
  - unfold ClientUtil.getDecodedJwt. ClientFacts.run. rewrite Hjwt. reflexivity.
Qed.

(** ** From [prepareLogin] to [completeZkLogin] *)

Lemma dec_nonempty n : String.eqb (dec n) "" = false.
Proof.
  unfold dec. destruct n as [|p|p]; [reflexivity| |reflexivity].
  cbn [Z.to_int NilZero.string_of_int]. unfold NilZero.string_of_uint.
  destruct (Pos.to_uint p); reflexivity.
Qed.

Lemma number_to_string_nonempty x : String.eqb (number_to_string x) "" = false.
Proof. destruct x; [apply dec_nonempty|reflexivity]. Qed.

Lemma Number_number_to_string x : Number_of_string (number_to_string x) = x.
Proof. destruct x; [apply JSFacts.Number_dec|reflexivity]. Qed.

(** X9.  The binding stored by [prepareLogin] verifies: for a token whose nonce
    claim is the nonce of the returned URL, the stored nonce and the
    recomputed nonce both equal the nonce of the token, provided the SDK
    reloads the stored secret key to a key pair with the same public key
    and neither the secret key nor the randomness is the empty string. *)
Theorem prepared_binding_verifies
    (b : Browser) (url : Url) (nonce : string) (reloaded : Keypair) :
  fst (prepareLogin cfg env b) = Returned url ->
  search_param "nonce" (searchParams url) = Some nonce ->
  fromSecretKey (getSecretKey (new_Ed25519Keypair env)) = inr reloaded ->
  getPublicKey reloaded = getPublicKey (new_Ed25519Keypair env) ->
  String.eqb (getSecretKey (new_Ed25519Keypair env)) "" = false ->
  String.eqb (generateRandomness env) "" = false ->
  let after := snd (prepareLogin cfg env b) in
  binding_stored after = true
  /\ nonce_verified after (Some (JStr nonce)) = true.
Proof.
  intros Hreturned Hnonce Hreload Hpublic Hsecret Hrandom. cbv zeta.
  pose proof (prepareLogin_returned b) as Hwp. unfold wp in Hwp.
  rewrite Hreturned in Hwp.
  destruct Hwp as (maxEpoch & stored & Hgenerated & Hurl & Hsession).
  assert (stored = nonce) as -> by congruence.
  unfold binding_stored, nonce_verified, rederived_nonce. rewrite Hsession.
  rewrite lookup_insert_eq.
  rewrite !(lookup_insert_ne _ NONCE) by (intros ?; discriminate).
  rewrite lookup_insert_eq.
  rewrite !(lookup_insert_ne _ RANDOMNESS) by (intros ?; discriminate).
  rewrite lookup_insert_eq.
  rewrite !(lookup_insert_ne _ MAX_EPOCH) by (intros ?; discriminate).
  rewrite lookup_insert_eq.
  cbn [falsy_item strict_eq]. rewrite Hsecret, Hrandom, number_to_string_nonempty.
  rewrite Hreload, Hpublic, Number_number_to_string, Hgenerated.
  cbn [strict_eq negb andb]. rewrite String.eqb_refl. split; reflexivity.
Qed.

(** X10.  The nonce checks are the only gate before the salt request: when the
    claims of the token decode, the binding is stored and both nonce checks
    pass, the login sends the salt request. *)
Theorem verified_login_requests_salt
    (token : string) (claims : list (string * JSON)) (b : Browser) :
  jwtDecode token = inr (JObj claims) ->
  binding_stored b = true ->
  nonce_verified b (lookup_field "nonce" claims) = true ->
  exists rest,
    calls (snd (completeZkLogin env token b)) = (calls b ++ FetchSalt token :: rest)%list.
Proof.
  intros Hdecode Hstored Hverified.
  unfold binding_stored in Hstored. unfold nonce_verified, rederived_nonce in Hverified.
  apply andb_prop in Hstored as [Hstored Hrandom].
  apply andb_prop in Hstored as [Hkey Hepoch].
  apply negb_true_iff, stored_item in Hkey as (key & Hkey & Ekey).
  apply negb_true_iff, stored_item in Hepoch as (maxEpoch & Hepoch & Eepoch).
  apply negb_true_iff, stored_item in Hrandom as (randomness & Hrandom & Erandom).
  rewrite Hkey, Hepoch, Hrandom in Hverified.
  apply andb_prop in Hverified as [Hnonce Hrederived].
  destruct (fromSecretKey key) as [|keypair] eqn:Hkeypair; [discriminate|].
  destruct (generateNonce _ _ _) as [|verifyNonce] eqn:Hgenerated; [discriminate|].
  change (wp (completeZkLogin env token)
            (fun _ after =>
               exists rest, calls after = (calls b ++ FetchSalt token :: rest)%list) b).
  unfold completeZkLogin. wp_straight.
  rewrite Hdecode. wp_straight. cbn [prop field]. wp_straight.
  rewrite Hkey, Hepoch, Hrandom. cbn [falsy_item from_option id].
  rewrite Ekey, Eepoch, Erandom. cbn [orb]. rewrite Hnonce. cbn [negb].
  wp_straight. rewrite Hkeypair. wp_straight. rewrite Hgenerated. wp_straight.
  rewrite Hrederived. cbn [negb]. wp_straight. wp_run.
  all: rewrite <- ?app_assoc; cbn [app]; eexists; reflexivity.
Qed.

(** ** The backup step *)

(** C7.  A failure of the backup request never fails the login.  Whatever
    the backup endpoint answers (an error, a refusal, an unreadable body or
    a success), [completeZkLogin] ends with the same result, sends the same
    requests and leaves the same storage, the one-shot flag
    [salt_backup_sent] apart.  And a login that has obtained its salt and
    whose backup request fails goes on: when the address derivation
    succeeds, the proof request is the next request after the backup
    request, the flag stays as it was, and when the proof endpoint answers
    with a proof the login returns the address and the claims and stores
    the address. *)
Theorem backup_failure_is_swallowed
    (backup1 backup2 : Call -> Exn + Response) (token : string) (b : Browser) :
  let run1 := completeZkLogin (Deployment.with_backup_response backup1 env) token b in
  let run2 := completeZkLogin (Deployment.with_backup_response backup2 env) token b in
  (fst run1 = fst run2
   /\ calls (snd run1) = calls (snd run2)
   /\ localStorage (snd run1) = localStorage (snd run2)
   /\ delete SALT_BACKUP_SENT (sessionStorage (snd run1))
      = delete SALT_BACKUP_SENT (sessionStorage (snd run2)))
  /\ forall (claims : list (string * JSON)) (saltResponse : Response) (data : JSON)
        (userSalt : JSValue) (keypair : Keypair) (address extended : string),
      let decoded := JObj claims in
      let userEmail :=
        if truthy (field decoded "email") then field decoded "email" else Some (JStr "") in
      let backupRequest :=
        FetchSaltBackup (field decoded "sub") userEmail userSalt (now_ISOString env) in
      let proofRequest :=
        FetchZkProof token extended
          (Number_of_string (default "" (sessionStorage b !! MAX_EPOCH)))
          (default "" (sessionStorage b !! RANDOMNESS)) userSalt in
      jwtDecode token = inr decoded ->
      binding_stored b = true ->
      nonce_verified b (field decoded "nonce") = true ->
      fetch_response env (FetchSalt token) = inr saltResponse ->
      ok saltResponse = true ->
      json saltResponse = inr data ->
      prop data "salt" = inr userSalt ->
      falsy_item (sessionStorage b !! SALT_BACKUP_SENT) = true ->
      truthy (field decoded "sub") = true ->
      backup_failed (backup1 backupRequest) = true ->
      fromSecretKey (default "" (sessionStorage b !! EPHEMERAL_PRIVATE_KEY)) = inr keypair ->
      jwtToAddress token userSalt = inr address ->
      getExtendedEphemeralPublicKey (getPublicKey keypair) = inr extended ->
      calls (snd run1) = (calls b ++ [FetchSalt token; backupRequest; proofRequest])%list
      /\ sessionStorage (snd run1) !! SALT_BACKUP_SENT = sessionStorage b !! SALT_BACKUP_SENT
      /\ forall (proofResponse : Response) (proof : JSON),
           fetch_response env proofRequest = inr proofResponse ->
           ok proofResponse = true ->
           json proofResponse = inr proof ->
           fst run1 = Returned (address, decoded)
           /\ sessionStorage (snd run1) !! ZKLOGIN_ADDRESS = Some address.
Proof.
  cbv zeta. split; [apply ClientFacts.backup_answers_agree|].
  intros claims saltResponse data userSalt keypair address extended.
  intros Hdecode Hstored Hverified Hsalt Hok Hjson Hprop Hflag Hsub Hfailed Hkeypair
    Haddress Hextended.
  unfold binding_stored in Hstored. unfold nonce_verified, rederived_nonce in Hverified.
  apply andb_prop in Hstored as [Hstored Hrandom].
  apply andb_prop in Hstored as [Hkey Hepoch].
  apply negb_true_iff, stored_item in Hkey as (key & Hkey & Ekey).
  apply negb_true_iff, stored_item in Hepoch as (maxEpoch & Hepoch & Eepoch).
  apply negb_true_iff, stored_item in Hrandom as (randomness & Hrandom & Erandom).
  rewrite Hkey, Hepoch, Hrandom in *. cbn [from_option id] in *.
  rewrite Hkeypair in Hverified.
  apply andb_prop in Hverified as [Hnonce Hrederived].
  destruct (generateNonce _ _ _) as [|verifyNonce] eqn:Hgenerated; [discriminate|].
  change (wp (completeZkLogin (Deployment.with_backup_response backup1 env) token)
            (fun outcome after =>
               calls after
               = (calls b ++ [FetchSalt token;
                              FetchSaltBackup (field (JObj claims) "sub")
                                (if truthy (field (JObj claims) "email")
                                 then field (JObj claims) "email" else Some (JStr ""))
                                userSalt (now_ISOString env);
                              FetchZkProof token extended (Number_of_string maxEpoch)
                                randomness userSalt])%list
               /\ sessionStorage after !! SALT_BACKUP_SENT
                  = sessionStorage b !! SALT_BACKUP_SENT
               /\ forall (proofResponse : Response) (proof : JSON),
                    fetch_response env
                      (FetchZkProof token extended (Number_of_string maxEpoch)
                         randomness userSalt) = inr proofResponse ->
                    ok proofResponse = true ->
                    json proofResponse = inr proof ->
                    outcome = Returned (address, JObj claims)
                    /\ sessionStorage after !! ZKLOGIN_ADDRESS = Some address) b).
  unfold completeZkLogin. wp_straight.
  rewrite Hdecode. wp_straight. cbn [prop]. wp_straight.
  rewrite Hkey, Hepoch, Hrandom. cbn [falsy_item from_option id].
  rewrite Ekey, Eepoch, Erandom. cbn [orb]. rewrite Hnonce. cbn [negb].
  wp_straight. rewrite Hkeypair. wp_straight. rewrite Hgenerated. wp_straight.
  rewrite Hrederived. cbn [negb]. wp_straight.
  cbn [Deployment.with_backup_response fetch_response now_ISOString].
  rewrite Hsalt. wp_straight. rewrite Hok. wp_straight. rewrite Hjson. wp_straight.
  rewrite Hprop. wp_straight.
  rewrite lookup_insert_ne by (intros ?; discriminate).
  rewrite Hflag, Hsub. cbn [andb]. wp_straight.
  unfold sendSaltBackupEmail. wp_straight.
  cbn [Deployment.with_backup_response fetch_response now_ISOString].
  unfold backup_failed in Hfailed.
  destruct (backup1 _) as [e|response]; wp_straight.
  2: destruct (ok response) eqn:Eok; cbn [negb orb] in Hfailed |- *; wp_straight.
  2: destruct (json response) as [e|result] eqn:Eresult; [|discriminate]; wp_straight.
  all: rewrite Haddress; wp_straight; rewrite Hextended; wp_straight.
  all: cbn [Deployment.with_backup_response fetch_response].
  all: wp_run.
  all: split; [rewrite <- !app_assoc; reflexivity|].
  all: split; [rewrite ?lookup_insert_ne by (intros ?; discriminate); reflexivity|].
  all: intros proofResponse proof Hproof Hpok Hpjson.
  all: simplify_eq.
  all: try match goal with
           | E : negb (ok _) = true |- _ => rewrite Hpok in E; discriminate
           | E : json _ = inl _ |- _ => rewrite Hpjson in E; discriminate
           end.
  all: split; [reflexivity|apply lookup_insert_eq].
Qed.

End Flow.

End RunFacts.

Module RouteFacts.
Import JS Server Inv Routes.

Section Routes.
Context `{JsonCodec} `{NodeLibs} (cfg : Config).

Lemma includes_whitelist v :
  includes (WHITELISTED_CLIENT_IDS cfg) v = true -> v = Some (JStr (CLIENT_ID cfg)).
Proof.
  unfold includes, WHITELISTED_CLIENT_IDS. destruct v as [[| | |s| |]|]; try discriminate.
  cbn [existsb]. rewrite orb_false_r. intros Heq. apply String.eqb_eq in Heq. congruence.
Qed.

(** What a body that is answered 200 carries. *)
Lemma salt_route_granted (userSalts : gmap string string) (body : JSON) :
  reply_status (fst (salt_route cfg userSalts body)) = 200 ->
  exists token decoded userSub,
    field body "token" = Some (JStr token)
    /\ parts token = 3
    /\ jwt_decode token = inr decoded
    /\ field decoded "sub" = Some (JStr userSub)
    /\ userSub <> ""
    /\ first_if_array (field decoded "aud") = Some (JStr (CLIENT_ID cfg)).
Proof.
  unfold salt_route, prop.
  repeat case_match;
    cbn [fst salt_service_error internal_error reply_status]; try discriminate; intros _.
  all: simplify_eq.
  all: repeat match goal with
         | Hd : decode_claims _ = Some _ |- _ => apply ServerFacts.decode_claims_decoded in Hd
         | Hb : _ || _ = false |- _ => apply orb_false_elim in Hb as [? ?]
         | Hb : negb _ = false |- _ => apply negb_false_iff in Hb
         | Hb : includes _ _ = true |- _ => apply includes_whitelist in Hb
         | Hb : (_ =? _) = true |- _ => apply Z.eqb_eq in Hb
         end.
  all: eexists _, _, _; repeat split; eauto.
  all: cbn [field]; eauto.
  all: intros ->; discriminate.
Qed.

(** The two ways a request can end. *)
Lemma salt_route_cases (userSalts : gmap string string) (body : JSON) :
  let reply := fst (salt_route cfg userSalts body) in
  let after := snd (salt_route cfg userSalts body) in
  (exists userSub salt,
      subject_of body = Some userSub
      /\ reply = mkReply 200 (JObj [("salt", JStr salt)])
      /\ after = <[userSub := salt]> userSalts
      /\ (userSalts !! userSub = None \/ userSalts !! userSub = Some salt))
  \/ ((reply_status reply = 403 \/ reply_status reply = 500) /\ after = userSalts).
Proof.
  cbv zeta. unfold salt_route, prop.
  repeat case_match; simplify_eq;
    cbn [fst snd salt_service_error internal_error reply_status];
    try (right; split; [tauto|reflexivity]).
  all: left.
  all: repeat match goal with
         | Hd : decode_claims _ = Some _ |- _ => apply ServerFacts.decode_claims_decoded in Hd
         end.
  all: match goal with
       | Hs : field _ "sub" = Some (JStr ?userSub) |- context [JStr ?salt] =>
           exists userSub, salt
       end.
  all: unfold subject_of.
  all: repeat match goal with
         | Hf : field _ _ = _ |- _ => rewrite Hf
         | Hf : jwt_decode _ = _ |- _ => rewrite Hf
         end.
  all: repeat split; try tauto.
  all: rewrite insert_id by assumption; reflexivity.
Qed.

(** X13.  The salt route answers 200 only to a body whose token is a string of
    three dot-separated parts that the decoder reads, with a non-empty
    string as subject and the configured client id as audience (the first
    entry when the audience is a list); the reply then carries one salt,
    which the cache holds for that subject afterwards. *)
Theorem salt_route_grants_only_whitelisted
    (userSalts : gmap string string) (body : JSON) :
  reply_status (fst (salt_route cfg userSalts body)) = 200 ->
  exists token decoded userSub salt,
    field body "token" = Some (JStr token)
    /\ parts token = 3
    /\ jwt_decode token = inr decoded
    /\ field decoded "sub" = Some (JStr userSub)
    /\ userSub <> ""
    /\ first_if_array (field decoded "aud") = Some (JStr (CLIENT_ID cfg))
    /\ fst (salt_route cfg userSalts body) = mkReply 200 (JObj [("salt", JStr salt)])
    /\ snd (salt_route cfg userSalts body) !! userSub = Some salt.
Proof.
  intros Hstatus.
  destruct (salt_route_granted userSalts body Hstatus)
    as (token & decoded & userSub & Htoken & Hparts & Hdecode & Hsub & Hnonempty & Haud).
  destruct (salt_route_cases userSalts body)
    as [(served & salt & Hsubject & Hreply & Hafter & _)|[[Hrefused|Hfailed] _]];
    [|rewrite Hrefused in Hstatus; discriminate|rewrite Hfailed in Hstatus; discriminate].
  unfold subject_of in Hsubject. rewrite Htoken, Hdecode, Hsub in Hsubject.
  injection Hsubject as <-.
  exists token, decoded, userSub, salt.
  repeat split; try assumption. rewrite Hafter. apply lookup_insert_eq.
Qed.

(** A served cache only grows. *)
Lemma serve_salts_grows (bodies : list JSON) : forall userSalts : gmap string string,
  userSalts ⊆ serve_salts cfg userSalts bodies.
Proof.
  induction bodies as [|body bodies IH]; intros userSalts; [reflexivity|].
  unfold serve_salts. cbn [fold_left]. etransitivity; [|apply IH].
  destruct (salt_route_cases userSalts body)
    as [(userSub & salt & _ & _ & -> & [Hnew|Hold])|[_ ->]]; [| |reflexivity].
  - apply insert_subseteq, Hnew.
  - rewrite insert_id by exact Hold. reflexivity.
Qed.

(** X14.  A request changes the cache only when it is answered 200, and then
    only at the subject of its token, which holds the salt of the reply
    afterwards and held that salt or nothing before; every other request
    is answered 403 or 500 and leaves the cache as it was.  So the cache
    only grows: whatever requests are served, every cached salt stays
    cached under its subject with the same value. *)
Theorem salt_route_cache_update (userSalts : gmap string string) (body : JSON) :
  let reply := fst (salt_route cfg userSalts body) in
  let after := snd (salt_route cfg userSalts body) in
  ((exists userSub salt,
       subject_of body = Some userSub
       /\ reply = mkReply 200 (JObj [("salt", JStr salt)])
       /\ after = <[userSub := salt]> userSalts
       /\ (userSalts !! userSub = None \/ userSalts !! userSub = Some salt))
   \/ ((reply_status reply = 403 \/ reply_status reply = 500) /\ after = userSalts))
  /\ forall bodies, userSalts ⊆ serve_salts cfg userSalts bodies.
Proof.
  cbv zeta. split; [apply salt_route_cases|]. intros bodies. apply serve_salts_grows.
Qed.

(** ** The proof route *)

(** A falsy input is refused before the prover is called. *)
Lemma zkproof_falsy_input
    (prover : ProverCall -> Exn + Response) (fields : list (string * JSON))
    (input : string) :
  In input proof_inputs ->
  truthy (field (JObj fields) input) = false ->
  zkproof_route cfg prover (JObj fields)
  = (mkReply 400 (JObj [("error", JStr "Missing required fields")]), []).
Proof.
  intros Hin Hfalsy. unfold zkproof_route, prop. cbn [In proof_inputs] in Hin.
  destruct Hin as [<-|[<-|[<-|[<-|[<-|[]]]]]]; rewrite Hfalsy; cbn [negb orb];
    rewrite ?orb_true_r; reflexivity.
Qed.

Lemma truthy_some v : truthy v = true -> exists j, v = Some j.
Proof. destruct v; [eauto|discriminate]. Qed.

(** The ways a proof request can end. *)
Lemma zkproof_route_cases (prover : ProverCall -> Exn + Response) (body : JSON) :
  let reply := fst (zkproof_route cfg prover body) in
  let sent := snd (zkproof_route cfg prover body) in
  (sent = []
   \/ exists payload,
        sent = [ProverPost (proverUrl cfg) payload]
        /\ field payload "keyClaimName" = Some (JStr "sub")
        /\ Forall (fun input => field payload input = field body input
                                /\ truthy (field body input) = true) proof_inputs
        /\ match prover (ProverPost (proverUrl cfg) payload) with
           | inl e => reply = internal_error "Unknown error" e
           | inr response =>
               if ok response
               then match json response with
                    | inl e => reply = internal_error "Unknown error" e
                    | inr zkProof => reply = mkReply 200 zkProof
                    end
               else reply
                    = mkReply 500
                        (JObj [("error",
                                JStr ("Prover service error: " ++ statusText response
                                      ++ " - " ++ text response))])
           end)
  /\ (sent = [] -> reply_status reply = 400 \/ reply_status reply = 500).
Proof.
  cbv zeta. unfold zkproof_route.
  destruct (prop body "jwt") as [e|jwt] eqn:Hjwt; [cbn; split; [left|]; tauto|].
  assert (field body "jwt" = jwt) as Ejwt.
  { unfold prop in Hjwt. destruct body; congruence. }
  destruct (truthy jwt) eqn:T1; cbn [negb orb]; [|cbn; split; [left|]; tauto].
  destruct (truthy (field body "extendedEphemeralPublicKey")) eqn:T2; cbn [negb orb];
    [|cbn; split; [left|]; tauto].
  destruct (truthy (field body "maxEpoch")) eqn:T3; cbn [negb orb];
    [|cbn; split; [left|]; tauto].
  destruct (truthy (field body "jwtRandomness")) eqn:T4; cbn [negb orb];
    [|cbn; split; [left|]; tauto].
  destruct (truthy (field body "salt")) eqn:T5; cbn [negb orb];
    [|cbn; split; [left|]; tauto].
  destruct (negb (is_string jwt)); [cbn; split; [left|]; tauto|].
  destruct (truthy_some _ T1) as [j1 ->].
  destruct (truthy_some _ T2) as [j2 E2].
  destruct (truthy_some _ T3) as [j3 E3].
  destruct (truthy_some _ T4) as [j4 E4].
  destruct (truthy_some _ T5) as [j5 E5].
  rewrite E2, E3, E4, E5 in *. cbn [object_fields].
  set (payload := JObj _).
  assert (field payload "keyClaimName" = Some (JStr "sub")) as Hname by reflexivity.
  assert (Forall (fun input => field payload input = field body input
                               /\ truthy (field body input) = true) proof_inputs)
    as Hinputs.
  { unfold proof_inputs. repeat constructor; rewrite ?Ejwt, ?E2, ?E3, ?E4, ?E5;
      try assumption; reflexivity. }
  clearbody payload.
  split.
  - right. exists payload.
    destruct (prover (ProverPost (proverUrl cfg) payload)) as [e|response] eqn:Hprover;
      cbn [fst snd]; [repeat split; assumption|].
    destruct (ok response); cbn [negb fst snd].
    + destruct (json response); cbn [fst snd]; repeat split; assumption.
    + repeat split; assumption.
  - destruct (prover (ProverPost (proverUrl cfg) payload)) as [e|response];
      cbn [fst snd]; [discriminate|].
    destruct (ok response); cbn [negb]; [|discriminate].
    destruct (json response); discriminate.
Qed.

(** X15.  The proof route calls the prover at most once, at the configured URL,
    with the five inputs of the request unchanged and the key claim name
    [sub]; it answers 200 only with the JSON of a prover response that was
    [ok], and a prover response that was not [ok] is answered 500 with the
    prover's status text and body in the message.  A request object in
    which one of the five inputs is falsy (absent, [null], [false], zero or
    the empty string) is answered 400 without any call to the prover. *)
Theorem zkproof_route_relays_prover
    (prover : ProverCall -> Exn + Response) (body : JSON) :
  let reply := fst (zkproof_route cfg prover body) in
  let sent := snd (zkproof_route cfg prover body) in
  (sent = []
   \/ exists payload,
        sent = [ProverPost (proverUrl cfg) payload]
        /\ field payload "keyClaimName" = Some (JStr "sub")
        /\ Forall (fun input => field payload input = field body input
                                /\ truthy (field body input) = true) proof_inputs
        /\ match prover (ProverPost (proverUrl cfg) payload) with
           | inl e => reply = internal_error "Unknown error" e
           | inr response =>
               if ok response
               then match json response with
                    | inl e => reply = internal_error "Unknown error" e
                    | inr zkProof => reply = mkReply 200 zkProof
                    end
               else reply
                    = mkReply 500
                        (JObj [("error",
                                JStr ("Prover service error: " ++ statusText response
                                      ++ " - " ++ text response))])
           end)
  /\ (sent = [] -> reply_status reply = 400 \/ reply_status reply = 500)
  /\ (forall fields,
        body = JObj fields ->
        Exists (fun input => truthy (field body input) = false) proof_inputs ->
        reply = mkReply 400 (JObj [("error", JStr "Missing required fields")])
        /\ sent = []).
Proof.
  cbv zeta. destruct (zkproof_route_cases prover body) as [Hsent Hrefused].
  split; [exact Hsent|]. split; [exact Hrefused|].
  intros fields -> Hfalsy. apply Exists_exists in Hfalsy as (input & Hin & Hfalsy).
  apply list_elem_of_In in Hin.
  rewrite (zkproof_falsy_input prover fields input Hin Hfalsy). split; reflexivity.
Qed.

End Routes.

End RouteFacts.

Module ClientUtilFacts.
Import JS Client ClientUtil.

(** The loop never writes: every key keeps its value or, when it is a salt
    backup, is gone. *)
Lemma clear_from_frame keys steps : forall i store key,
  clear_from keys steps i store !! key = store !! key
  \/ (is_salt_key key = true /\ clear_from keys steps i store !! key = None).
Proof.
  induction steps as [|steps IH]; intros i store key; cbn [clear_from]; [left; reflexivity|].
  destruct (i <? size store)%nat; [|left; reflexivity].
  destruct (keys store !! i) as [found|]; [|apply IH].
  destruct (is_salt_key found) eqn:Hsalt; [|apply IH].
  destruct (IH (S i) (delete found store) key) as [Hsame|[Hkey Hgone]];
    [|right; split; assumption].
  destruct (decide (found = key)) as [Heq|Hne].
  - right. split; [rewrite <- Heq; exact Hsalt|]. rewrite Hsame, Heq. apply lookup_delete_eq.
  - left. rewrite Hsame. apply lookup_delete_ne, Hne.
Qed.

(** X11.  [clearSaltBackups] touches nothing but salt backups: it returns, sends
    no request, leaves session storage alone, and every key of local
    storage keeps its value unless it starts with [zklogin_salt_], in which
    case it keeps its value or is removed.  This holds whatever order the
    browser numbers the keys in. *)
Theorem clearSaltBackups_frame
    (keys : gmap string string -> list string) (b : Browser) :
  let after := snd (clearSaltBackups keys b) in
  fst (clearSaltBackups keys b) = Returned tt
  /\ sessionStorage after = sessionStorage b
  /\ calls after = calls b
  /\ forall key,
       localStorage after !! key = localStorage b !! key
       \/ (is_salt_key key = true /\ localStorage after !! key = None).
Proof.
  cbv zeta. unfold clearSaltBackups. cbn [fst snd sessionStorage localStorage calls].
  repeat split. intros key. apply clear_from_frame.
Qed.

Lemma enumerates_length keys store :
  enumerates keys -> length (keys store) = size store.
Proof.
  intros Henum. destruct (Henum store) as [Hnodup Hkeys].
  rewrite <- length_map_to_list, <- (length_fmap fst).
  apply Permutation_length, NoDup_Permutation;
    [exact Hnodup|apply NoDup_fst_map_to_list|].
  intros key. rewrite Hkeys, list_elem_of_fmap. split.
  - intros [value Hvalue]. exists (key, value). split; [reflexivity|].
    apply elem_of_map_to_list, Hvalue.
  - intros [[k value] [-> Hin]]. apply elem_of_map_to_list in Hin. eauto.
Qed.

Lemma clear_from_all_salts keys :
  enumerates keys ->
  forall steps i store,
    map_Forall (fun key _ => is_salt_key key = true) store ->
    (size store <= steps + i)%nat ->
    size (clear_from keys steps i store)
    = (if (i <=? size store)%nat then (size store + i) / 2 else size store)%nat.
Proof.
  intros Henum. induction steps as [|steps IH]; intros i store Hsalts Hfuel;
    cbn [clear_from].
  - destruct (Nat.leb_spec i (size store)); [|reflexivity].
    assert (i = size store) as -> by lia.
    replace (size store + size store)%nat with (size store * 2)%nat by lia.
    rewrite Nat.div_mul by discriminate. reflexivity.
  - destruct (Nat.ltb_spec i (size store)) as [Hlt|Hge].
    + assert (is_Some (keys store !! i)) as [found Hfound].
      { apply lookup_lt_is_Some. rewrite enumerates_length by exact Henum. exact Hlt. }
      rewrite Hfound.
      assert (is_Some (store !! found)) as [value Hvalue].
      { apply (Henum store). eapply list_elem_of_lookup_2, Hfound. }
      rewrite (Hsalts found value Hvalue).
      assert (size (delete found store) = (size store - 1)%nat) as Hsize.
      { rewrite map_size_delete, Hvalue. lia. }
      rewrite IH.
      * rewrite Hsize.
        destruct (Nat.leb_spec (S i) (size store - 1));
          destruct (Nat.leb_spec i (size store)); try lia.
        -- f_equal. lia.
        -- assert (size store = S i) as -> by lia.
           replace (S i + i)%nat with (1 + i * 2)%nat by lia.
           rewrite Nat.div_add by discriminate. cbn. lia.
      * apply map_Forall_delete, Hsalts.
      * rewrite Hsize. lia.
    + destruct (Nat.leb_spec i (size store)); [|reflexivity].
      assert (i = size store) as -> by lia.
      replace (size store + size store)%nat with (size store * 2)%nat by lia.
      rewrite Nat.div_mul by discriminate. reflexivity.
Qed.

(** X12.  When local storage holds nothing but salt backups, [clearSaltBackups]
    removes only every other one: the index moves on while the storage
    shrinks under it, so of [n] backups [n / 2] (rounded down) are left,
    whatever order the browser numbers the keys in. *)
Theorem clearSaltBackups_leaves_half
    (keys : gmap string string -> list string) (b : Browser) :
  enumerates keys ->
  map_Forall (fun key _ => is_salt_key key = true) (localStorage b) ->
  size (localStorage (snd (clearSaltBackups keys b)))
  = (size (localStorage b) / 2)%nat.
Proof.
  intros Henum Hsalts. unfold clearSaltBackups. cbn [snd localStorage].
  rewrite (clear_from_all_salts keys Henum) by (exact Hsalts || lia).
  cbn [Nat.leb]. rewrite Nat.add_0_r. reflexivity.
Qed.

(** The keys in the order of [map_to_list] are one such numbering. *)
Lemma enumerates_map_to_list :
  enumerates (fun store => (map_to_list store).*1).
Proof.
  intros store. split; [apply NoDup_fst_map_to_list|].
  intros key. rewrite list_elem_of_fmap. split.
  - intros [[k v] [-> Hin]]. apply elem_of_map_to_list in Hin. eauto.
  - intros [v Hv]. exists (key, v). split; [reflexivity|].
    apply elem_of_map_to_list, Hv.
Qed.

End ClientUtilFacts.

Module StackFacts.
Import JS Client Inv Run RunFacts.

Section Exchange.
Context `{JsonCodec} `{ZkLoginSdk} (env : Env).

(** What a login has been answered when it returns. *)
Lemma completeZkLogin_exchanged (token : string) (b : Browser) :
  wp (completeZkLogin env token)
    (fun outcome after =>
       match outcome with
       | Returned (address, decoded) => exchanged env token b address decoded after
       | Thrown _ => True
       end) b.
Proof.
  unfold completeZkLogin. wp_run.
  all: try exact I.
  all: unfold exchanged, backup_marked; cbn [sessionStorage localStorage calls].
  all: repeat match goal with
         | E : negb _ = false |- _ => apply negb_false_iff in E
         | E : negb _ = true |- _ => apply negb_true_iff in E
         end.
  all: rewrite ?lookup_insert_ne in * by (intros ?; discriminate).
  all: match goal with
       | Es : fetch_response env (FetchSalt _) = inr ?saltResponse,
         Ed : json ?saltResponse = inr ?data,
         Ex : getExtendedEphemeralPublicKey _ = inr ?extended,
         Ef : fetch_response env (FetchZkProof _ _ _ _ ?salt) = inr ?response,
         Ej : json ?response = inr ?proof |- _ =>
           exists saltResponse, data, salt, extended, response, proof
       end.
  all: repeat match goal with
         | E : ?x = _ |- context [match ?x with _ => _ end] => rewrite E
         | E : ?x = _ |- context [if ?x then _ else _] => rewrite E
         end.
  all: cbv zeta.
  all: repeat match goal with
         | E : ?x = _ |- context [match ?x with _ => _ end] => rewrite E
         | E : ?x = _ |- context [if ?x then _ else _] => rewrite E
         end.
  all: repeat split; try eassumption; try reflexivity.
  all: rewrite ?lookup_insert_ne by (intros ?; discriminate).
  all: try reflexivity.
  all: apply lookup_insert_eq.
Qed.

End Exchange.

Section Served.
Context `{JsonCodec} `{ZkLoginSdk} `{Server.NodeLibs}.
Context (backend : Stack.Backend) (env : Env).

#[local] Abbreviation cfg := (Stack.config backend).

(** An [ok] response is a reply of status 200 to 299. *)
Lemma response_of_reply_ok reply :
  ok (Deployment.response_of_reply reply) = true ->
  200 <= Server.reply_status reply <= 299.
Proof. unfold Deployment.response_of_reply. cbn [ok]. lia. Qed.

(** What the salt route has answered when the browser finds the answer
    [ok]. *)
Lemma served_salt_answer (token : string) (saltResponse : Response) :
  cache_sound cfg (Stack.userSalts backend) ->
  fetch_response (Stack.served backend env) (FetchSalt token) = inr saltResponse ->
  ok saltResponse = true ->
  exists decoded userSub,
    Server.jwt_decode token = inr decoded
    /\ field decoded "sub" = Some (JStr userSub)
    /\ userSub <> ""
    /\ first_if_array (field decoded "aud") = Some (JStr (Server.CLIENT_ID cfg))
    /\ text saltResponse
       = JSON_stringify (JObj [("salt", JStr (dec (keyed_salt cfg userSub)))]).
Proof.
  intros Hsound Hanswer Hok. cbn [Stack.served fetch_response] in Hanswer.
  injection Hanswer as <-. apply response_of_reply_ok in Hok.
  assert (Server.reply_status
            (fst (Server.salt_route cfg (Stack.userSalts backend)
                    (Deployment.salt_request token))) = 200) as Hstatus.
  { destruct (RouteFacts.salt_route_cases cfg (Stack.userSalts backend)
                (Deployment.salt_request token))
      as [(userSub & salt & _ & -> & _)|[[Hrefused|Hfailed] _]];
      [reflexivity|lia|lia]. }
  destruct (RouteFacts.salt_route_granted cfg _ _ Hstatus)
    as (token' & decoded & userSub & Htoken & _ & Hdecode & Hsub & Hnonempty & Haud).
  cbn in Htoken. injection Htoken as <-.
  destruct (ServerFacts.salt_route_200 cfg _ _ Hsound Hstatus) as (userSub' & Hsubject & Hreply).
  unfold subject_of, Deployment.salt_request in Hsubject. cbn [field lookup_field] in Hsubject.
  cbn in Hsubject. rewrite Hdecode, Hsub in Hsubject. injection Hsubject as <-.
  exists decoded, userSub. repeat split; try assumption.
  unfold Deployment.response_of_reply. cbn [text]. rewrite Hreply. reflexivity.
Qed.

(** X16.  Against the server of this repository, a login that returns has a
    token whose subject is a non-empty string and whose audience is the
    client id of the server, and its address is the one derived from the
    token and the salt keyed by that subject, which is also the stored salt
    and the backup on the device: nothing of it depends on what the server
    has cached.  The browser and the server are assumed to decode the
    token alike, and the codec to read back the reply of the salt route. *)
Theorem served_login_address
    (token : string) (b : Browser) (address : string) (decoded : JSON) :
  fst (completeZkLogin (Stack.served backend env) token b) = Returned (address, decoded) ->
  Server.jwt_decode token = jwtDecode token ->
  cache_sound cfg (Stack.userSalts backend) ->
  (forall userSub,
      field decoded "sub" = Some (JStr userSub) ->
      JSON_parse (JSON_stringify (JObj [("salt", JStr (dec (keyed_salt cfg userSub)))]))
      = inr (JObj [("salt", JStr (dec (keyed_salt cfg userSub)))])) ->
  let after := snd (completeZkLogin (Stack.served backend env) token b) in
  exists userSub,
    field decoded "sub" = Some (JStr userSub)
    /\ userSub <> ""
    /\ first_if_array (field decoded "aud") = Some (JStr (Server.CLIENT_ID cfg))
    /\ jwtToAddress token (Some (JStr (dec (keyed_salt cfg userSub)))) = inr address
    /\ sessionStorage after !! USER_SALT = Some (dec (keyed_salt cfg userSub))
    /\ sessionStorage after !! ZKLOGIN_ADDRESS = Some address
    /\ localStorage after !! ("zklogin_salt_" ++ userSub)
       = Some (dec (keyed_salt cfg userSub)).
Proof.
  intros Hreturned Hsame Hsound Hcodec. cbv zeta.
  pose proof (completeZkLogin_exchanged (Stack.served backend env) token b) as Hwp.
  pose proof (completeZkLogin_returned (Stack.served backend env) token b) as Hin.
  unfold wp in Hwp, Hin. rewrite Hreturned in Hwp, Hin.
  destruct Hwp as (saltResponse & data & salt & extended & proofResponse & proof & Hwp).
  destruct Hwp as (Hdecoded & Hanswer & Hok & Hdata & Hsalt & Haddress & _ & _ & _ & _
                   & Hstored & Hbackup & _).
  destruct Hin as (? & ? & ? & ? & ? & ? & Hin).
  destruct Hin as (_ & _ & _ & _ & _ & _ & _ & _ & _ & _ & _ & _ & _ & _ & Hkept & _).
  destruct (served_salt_answer token saltResponse Hsound Hanswer Hok)
    as (decoded' & userSub & Hdecode & Hsub & Hnonempty & Haud & Htext).
  assert (decoded' = decoded) as -> by congruence.
  unfold json in Hdata. rewrite Htext, (Hcodec userSub Hsub) in Hdata.
  injection Hdata as <-. cbn in Hsalt. injection Hsalt as <-.
  rewrite Hsub in Hbackup. cbn [value_to_string to_string] in Hstored, Hbackup.
  exists userSub. repeat split; assumption.
Qed.

(** X17.  Against the server of this repository, a login that returns has made
    the server call the prover with the token, the bound and the
    randomness stored by [prepareLogin], the salt it stored, and the key
    claim name [sub]; the prover answered [ok], and the stored proof is the
    prover's JSON as it came through the route. *)
Theorem served_login_proof
    (token : string) (b : Browser) (address : string) (decoded : JSON) :
  fst (completeZkLogin (Stack.served backend env) token b) = Returned (address, decoded) ->
  let after := snd (completeZkLogin (Stack.served backend env) token b) in
  exists payload response zkProof proof salt,
    Stack.prover backend (Server.ProverPost (Server.proverUrl cfg) payload) = inr response
    /\ ok response = true
    /\ json response = inr zkProof
    /\ JSON_parse (JSON_stringify zkProof) = inr proof
    /\ sessionStorage after !! ZK_PROOF = Some (JSON_stringify proof)
    /\ field payload "jwt" = Some (JStr token)
    /\ field payload "maxEpoch"
       = Some (Stack.number_json
                 (Number_of_string (default "" (sessionStorage b !! MAX_EPOCH))))
    /\ field payload "jwtRandomness"
       = Some (JStr (default "" (sessionStorage b !! RANDOMNESS)))
    /\ field payload "salt" = Some salt
    /\ sessionStorage after !! USER_SALT = Some (to_string salt)
    /\ field payload "keyClaimName" = Some (JStr "sub").
Proof.
  intros Hreturned. cbv zeta.
  pose proof (completeZkLogin_exchanged (Stack.served backend env) token b) as Hwp.
  unfold wp in Hwp. rewrite Hreturned in Hwp.
  destruct Hwp as (saltResponse & data & salt & extended & proofResponse & proof & Hwp).
  destruct Hwp as (_ & _ & _ & _ & _ & _ & Hanswer & Hok & Hproof & Hstored & Hsalt & _).
  cbn [Stack.served fetch_response] in Hanswer. injection Hanswer as <-.
  apply response_of_reply_ok in Hok.
  unfold json, Deployment.response_of_reply in Hproof. cbn [text] in Hproof.
  set (body := Stack.zkproof_request _ _ _ _ _) in *.
  destruct (RouteFacts.zkproof_route_cases cfg (Stack.prover backend) body)
    as [[Hnone|(payload & Hsent & Hname & Hinputs & Hreply)] Hrefused].
  { destruct (Hrefused Hnone) as [Hs|Hs]; rewrite Hs in Hok; lia. }
  destruct (Stack.prover backend (Server.ProverPost (Server.proverUrl cfg) payload))
    as [e|response] eqn:Hprover;
    [rewrite Hreply in Hok; cbn in Hok; lia|].
  destruct (ok response) eqn:Hresponse; [|rewrite Hreply in Hok; cbn in Hok; lia].
  destruct (json response) as [e|zkProof] eqn:Hjson;
    [rewrite Hreply in Hok; cbn in Hok; lia|].
  rewrite Hreply in Hproof. cbn [Server.reply_body] in Hproof.
  unfold proof_inputs in Hinputs.
  apply Forall_cons in Hinputs as [[Hjwt _] Hinputs].
  apply Forall_cons in Hinputs as [_ Hinputs].
  apply Forall_cons in Hinputs as [[Hepoch _] Hinputs].
  apply Forall_cons in Hinputs as [[Hrandom _] Hinputs].
  apply Forall_cons in Hinputs as [[Hpsalt Htruthy] _].
  destruct salt as [salt|]; [|discriminate Htruthy].
  exists payload, response, zkProof, proof, salt.
  rewrite Hjwt, Hepoch, Hrandom, Hpsalt.
  repeat split; try assumption; reflexivity.
Qed.

(** X18.  Against the server of this repository, a login that returns leaves the
    backup mark set: when it was not set before, the backup route has
    accepted the subject and the salt, and the browser has set the mark.
    The browser and the server are assumed to decode the token alike, and
    the codec to read back the reply of the salt route and to read the
    reply of the backup route. *)
Theorem served_login_marks_backup
    (token : string) (b : Browser) (address : string) (decoded : JSON) :
  fst (completeZkLogin (Stack.served backend env) token b) = Returned (address, decoded) ->
  Server.jwt_decode token = jwtDecode token ->
  cache_sound cfg (Stack.userSalts backend) ->
  (forall userSub,
      field decoded "sub" = Some (JStr userSub) ->
      JSON_parse (JSON_stringify (JObj [("salt", JStr (dec (keyed_salt cfg userSub)))]))
      = inr (JObj [("salt", JStr (dec (keyed_salt cfg userSub)))])) ->
  (forall userSub,
      field decoded "sub" = Some (JStr userSub) ->
      exists result,
        JSON_parse
          (JSON_stringify
             (JObj [("success", JBool true);
                    ("message", JStr "Salt backup email would be sent");
                    ("userSub", JStr userSub);
                    ("timestamp", JStr (now_ISOString env))])) = inr result) ->
  let after := snd (completeZkLogin (Stack.served backend env) token b) in
  falsy_item (sessionStorage after !! SALT_BACKUP_SENT) = false
  /\ (falsy_item (sessionStorage b !! SALT_BACKUP_SENT) = true ->
      sessionStorage after !! SALT_BACKUP_SENT = Some "true").
Proof.
  intros Hreturned Hsame Hsound Hcodec Hreads. cbv zeta.
  pose proof (completeZkLogin_exchanged (Stack.served backend env) token b) as Hwp.
  unfold wp in Hwp. rewrite Hreturned in Hwp.
  destruct Hwp as (saltResponse & data & salt & extended & proofResponse & proof & Hwp).
  destruct Hwp as (Hdecoded & Hanswer & Hok & Hdata & Hsalt & _ & _ & _ & _ & _ & _ & _
                   & Hmark).
  destruct (served_salt_answer token saltResponse Hsound Hanswer Hok)
    as (decoded' & userSub & Hdecode & Hsub & Hnonempty & Haud & Htext).
  assert (decoded' = decoded) as -> by congruence.
  unfold json in Hdata. rewrite Htext, (Hcodec userSub Hsub) in Hdata.
  injection Hdata as <-. cbn in Hsalt. injection Hsalt as <-.
  unfold backup_marked in Hmark. cbv zeta in Hmark. rewrite Hsub in Hmark.
  assert (truthy (Some (JStr userSub)) = true) as Htruthy.
  { cbn [truthy]. apply negb_true_iff, String.eqb_neq, Hnonempty. }
  rewrite Htruthy, andb_true_r in Hmark.
  destruct (falsy_item (sessionStorage b !! SALT_BACKUP_SENT)) eqn:Hbefore;
    [|rewrite Hmark; split; [exact Hbefore|discriminate]].
  cbn [Stack.served fetch_response now_ISOString] in Hmark.
  destruct (Hreads userSub Hsub) as [result Hresult].
  assert (Routes.email_backup_route
            (Stack.backup_request (Some (JStr userSub))
               (if truthy (field decoded "email") then field decoded "email"
                else Some (JStr ""))
               (Some (JStr (dec (keyed_salt cfg userSub)))) (now_ISOString env))
          = Server.mkReply 200
              (JObj [("success", JBool true);
                     ("message", JStr "Salt backup email would be sent");
                     ("userSub", JStr userSub);
                     ("timestamp", JStr (now_ISOString env))])) as Hreply.
  { assert (String.eqb userSub "" = false) as Hne by (apply String.eqb_neq, Hnonempty).
    unfold Routes.email_backup_route, Stack.backup_request.
    destruct (truthy (field decoded "email")) eqn:Hemail.
    - destruct (field decoded "email") as [email|]; [|discriminate Hemail].
      cbn. rewrite Hne, RunFacts.dec_nonempty. reflexivity.
    - cbn. rewrite Hne, RunFacts.dec_nonempty. reflexivity. }
  rewrite Hreply in Hmark. unfold json, Deployment.response_of_reply in Hmark.
  cbn [ok text Server.reply_status Server.reply_body] in Hmark. cbn in Hmark.
  rewrite Hresult in Hmark. rewrite Hmark. split; [reflexivity|intros _; reflexivity].
Qed.

(** ** [prepareLogin] against the epoch route *)

(** X19.  When the full node answers with a system state, the bound that
    [prepareLogin] stores is the epoch of that state plus two: the epoch
    route hands the epoch through unchanged.  The codec is assumed to read
    back the reply of the epoch route. *)
Theorem served_prepareLogin_bound (vite : ViteEnv) (b : Browser) (state : JSON) :
  Stack.systemState backend = inr state ->
  state <> JNull ->
  JSON_parse (JSON_stringify (Server.reply_body (Routes.epoch_route (inr state))))
  = inr (Server.reply_body (Routes.epoch_route (inr state))) ->
  let maxEpoch := number_add (Number (field state "epoch")) 2 in
  let after := snd (prepareLogin vite (Stack.served backend env) b) in
  match generateNonce (getPublicKey (new_Ed25519Keypair env)) maxEpoch
          (generateRandomness env) with
  | inr nonce =>
      (exists url, fst (prepareLogin vite (Stack.served backend env) b) = Returned url
                   /\ search_param "nonce" (searchParams url) = Some nonce)
      /\ sessionStorage after !! MAX_EPOCH = Some (number_to_string maxEpoch)
      /\ sessionStorage after !! NONCE = Some nonce
  | inl e =>
      fst (prepareLogin vite (Stack.served backend env) b)
      = Thrown (Error ("Failed to prepare login: " ++ message_or "Unknown error" e))
  end.
Proof.
  intros Hstate Hobject Hcodec. cbv zeta.
  assert (Server.reply_status (Routes.epoch_route (inr state)) = 200) as Hstatus.
  { unfold Routes.epoch_route, prop. destruct state; try reflexivity. contradiction. }
  assert (prop (Server.reply_body (Routes.epoch_route (inr state))) "epoch"
          = inr (field state "epoch")) as Hprop.
  { unfold Routes.epoch_route, prop.
    destruct state; try contradiction; cbn [field Server.reply_body]; try reflexivity.
    destruct (lookup_field "epoch" fields);
      destruct (lookup_field "epochDurationMs" fields);
      destruct (lookup_field "epochStartTimestampMs" fields); reflexivity. }
  unfold prepareLogin. ClientFacts.run.
  cbn [Stack.served fetch_response new_Ed25519Keypair generateRandomness].
  rewrite Hstate. unfold json, Deployment.response_of_reply. cbn [ok text].
  rewrite Hstatus, Hcodec, Hprop. cbn [Z.leb Z.compare Pos.compare Pos.compare_cont andb negb].
  destruct (generateNonce _ _ _) as [e|nonce]; cbn [fst snd sessionStorage];
    [reflexivity|].
  split; [eexists; split; reflexivity|].
  rewrite !lookup_insert_ne by (intros ?; discriminate).
  rewrite !lookup_insert_eq. split; reflexivity.
Qed.

End Served.
End StackFacts.

Module SnarkFacts.
Import JS Snark.

Lemma hex_string_numeral d : forall acc,
  hex_string (HexadecimalString.NilEmpty.string_of_uint d) acc (hex_uint_value d acc).
Proof.
  induction d; intros acc; cbn [HexadecimalString.NilEmpty.string_of_uint hex_uint_value
                                 hex_string]; [reflexivity|..];
    (eexists; split; [split; [vm_compute; reflexivity|lia]|rewrite ?Z.add_0_r; apply IHd]).
Qed.

Lemma hex_uint_value_acc d : forall acc,
  hex_uint_value d (Z.pos acc) = Z.pos (Pos.of_hex_uint_acc d acc).
Proof.
  induction d; intros acc; cbn [hex_uint_value Pos.of_hex_uint_acc]; [reflexivity|..];
    rewrite <- IHd; f_equal; lia.
Qed.

Lemma hex_uint_value_of_uint d : hex_uint_value d 0 = Z.of_N (Pos.of_hex_uint d).
Proof.
  induction d; cbn [hex_uint_value Pos.of_hex_uint]; [reflexivity|exact IHd|..];
    cbn [Z.mul Z.add Z.of_N]; apply hex_uint_value_acc.
Qed.


Lemma hex_string_lower s : forall acc v,
  hex_string s acc v -> 0 <= acc -> acc * 16 ^ Z.of_nat (String.length s) <= v.
Proof.
  induction s as [|c s IH]; intros acc v Hs Hacc; cbn [hex_string String.length] in *.
  - subst v. cbn. lia.
  - destruct Hs as (d & [_ Hd] & Hs). apply IH in Hs; [|lia].
    rewrite Nat2Z.inj_succ, Z.pow_succ_r by lia. nia.
Qed.

Lemma hex_string_upper s : forall acc v,
  hex_string s acc v -> 0 <= acc -> v < (acc + 1) * 16 ^ Z.of_nat (String.length s).
Proof.
  induction s as [|c s IH]; intros acc v Hs Hacc; cbn [hex_string String.length] in *.
  - subst v. cbn. lia.
  - destruct Hs as (d & [_ Hd] & Hs). apply IH in Hs; [|lia].
    rewrite Nat2Z.inj_succ, Z.pow_succ_r by lia.
    assert (0 < 16 ^ Z.of_nat (String.length s)) by (apply Z.pow_pos_nonneg; lia). nia.
Qed.

(** The hexadecimal rendering of a positive number: digits of that value,
    the first of which is not zero. *)
Lemma to_hex_pos p :
  hex_string (to_hex (Z.pos p)) 0 (Z.pos p)
  /\ 16 ^ (Z.of_nat (String.length (to_hex (Z.pos p))) - 1) <= Z.pos p.
Proof.
  unfold to_hex. cbn [Z.to_hex_int HexadecimalString.NilZero.string_of_int].
  unfold HexadecimalString.NilZero.string_of_uint.
  pose proof (HexadecimalPos.Unsigned.of_to p) as Hvalue.
  pose proof (HexadecimalPos.Unsigned.to_of (Pos.to_hex_uint p)) as Hnorm.
  rewrite Hvalue in Hnorm. cbn [N.to_hex_uint] in Hnorm.
  assert (hex_uint_value (Pos.to_hex_uint p) 0 = Z.pos p) as Hread.
  { rewrite hex_uint_value_of_uint, Hvalue. reflexivity. }
  pose proof (hex_string_numeral (Pos.to_hex_uint p) 0) as Hs. rewrite Hread in Hs.
  destruct (Pos.to_hex_uint p) as [|d|d|d|d|d|d|d|d|d|d|d|d|d|d|d|d] eqn:Hd;
    [discriminate Hread| |split; [exact Hs|]..].
  { exfalso. rewrite HexadecimalFacts.unorm_D0 in Hnorm.
    assert (d = Hexadecimal.Nil \/ d <> Hexadecimal.Nil) as [->|Hnonnil]
      by (destruct d; (left; reflexivity) || (right; discriminate)).
    - exact (HexadecimalPos.Unsigned.to_uint_nonzero p Hd).
    - pose proof (HexadecimalFacts.nb_digits_unorm d Hnonnil) as Hdigits.
      rewrite <- Hnorm in Hdigits. cbn [Hexadecimal.nb_digits] in Hdigits. lia. }
  all: cbn [HexadecimalString.NilEmpty.string_of_uint hex_string String.length] in *.
  all: destruct Hs as (d0 & [Hd0 _] & Hs); vm_compute in Hd0; injection Hd0 as <-.
  all: apply hex_string_lower in Hs; [|lia].
  all: rewrite Nat2Z.inj_succ; replace (Z.succ _ - 1) with (Z.of_nat (String.length
         (HexadecimalString.NilEmpty.string_of_uint d))) by lia; lia.
Qed.

Lemma hex_string_zeros count s v :
  hex_string s 0 v -> hex_string (zeros count ++ s) 0 v.
Proof.
  intros Hs. induction count as [|count IH]; [exact Hs|].
  cbn [zeros String.append hex_string]. exists 0. split; [|exact IH].
  split; [reflexivity|lia].
Qed.

Lemma length_zeros count : String.length (zeros count) = count.
Proof. induction count as [|count IH]; [reflexivity|]. cbn. rewrite IH. reflexivity. Qed.

Lemma length_append (s t : string) :
  String.length (s ++ t) = (String.length s + String.length t)%nat.
Proof.
  induction s as [|c s IH]; [reflexivity|].
  change (String c s ++ t) with (String c (s ++ t)).
  cbn [String.length Nat.add]. rewrite IH. reflexivity.
Qed.

(** The padded rendering of a number below 2^256: sixty-four digits of
    that value. *)
Lemma padded_hex n :
  0 <= n < 2 ^ 256 ->
  String.length (padStart 64 (to_hex n)) = 64%nat
  /\ hex_string (padStart 64 (to_hex n)) 0 n.
Proof.
  intros [Hlow Hhigh]. unfold padStart.
  assert (hex_string (to_hex n) 0 n /\ (String.length (to_hex n) <= 64)%nat) as [Hs Hlen].
  { destruct n as [|p|p]; [split; [|cbn; lia]| |lia].
    - exists 0. split; [split; [reflexivity|lia]|reflexivity].
    - destruct (to_hex_pos p) as [Hs Hsize]. split; [exact Hs|].
      destruct (Nat.le_gt_cases (String.length (to_hex (Z.pos p))) 64) as [|Hlong];
        [assumption|exfalso].
      assert (16 ^ 64 <= 16 ^ (Z.of_nat (String.length (to_hex (Z.pos p))) - 1))
        by (apply Z.pow_le_mono_r; lia).
      change (16 ^ 64) with (2 ^ 256) in *. lia. }
  split; [|apply hex_string_zeros, Hs].
  rewrite length_append, length_zeros. lia.
Qed.

Lemma hex_char_plain c v :
  hex_char c v ->
  is_whitespace c = false /\ c <> "-"%char /\ c <> "+"%char
  /\ c <> "x"%char /\ c <> "X"%char.
Proof.
  intros [Hc _].
  destruct c as [[] [] [] [] [] [] [] []]; vm_compute in Hc; try discriminate Hc.
  all: repeat split; try reflexivity; discriminate.
Qed.

(** Two hexadecimal digits are read as one byte. *)
Lemma parseInt16_pair a b va vb :
  hex_char a va -> hex_char b vb ->
  parseInt16 (String a (String b EmptyString)) = Num (16 * va + vb).
Proof.
  intros Ha Hb.
  destruct (hex_char_plain a va Ha) as (Hspace & Hminus & Hplus & _).
  destruct (hex_char_plain b vb Hb) as (_ & _ & _ & Hx & HX).
  destruct Ha as [Ha Hva], Hb as [Hb Hvb].
  unfold parseInt16. cbn [trim_start]. rewrite Hspace.
  assert (digit_prefix 16 None (String a (String b EmptyString)) = Some (16 * va + vb))
    as Hdigits.
  { cbn [digit_prefix]. rewrite Ha, Hb.
    assert ((va <? 16) = true) as -> by (apply Z.ltb_lt; lia).
    assert ((vb <? 16) = true) as -> by (apply Z.ltb_lt; lia).
    cbn [default from_option id]. f_equal; lia. }
  destruct a as [[] [] [] [] [] [] [] []]; try contradiction;
    try (rewrite Hdigits; reflexivity).
  all: try (vm_compute in Ha; discriminate Ha).
  destruct b as [[] [] [] [] [] [] [] []]; try contradiction;
    try (rewrite Hdigits; reflexivity).
  all: vm_compute in Hb; discriminate Hb.
Qed.

Lemma bytes_from_skip rounds : forall i a b rest,
  bytes_from rounds (S (S i)) (String a (String b rest)) = bytes_from rounds i rest.
Proof.
  induction rounds as [|rounds IH]; intros i a b rest; [reflexivity|].
  cbn [bytes_from substring Nat.add]. rewrite IH. reflexivity.
Qed.

(** The loop reads a string of [2 * rounds] hexadecimal digits as
    [rounds] bytes of the same big-endian value. *)
Lemma bytes_from_hex rounds : forall s acc v,
  String.length s = (2 * rounds)%nat ->
  hex_string s acc v ->
  exists bytes,
    bytes_from rounds 0 s = List.map Num bytes
    /\ length bytes = rounds
    /\ Forall (fun b => 0 <= b < 256) bytes
    /\ fold_left (fun a b => 256 * a + b) bytes acc = v.
Proof.
  induction rounds as [|rounds IH]; intros s acc v Hlen Hs.
  - destruct s; [|discriminate Hlen]. exists []. cbn in *. repeat split; auto.
  - destruct s as [|a [|b rest]]; try (cbn in Hlen; lia).
    cbn [hex_string] in Hs. destruct Hs as (va & Ha & Hs).
    cbn [hex_string] in Hs. destruct Hs as (vb & Hb & Hs).
    destruct (IH rest (16 * (16 * acc + va) + vb) v) as (bytes & Hbytes & Hcount & Hrange & Hvalue).
    { cbn in Hlen. lia. }
    { exact Hs. }
    exists (16 * va + vb :: bytes).
    cbn [bytes_from Nat.add]. rewrite bytes_from_skip, Hbytes.
    assert (substring 0 2 (String a (String b rest)) = String a (String b EmptyString))
      as -> by (cbn; destruct rest; reflexivity).
    rewrite (parseInt16_pair a b va vb Ha Hb).
    destruct Ha as [_ Hva], Hb as [_ Hvb].
    repeat split.
    + cbn. rewrite Hcount. reflexivity.
    + constructor; [lia|exact Hrange].
    + cbn [fold_left]. rewrite <- Hvalue. f_equal. lia.
Qed.

(** X20.  [bigIntToBytes32] on a number below 2^256: thirty-two bytes whose
    big-endian value is the number. *)
Theorem bigIntToBytes32_round_trip (n : Z) :
  0 <= n < 2 ^ 256 ->
  exists bytes,
    bigIntToBytes32 n = List.map Num bytes
    /\ length bytes = 32%nat
    /\ Forall (fun b => 0 <= b < 256) bytes
    /\ be_integer bytes = n.
Proof.
  intros Hn. destruct (padded_hex n Hn) as [Hlen Hs].
  unfold bigIntToBytes32, be_integer. cbv zeta.
  apply (bytes_from_hex 32 _ 0 n); [rewrite Hlen; reflexivity|exact Hs].
Qed.

Lemma hex_string_app s1 : forall s2 acc v,
  hex_string (s1 ++ s2) acc v ->
  exists v1, hex_string s1 acc v1 /\ hex_string s2 v1 v.
Proof.
  induction s1 as [|c s1 IH]; intros s2 acc v Hs; [exists acc; split; [reflexivity|exact Hs]|].
  change (String c s1 ++ s2) with (String c (s1 ++ s2)) in Hs. cbn [hex_string] in *.
  destruct Hs as (d & Hd & Hs). destruct (IH _ _ _ Hs) as (v1 & H1 & H2).
  exists v1. split; [exists d; split; assumption|exact H2].
Qed.

Lemma split_at count : forall s,
  (count <= String.length s)%nat ->
  exists s1 s2, s = s1 ++ s2 /\ String.length s1 = count.
Proof.
  induction count as [|count IH]; intros s Hlen; [exists "", s; split; reflexivity|].
  destruct s as [|c s]; [cbn in Hlen; lia|].
  destruct (IH s) as (s1 & s2 & -> & Hcount); [cbn in Hlen; lia|].
  exists (String c s1), s2. split; [reflexivity|]. cbn. rewrite Hcount. reflexivity.
Qed.

(** The loop looks at the first [2 * rounds] characters only. *)
Lemma bytes_from_prefix rounds : forall s1 s2,
  String.length s1 = (2 * rounds)%nat ->
  bytes_from rounds 0 (s1 ++ s2) = bytes_from rounds 0 s1.
Proof.
  induction rounds as [|rounds IH]; intros s1 s2 Hlen; [reflexivity|].
  destruct s1 as [|a [|b rest]]; try (cbn in Hlen; lia).
  change (String a (String b rest) ++ s2) with (String a (String b (rest ++ s2))).
  cbn [bytes_from Nat.add]. rewrite !bytes_from_skip, IH by (cbn in Hlen; lia).
  f_equal. cbn [substring]. destruct rest, s2; reflexivity.
Qed.

(** X21.  [bigIntToBytes32] on a number of 2^256 or more: thirty-two bytes
    again, but of the leading sixty-four hexadecimal digits only; the
    digits after them are dropped, so the bytes are not the number. *)
Theorem bigIntToBytes32_truncates (n : Z) :
  2 ^ 256 <= n ->
  exists bytes dropped,
    bigIntToBytes32 n = List.map Num bytes
    /\ length bytes = 32%nat
    /\ Forall (fun b => 0 <= b < 256) bytes
    /\ 0 < dropped
    /\ be_integer bytes = n / 16 ^ dropped
    /\ be_integer bytes < n.
Proof.
  intros Hn. destruct n as [|p|p]; try lia.
  destruct (to_hex_pos p) as [Hs _].
  pose proof (hex_string_upper _ _ _ Hs ltac:(lia)) as Hupper.
  assert (64 < String.length (to_hex (Z.pos p)))%nat as Hlong.
  { destruct (Nat.le_gt_cases (String.length (to_hex (Z.pos p))) 64) as [Hshort|];
      [exfalso|assumption].
    assert (16 ^ Z.of_nat (String.length (to_hex (Z.pos p))) <= 16 ^ 64)
      by (apply Z.pow_le_mono_r; lia).
    change (16 ^ 64) with (2 ^ 256) in *. lia. }
  destruct (split_at 64 (to_hex (Z.pos p))) as (s1 & s2 & Hsplit & Hcount); [lia|].
  unfold bigIntToBytes32, padStart. cbv zeta.
  replace (64 - String.length (to_hex (Z.pos p)))%nat with 0%nat by lia.
  cbn [zeros]. change ("" ++ to_hex (Z.pos p)) with (to_hex (Z.pos p)).
  rewrite Hsplit in Hs, Hlong |- *. rewrite length_append in Hlong.
  destruct (hex_string_app _ _ _ _ Hs) as (v1 & H1 & H2).
  rewrite bytes_from_prefix by (rewrite Hcount; reflexivity).
  destruct (bytes_from_hex 32 s1 0 v1) as (bytes & Hbytes & Hlen & Hrange & Hvalue);
    [rewrite Hcount; reflexivity|exact H1|].
  pose proof (hex_string_lower _ _ _ H1 ltac:(lia)) as Hv1.
  pose proof (hex_string_lower _ _ _ H2 ltac:(lia)) as Hlow.
  pose proof (hex_string_upper _ _ _ H2 ltac:(lia)) as Hhigh.
  set (dropped := Z.of_nat (String.length s2)) in *.
  assert (0 < dropped) by (subst dropped; lia).
  assert (0 < 16 ^ dropped) by (apply Z.pow_pos_nonneg; lia).
  assert (16 <= 16 ^ dropped).
  { change 16 with (16 ^ 1) at 1. apply Z.pow_le_mono_r; lia. }
  assert (v1 = Z.pos p / 16 ^ dropped) as Hquotient.
  { apply Z.div_unique with (r := Z.pos p - v1 * 16 ^ dropped); lia. }
  exists bytes, dropped. unfold be_integer. rewrite Hvalue.
  repeat split; try assumption. nia.
Qed.

Lemma push_all_encodes values :
  Forall (fun v => 0 <= v < 2 ^ 256) values -> encodes (push_all values) values.
Proof.
  induction 1 as [|v values Hv _ IH]; [exists []; split; [reflexivity|constructor]|].
  destruct IH as (words & Hwords & Hall).
  destruct (padded_hex v Hv) as [Hlen Hs].
  destruct (bytes_from_hex 32 _ 0 v Hlen Hs) as (word & Hword & Hcount & Hrange & Hvalue).
  exists (word :: words). split; [|constructor; [repeat split; assumption|exact Hall]].
  unfold push_all in *. cbn [List.map concat]. rewrite map_app, <- Hwords.
  f_equal. exact Hword.
Qed.

Lemma BigInts_dec values : BigInts (List.map dec values) = inr values.
Proof.
  induction values as [|v values IH]; [reflexivity|].
  cbn [List.map BigInts]. rewrite JSFacts.BigInt_dec, IH. reflexivity.
Qed.

Lemma encodes_length bytes values :
  encodes bytes values -> length bytes = (32 * length values)%nat.
Proof.
  intros (words & -> & Hall). rewrite length_map.
  induction Hall as [|word v words values [Hlen _] _ IH]; [reflexivity|].
  cbn [concat length]. rewrite length_app, IH, Hlen. lia.
Qed.

(** X22.  The two formatters on decimal renderings of numbers below 2^256.
    [formatProofForSui] returns 256 bytes: the 32-byte big-endian words of
    the two coordinates of [pi_a], then those of [pi_b] with each pair
    swapped, then the two of [pi_c]; coordinates past the second are
    ignored.  [formatPublicInputsForSui] returns one such word for each
    signal, in order. *)
Theorem formatProofForSui_layout
    (a0 a1 b00 b01 b10 b11 c0 c1 : Z) (a_rest c_rest : list string)
    (b_rest : list (list string)) (signals : list Z) :
  Forall (fun v => 0 <= v < 2 ^ 256) [a0; a1; b01; b00; b11; b10; c0; c1] ->
  Forall (fun v => 0 <= v < 2 ^ 256) signals ->
  (exists bytes,
      formatProofForSui
        (mkProof (dec a0 :: dec a1 :: a_rest)
                 ([dec b00; dec b01] :: [dec b10; dec b11] :: b_rest)
                 (dec c0 :: dec c1 :: c_rest)) = inr bytes
      /\ encodes bytes [a0; a1; b01; b00; b11; b10; c0; c1]
      /\ length bytes = 256%nat)
  /\ (exists bytes,
        formatPublicInputsForSui (List.map dec signals) = inr bytes
        /\ encodes bytes signals
        /\ length bytes = (32 * length signals)%nat).
Proof.
  intros Hrange Hsignals. split.
  - unfold formatProofForSui.
    cbn [pi_a pi_b pi_c firstn BigInts BigInt_rows].
    rewrite !JSFacts.BigInt_dec.
    eexists. split; [reflexivity|].
    assert (forall xs ys, push_all (xs ++ ys) = (push_all xs ++ push_all ys)%list) as Happ.
    { intros xs ys. unfold push_all. rewrite map_app, concat_app. reflexivity. }
    cbn [List.map concat rev app]. rewrite app_nil_r, <- !Happ. cbn [app].
    pose proof (push_all_encodes _ Hrange) as Hencodes. split; [exact Hencodes|].
    apply (encodes_length _ _ Hencodes).
  - unfold formatPublicInputsForSui. rewrite BigInts_dec.
    eexists. split; [reflexivity|].
    pose proof (push_all_encodes _ Hsignals) as Hencodes. split; [exact Hencodes|].
    apply (encodes_length _ _ Hencodes).
Qed.

End SnarkFacts.

Module ComponentFacts.
Import JS Client Inv Run RunFacts Components.

Lemma wp_mono {A} (m : M A) (Q Q' : Outcome A -> Browser -> Prop) b :
  wp m Q b -> (forall o b', Q o b' -> Q' o b') -> wp m Q' b.
Proof. unfold wp. auto. Qed.

Section Components.
Context `{JsonCodec} `{ZkLoginSdk} (cfg : ViteEnv) (env : Env).

(** The stored address after a login: the returned one, or the one stored
    before when the login failed. *)
Lemma completeZkLogin_address (token : string) (b : Browser) :
  wp (completeZkLogin env token)
    (fun outcome after =>
       match outcome with
       | Returned login => sessionStorage after !! ZKLOGIN_ADDRESS = Some (fst login)
       | Thrown _ =>
           sessionStorage after !! ZKLOGIN_ADDRESS = sessionStorage b !! ZKLOGIN_ADDRESS
       end) b.
Proof.
  unfold completeZkLogin. wp_run.
  all: rewrite ?lookup_insert_ne by (intros ?; discriminate).
  all: try reflexivity.
  all: apply lookup_insert_eq.
Qed.

(** X23.  After the mount effect the component is not loading, and what it shows
    agrees with the session in one direction: when it shows a login, there
    is no error and the address shown is the stored address; when it shows
    none, it has not cleared the URL and the stored address is the one
    from before the effect, which may still be there: a callback that
    fails on top of an active session leaves the session active while the
    component shows the error. *)
Theorem mount_state (idToken : option string) (b : Browser) :
  wp (mount env idToken)
    (fun outcome after =>
       exists state cleared,
         outcome = Returned (state, cleared)
         /\ loading state = false
         /\ (cleared = true -> falsy_item idToken = false /\ isLoggedIn state = true)
         /\ if isLoggedIn state
            then error state = None
                 /\ is_Some (address state)
                 /\ sessionStorage after !! ZKLOGIN_ADDRESS = address state
            else address state = None
                 /\ cleared = false
                 /\ sessionStorage after !! ZKLOGIN_ADDRESS
                    = sessionStorage b !! ZKLOGIN_ADDRESS
                 /\ (error state = None ->
                     falsy_item idToken = true
                     /\ sessionStorage b !! ZKLOGIN_ADDRESS = None)) b.
Proof.
  unfold mount, isZkLoginSessionActive, getZkLoginAddress. wp_straight.
  destruct (sessionStorage b !! ZKLOGIN_ADDRESS) as [stored|] eqn:Hstored.
  - rewrite bool_decide_eq_true_2 by discriminate. wp_straight.
    destruct (falsy_item idToken) eqn:Htoken; wp_straight.
    + eexists _, _. split; [reflexivity|]. cbn. rewrite Hstored. eauto 10.
    + eapply wp_mono; [apply completeZkLogin_address|].
      intros [[address decoded]|e] after Hafter; wp_straight; cbn [fst] in *.
      * eexists _, _. split; [reflexivity|]. cbn. eauto 10.
      * eexists _, _. split; [reflexivity|]. cbn. rewrite Hafter, Hstored.
        repeat split; try discriminate.
  - rewrite bool_decide_eq_false_2 by (intros Hne; apply Hne; reflexivity). wp_straight.
    destruct (falsy_item idToken) eqn:Htoken; wp_straight.
    + eexists _, _. split; [reflexivity|]. cbn. rewrite Hstored.
      repeat split; try discriminate.
    + eapply wp_mono; [apply completeZkLogin_address|].
      intros [[address decoded]|e] after Hafter; wp_straight; cbn [fst] in *.
      * eexists _, _. split; [reflexivity|]. cbn. eauto 10.
      * eexists _, _. split; [reflexivity|]. cbn. rewrite Hafter, Hstored.
        repeat split; try discriminate.
Qed.

(** X24.  When a login has returned claims with a truthy subject which
    [JSON.parse] reads back, the logged-in view finds the recovery salt on
    the device: it is the salt of the session. *)
Theorem view_recovers_salt
    (token : string) (b : Browser) (login : string * JSON) :
  fst (completeZkLogin env token b) = Returned login ->
  JSON_parse (JSON_stringify (snd login)) = inr (snd login) ->
  String.eqb (JSON_stringify (snd login)) "" = false ->
  truthy (field (snd login) "sub") = true ->
  let after := snd (completeZkLogin env token b) in
  exists salt,
    recoveredSalt after = (Returned (Some salt), after)
    /\ sessionStorage after !! USER_SALT = Some salt.
Proof.
  destruct login as [address decoded]. cbn [snd].
  intros Hreturned Hread Htext Hsub. cbv zeta.
  pose proof (completeZkLogin_returned env token b) as Hwp. unfold wp in Hwp.
  rewrite Hreturned in Hwp.
  destruct Hwp as (key & maxEpoch & keypair & salt & response & proof & Hwp).
  destruct Hwp as (_ & _ & _ & _ & _ & _ & _ & _ & _ & _ & _ & _ & Hsalt & Hclaims & _
                   & Hdevice).
  exists (value_to_string salt). split; [|exact Hsalt].
  unfold recoveredSalt, ClientUtil.getDecodedJwt, recoverSaltFromStorage.
  ClientFacts.run. rewrite Hclaims. cbn [falsy_item from_option id].
  rewrite Htext, Hread, Hsub, Hdevice. reflexivity.
Qed.

End Components.

End ComponentFacts.

Module UserRegistryFacts.
Import Move UserRegistry.

Lemma deploy_ok ctx : chain_ok (deploy ctx).
Proof.
  split; [reflexivity|]. intros wallet data Hdata.
  cbn in Hdata. rewrite lookup_empty in Hdata. discriminate.
Qed.

Ltac unfold_calls :=
  unfold step, accepted, execute, with_registry, register_user, update_kyc_status,
    update_user_data, remove_user, transfer_admin, bind, assert_that.

Lemma chain_step_ok chain tx : chain_ok chain -> chain_ok (step chain tx).
Proof.
  intros [Howner Husers]. destruct tx as [call ctx]. unfold_calls. cbn [fst snd].
  destruct call; cbn [well_typed takes_capability negb orb andb];
    repeat case_match; simplify_eq; try (split; assumption).
  all: split; cbn [registry users admin capability_owner]; try assumption.
  all: try (intros wallet' data' Hdata'; cbn in Hdata';
            destruct (decide (wallet' = wallet)) as [->|Hne];
            [rewrite ?lookup_insert_eq, ?lookup_delete_eq in Hdata'; simplify_eq; cbn
            |rewrite ?lookup_insert_ne, ?lookup_delete_ne in Hdata' by congruence;
             eauto]).
  all: try match goal with
       | Hu : users _ !! ?w = Some ?d |- _ => destruct (Husers w d Hu) as [? ?]
       end.
  all: try (split; [congruence|unfold KYC_REJECTED, KYC_PENDING in *; lia]).
  all: try (split; [assumption|unfold KYC_REJECTED, KYC_PENDING in *; lia]).
  all: reflexivity.
Qed.

Lemma chain_run_ok txs : forall chain, chain_ok chain -> chain_ok (run chain txs).
Proof.
  induction txs as [|tx txs IH]; intros chain Hok; [exact Hok|].
  apply IH, chain_step_ok, Hok.
Qed.

(** X25.  On a registry deployed by [init], whatever transactions follow: every
    user record sits under its own wallet address, its status is pending,
    verified or rejected, and the address in the [admin] field of the
    registry is the owner of the capability, so that the functions that
    ask for the capability and the functions that compare the sender with
    [admin] answer to the same account. *)
Theorem registry_invariant (ctx : TxContext) (txs : list (Call * TxContext)) :
  let chain := run (deploy ctx) txs in
  capability_owner chain = admin (registry chain)
  /\ forall wallet data,
       users (registry chain) !! wallet = Some data ->
       wallet_address data = wallet
       /\ (kyc_status data = KYC_PENDING \/ kyc_status data = KYC_VERIFIED
           \/ kyc_status data = KYC_REJECTED).
Proof.
  cbv zeta. destruct (chain_run_ok txs (deploy ctx) (deploy_ok ctx)) as [Howner Husers].
  split; [exact Howner|]. intros wallet data Hdata.
  destruct (Husers wallet data Hdata) as [Hwallet Hstatus].
  split; [exact Hwallet|]. unfold KYC_PENDING, KYC_VERIFIED, KYC_REJECTED in *. lia.
Qed.

(** A step that makes a wallet verified is the admin's status update. *)
Lemma step_verifies chain tx wallet :
  chain_ok chain ->
  is_kyc_verified (registry chain) wallet = false ->
  is_kyc_verified (registry (step chain tx)) wallet = true ->
  fst tx = UpdateKycStatus wallet KYC_VERIFIED
  /\ sender (snd tx) = admin (registry chain).
Proof.
  intros [Howner Husers] Hbefore Hafter. destruct tx as [call ctx].
  unfold step in Hafter. cbn [fst snd] in *.
  destruct (accepted chain call ctx) eqn:Haccepted; [|congruence].
  destruct (execute chain call ctx) as [failure|chain'] eqn:Hexecute; [congruence|].
  unfold accepted in Haccepted. apply andb_prop in Haccepted as [Htyped Hsigned].
  unfold is_kyc_verified in Hbefore, Hafter.
  destruct call as [w c h|w s|w c h|w|a]; cbn [takes_capability negb orb] in Hsigned;
    unfold execute, with_registry, register_user, update_kyc_status, update_user_data,
      remove_user, transfer_admin, bind, assert_that in Hexecute;
    repeat match type of Hexecute with
           | context [match ?x with _ => _ end] =>
               lazymatch x with
               | context [match _ with _ => _ end] => fail
               | _ => destruct x eqn:?
               end
           end;
    simplify_eq; cbn [registry users] in Hafter.
  all: try congruence.
  all: destruct (decide (wallet = w)) as [->|Hne];
    [rewrite ?lookup_insert_eq, ?lookup_delete_eq in Hafter
    |rewrite ?lookup_insert_ne, ?lookup_delete_ne in Hafter by congruence; congruence].
  all: simplify_eq; cbn [kyc_status] in *; try congruence.
  all: repeat match goal with
         | Hu : users _ !! _ = _ |- _ => rewrite Hu in Hbefore; clear Hu
         end; try congruence.
  apply Z.eqb_eq in Hafter as ->. split; [reflexivity|].
  rewrite <- Howner. apply Z.eqb_eq, Hsigned.
Qed.

(** X26.  A wallet is verified only through the admin: when [is_kyc_verified]
    holds after a run of transactions on a freshly deployed registry, one
    of them was [update_kyc_status] for that wallet with the status
    verified, sent by the account that was the admin at that point. *)
Theorem verified_only_by_admin
    (ctx : TxContext) (txs : list (Call * TxContext)) (wallet : Z) :
  is_kyc_verified (registry (run (deploy ctx) txs)) wallet = true ->
  exists before tx after,
    txs = (before ++ tx :: after)%list
    /\ fst tx = UpdateKycStatus wallet KYC_VERIFIED
    /\ sender (snd tx) = admin (registry (run (deploy ctx) before))
    /\ sender (snd tx) = capability_owner (run (deploy ctx) before).
Proof.
  induction txs as [|tx txs IH] using rev_ind; [discriminate|].
  unfold run in *. rewrite fold_left_app. cbn [fold_left].
  fold (run (deploy ctx) txs).
  destruct (is_kyc_verified (registry (run (deploy ctx) txs)) wallet) eqn:Hbefore.
  - intros _. destruct (IH Hbefore) as (before & tx' & after & -> & Hcall & Hsender).
    exists before, tx', (after ++ [tx])%list.
    rewrite <- app_assoc. split; [reflexivity|]. split; assumption.
  - intros Hafter.
    pose proof (chain_run_ok txs (deploy ctx) (deploy_ok ctx)) as Hok.
    destruct (step_verifies _ tx wallet Hok Hbefore Hafter) as [Hcall Hsender].
    exists txs, tx, []. repeat split; try assumption.
    destruct Hok as [Howner _]. unfold run in Howner. rewrite Howner. exact Hsender.
Qed.

End UserRegistryFacts.

Module KycAuthFacts.
Import Move KycAuth.

Lemma le_integer_app data : forall more,
  le_integer (data ++ more) = le_integer data + 256 ^ Z.of_nat (length data) * le_integer more.
Proof.
  induction data as [|b data IH]; intros more.
  - cbn [app length le_integer]. change (256 ^ Z.of_nat 0) with 1. lia.
  - cbn [app length le_integer]. rewrite IH, Nat2Z.inj_succ, Z.pow_succ_r by lia. lia.
Qed.

Lemma u64_to_bytes_from_spec rounds : forall v result,
  0 <= v ->
  Forall (fun b => 0 <= b < 256) result ->
  length (u64_to_bytes_from rounds v result) = (length result + rounds)%nat
  /\ Forall (fun b => 0 <= b < 256) (u64_to_bytes_from rounds v result)
  /\ le_integer (u64_to_bytes_from rounds v result)
     = le_integer result
       + 256 ^ Z.of_nat (length result) * (v mod 256 ^ Z.of_nat rounds).
Proof.
  induction rounds as [|rounds IH]; intros v result Hv Hresult; cbn [u64_to_bytes_from].
  - repeat split; [lia|exact Hresult|]. change (256 ^ Z.of_nat 0) with 1.
    rewrite Z.mod_1_r. lia.
  - assert (Z.land v 255 = v mod 256) as Hland by (apply (Z.land_ones v 8); lia).
    assert (Z.shiftr v 8 = v / 256) as Hshift by (apply (Z.shiftr_div_pow2 v 8); lia).
    assert (0 <= v mod 256 < 256) as Hbyte by (apply Z.mod_pos_bound; lia).
    destruct (IH (Z.shiftr v 8) (result ++ [Z.land v 255])%list) as (Hlen & Hall & Hvalue).
    { rewrite Hshift. apply Z.div_pos; lia. }
    { apply Forall_app. split; [exact Hresult|]. rewrite Hland. repeat constructor; lia. }
    rewrite length_app in Hlen, Hvalue. cbn [length] in Hlen, Hvalue.
    repeat split; [lia|exact Hall|].
    rewrite Hvalue, le_integer_app. cbn [le_integer]. rewrite Hland, Hshift.
    replace (Z.of_nat (length result + 1)) with (Z.succ (Z.of_nat (length result))) by lia.
    rewrite Nat2Z.inj_succ, !Z.pow_succ_r by lia.
    assert (0 < 256 ^ Z.of_nat rounds) as Hpos by (apply Z.pow_pos_nonneg; lia).
    rewrite (Z.rem_mul_r v 256 (256 ^ Z.of_nat rounds)) by lia. lia.
Qed.

(** X27.  [u64_to_bytes] of a [u64]: eight bytes whose little-endian value is
    the number. *)
Theorem u64_to_bytes_round_trip (value : Z) :
  0 <= value <= U64_MAX ->
  length (u64_to_bytes value) = 8%nat
  /\ Forall (fun b => 0 <= b < 256) (u64_to_bytes value)
  /\ le_integer (u64_to_bytes value) = value.
Proof.
  intros [Hlow Hhigh]. unfold u64_to_bytes.
  destruct (u64_to_bytes_from_spec 8 value [] Hlow (Forall_nil_2 _)) as (Hlen & Hall & Hvalue).
  split; [exact Hlen|]. split; [exact Hall|].
  rewrite Hvalue. cbn [le_integer length]. change (256 ^ Z.of_nat 0) with 1.
  rewrite Z.mod_small; [lia|]. unfold U64_MAX in Hhigh.
  change (256 ^ Z.of_nat 8) with (2 ^ 64). lia.
Qed.

Section Natives.
Context `{Natives}.

Lemma init_ok ctx : registry_ok (snd (fst (init ctx))).
Proof.
  cbn [init fst snd]. split; [reflexivity|].
  split; intros ? ? Hlook; cbn in Hlook; rewrite lookup_empty in Hlook; discriminate.
Qed.

(** Replacing the identity of a registered user, and recording more
    commitments of registered users. *)
Lemma replace_ok registry user old identity proofs verified :
  registry_ok registry ->
  users registry !! user = Some old ->
  identity_ok user identity ->
  (forall commitment owner,
      proofs !! commitment = Some owner ->
      owner = user \/ zk_proofs registry !! commitment = Some owner) ->
  registry_ok (mkKYCRegistry (registry_id registry) (<[user := identity]> (users registry))
                 proofs (total_users registry) verified).
Proof.
  intros (Htotal & Husers & Hproofs) Hold Hidentity Hrecorded.
  split; [|split]; cbn [users zk_proofs total_users].
  - rewrite map_size_insert_Some by eauto. exact Htotal.
  - intros other found Hfound. destruct (decide (other = user)) as [->|Hne].
    + rewrite lookup_insert_eq in Hfound. simplify_eq. exact Hidentity.
    + rewrite lookup_insert_ne in Hfound by congruence. eauto.
  - intros commitment owner Hc. destruct (decide (owner = user)) as [->|Hne].
    + rewrite lookup_insert_eq. eauto.
    + rewrite lookup_insert_ne by congruence.
      destruct (Hrecorded _ _ Hc) as [->|Hc']; [contradiction|eauto].
Qed.

Ltac innermost_cases Hrun :=
  repeat match type of Hrun with
         | context [match ?x with _ => _ end] =>
             lazymatch x with
             | context [match _ with _ => _ end] => fail
             | _ => destruct x eqn:?
             end
         end.

Lemma register_user_ok registry digilocker aadhaar pan name dob clock ctx after events :
  registry_ok registry ->
  register_user registry digilocker aadhaar pan name dob clock ctx = inr (after, events) ->
  registry_ok after.
Proof.
  intros (Htotal & Husers & Hproofs) Hrun.
  unfold register_user, bind, assert_that, add_u64, utf8 in Hrun.
  innermost_cases Hrun; simplify_eq.
  match goal with Hb : bool_decide _ = true |- _ => apply bool_decide_eq_true in Hb; rename Hb into Hnew end.
  split; [|split]; cbn [users zk_proofs total_users].
  - rewrite map_size_insert_None by exact Hnew. lia.
  - intros other found Hfound. destruct (decide (other = sender ctx)) as [->|Hne].
    + rewrite lookup_insert_eq in Hfound. simplify_eq.
      repeat split; cbn; try lia. left. reflexivity.
    + rewrite lookup_insert_ne in Hfound by congruence. eauto.
  - intros commitment owner Hc. destruct (decide (owner = sender ctx)) as [->|Hne].
    + rewrite lookup_insert_eq. eauto.
    + rewrite lookup_insert_ne by congruence. eauto.
Qed.

Lemma submit_live_photo_ok registry photo metadata ctx after :
  registry_ok registry ->
  submit_live_photo registry photo metadata ctx = inr after ->
  registry_ok after.
Proof.
  intros Hok Hrun. pose proof Hok as (Htotal & Husers & Hproofs).
  unfold submit_live_photo, with_user, bind, assert_that in Hrun.
  innermost_cases Hrun; simplify_eq.
  match goal with Hu : users registry !! _ = Some ?u |- _ =>
    destruct (Husers _ _ Hu) as (Haddress & Hstatus & Hempty & Hphoto & Hexpiry);
    apply (replace_ok registry _ u); [exact Hok|exact Hu| |auto]
  end.
  assert (32 <= length (hash_data (photo ++ metadata)))%nat as Hlong.
  { unfold hash_data. rewrite length_app.
    match goal with Hl : (Z.of_nat (length photo) =? 32) = true |- _ =>
      apply Z.eqb_eq in Hl end. lia. }
  repeat split; cbn; try lia; try assumption; auto.
Qed.

Lemma complete_kyc_verification_ok cap registry user commitment level clock ctx
    after credential events :
  registry_ok registry ->
  complete_kyc_verification cap registry user commitment level clock ctx
  = inr (after, credential, events) ->
  registry_ok after.
Proof.
  intros Hok Hrun. pose proof Hok as (Htotal & Husers & Hproofs).
  unfold complete_kyc_verification, bind, assert_that, add_u64 in Hrun.
  destruct (users registry !! user) as [old|] eqn:Hold; [|discriminate].
  destruct (Husers _ _ Hold) as (Haddress & Hstatus & Hempty & Hphoto & Hexpiry).
  destruct (0 <? Z.of_nat (length (live_photo_hash old))) eqn:Hsubmitted; [|discriminate].
  destruct (clock + KYC_EXPIRY_MS <=? U64_MAX) eqn:Hfits; [|discriminate].
  destruct (verified_users registry + 1 <=? U64_MAX); [|discriminate].
  injection Hrun as <- _ _.
  apply (replace_ok registry user old); [exact Hok|exact Hold| |].
  - assert (32 <= length (live_photo_hash old))%nat as Hlong.
    { destruct Hempty as [Hnone|Hlong]; [|exact Hlong].
      rewrite Hnone in Hsubmitted. discriminate. }
    repeat split; cbn; try lia; try assumption; auto.
  - intros c owner Hc. destruct (zk_proofs registry !! commitment) eqn:Hseen; [auto|].
    destruct (decide (c = commitment)) as [->|Hne];
      [rewrite lookup_insert_eq in Hc; injection Hc as <-; auto
      |rewrite lookup_insert_ne in Hc by congruence; auto].
Qed.

Lemma revoke_kyc_ok cap registry user reason clock after events :
  registry_ok registry ->
  revoke_kyc cap registry user reason clock = inr (after, events) ->
  registry_ok after.
Proof.
  intros Hok Hrun. pose proof Hok as (Htotal & Husers & Hproofs).
  unfold revoke_kyc, bind, utf8 in Hrun.
  destruct (users registry !! user) as [old|] eqn:Hold; [|discriminate].
  destruct (Husers _ _ Hold) as (Haddress & Hstatus & Hempty & Hphoto & Hexpiry).
  destruct (internal_check_utf8 reason); [|discriminate].
  injection Hrun as <- _.
  apply (replace_ok registry user old); [exact Hok|exact Hold| |auto].
  repeat split; cbn; try lia; try assumption; intros [|]; discriminate.
Qed.

Lemma registry_step_ok registry tx : registry_ok registry -> registry_ok (step registry tx).
Proof.
  intros Hok. destruct tx as [[call clock] ctx]. unfold step.
  destruct call as [digilocker aadhaar pan name dob|photo metadata
                   |cap user commitment level|cap user reason].
  - destruct (register_user _ _ _ _ _ _ _ _) as [|[after events]] eqn:Hrun; [exact Hok|].
    eapply register_user_ok; eassumption.
  - destruct (submit_live_photo _ _ _ _) as [|after] eqn:Hrun; [exact Hok|].
    eapply submit_live_photo_ok; eassumption.
  - destruct (complete_kyc_verification _ _ _ _ _ _ _)
      as [|[[after credential] events]] eqn:Hrun; [exact Hok|].
    eapply complete_kyc_verification_ok; eassumption.
  - destruct (revoke_kyc _ _ _ _ _) as [|[after events]] eqn:Hrun; [exact Hok|].
    eapply revoke_kyc_ok; eassumption.
Qed.

(** X28.  On a registry created by [init], whatever transactions follow:
    [total_users] is the number of registered users; every identity sits
    under its own address with a status from 0 to 3; a user whose photo is
    submitted or whose KYC is verified has a photo hash of 32 bytes or
    more, and a verified one expires a year after its verification; every
    recorded commitment belongs to a registered user. *)
Theorem kyc_registry_invariant
    (ctx : TxContext) (txs : list (Call * Z * TxContext)) :
  let registry := run (snd (fst (init ctx))) txs in
  get_total_users registry = Z.of_nat (size (users registry))
  /\ (forall user identity,
        users registry !! user = Some identity ->
        user_address identity = user
        /\ 0 <= kyc_status identity <= 3
        /\ (kyc_status identity = 1 \/ kyc_status identity = 2 ->
            (32 <= length (live_photo_hash identity))%nat)
        /\ (kyc_status identity = 2 ->
            kyc_expiry identity = kyc_timestamp identity + KYC_EXPIRY_MS))
  /\ (forall commitment user,
        zk_proofs registry !! commitment = Some user ->
        is_Some (users registry !! user)).
Proof.
  cbv zeta.
  assert (forall registry, registry_ok registry -> registry_ok (run registry txs)) as Hrun.
  { induction txs as [|tx txs' IH]; intros registry Hok; [exact Hok|].
    apply IH, registry_step_ok, Hok. }
  destruct (Hrun _ (init_ok ctx)) as (Htotal & Husers & Hproofs).
  split; [exact Htotal|]. split; [|exact Hproofs].
  intros user identity Hfound.
  destruct (Husers _ _ Hfound) as (Haddress & Hstatus & _ & Hphoto & Hexpiry).
  repeat split; try assumption; lia.
Qed.

(** X29.  [zk_login] hands out a session only to the owner of a credential that
    is active and not expired, whose KYC is verified and not expired at
    the level the configuration asks for.  The session belongs to the
    sender and [verify_session] accepts it for exactly the next 24 hours.
    The proof and the public inputs play no part: any other proof gets the
    same session. *)
Theorem zk_login_granted
    (registry : KYCRegistry) (config : ZKVerifierConfig) (credential : ZKLoginCredential)
    (zk_proof public_inputs : list Z) (clock : Z) (ctx : TxContext)
    (session : UserSession) (owner : Z) (events : list Event) :
  zk_login registry config credential zk_proof public_inputs clock ctx
  = inr ((session, owner), events) ->
  credential_user credential = sender ctx
  /\ is_credential_valid credential clock = true
  /\ is_user_verified registry (sender ctx) clock = true
  /\ min_verification_level config <= get_verification_level registry (sender ctx)
  /\ owner = sender ctx
  /\ session_user session = sender ctx
  /\ (forall now, verify_session session now = true <-> now < clock + SESSION_VALIDITY_MS)
  /\ (forall other_proof other_inputs,
        zk_login registry config credential other_proof other_inputs clock ctx
        = inr ((session, owner), events)).
Proof.
  intros Hrun. pose proof Hrun as Hsame.
  unfold zk_login, bind, assert_that, add_u64, verify_zk_proof in Hrun.
  unfold is_credential_valid, is_user_verified, get_verification_level, verify_session.
  destruct (credential_user credential =? sender ctx) eqn:Howner; [|discriminate].
  destruct (is_active credential) eqn:Hactive; [|discriminate].
  destruct (clock <? credential_expires_at credential) eqn:Hfresh; [|discriminate].
  destruct (users registry !! sender ctx) as [user|] eqn:Huser; [|discriminate].
  destruct (kyc_status user =? 2) eqn:Hstatus; [|discriminate].
  destruct (clock <? kyc_expiry user) eqn:Hkyc; [|discriminate].
  destruct (min_verification_level config <=? verification_level user) eqn:Hlevel;
    [|discriminate].
  destruct (clock + SESSION_VALIDITY_MS <=? U64_MAX) eqn:Hfits; [|discriminate].
  injection Hrun as <- <- <-. cbn [session_user expires_at].
  repeat split; try reflexivity; try lia; try (apply Z.ltb_lt; assumption).
  intros other_proof other_inputs. rewrite <- Hsame. reflexivity.
Qed.

(** X30.  After [revoke_kyc] the user counts as unverified at every time, and a
    login of that user fails with [EKYCNotVerified] even with a credential
    that is active and not expired; the other users are as they were. *)
Theorem revoked_user_cannot_login
    (cap : AdminCap) (registry : KYCRegistry) (user : Z) (reason : list Z) (clock : Z)
    (after : KYCRegistry) (events : list Event) :
  revoke_kyc cap registry user reason clock = inr (after, events) ->
  get_kyc_status after user = 3
  /\ (forall now, is_user_verified after user now = false)
  /\ (forall config credential zk_proof public_inputs now ctx,
        sender ctx = user ->
        credential_user credential = user ->
        is_credential_valid credential now = true ->
        zk_login after config credential zk_proof public_inputs now ctx
        = inl (Abort EKYCNotVerified))
  /\ (forall other, other <> user -> users after !! other = users registry !! other).
Proof.
  intros Hrun. unfold revoke_kyc, bind, utf8 in Hrun.
  destruct (users registry !! user) as [old|] eqn:Hold; [|discriminate].
  destruct (internal_check_utf8 reason); [|discriminate].
  injection Hrun as <- _.
  unfold get_kyc_status, is_user_verified. cbn [users]. rewrite lookup_insert_eq.
  cbn [kyc_status]. repeat split.
  - intros config credential zk_proof public_inputs now ctx Hsender Howner Hvalid.
    unfold is_credential_valid in Hvalid. apply andb_prop in Hvalid as [Hactive Hfresh].
    unfold zk_login, bind, assert_that. cbn [users]. rewrite Hsender, Howner, Z.eqb_refl.
    rewrite Hactive, Hfresh, lookup_insert_eq. reflexivity.
  - intros other Hother. apply lookup_insert_ne. congruence.
Qed.

End Natives.

End KycAuthFacts.

Module RunWitness.
Import JS Client Inv Run Sample RunFacts.

Lemma login_stores_what_it_returns_witness :
  let run := completeZkLogin (world "5") alice_token pending_browser in
  fst run = Returned ("0xh.alice.s-123456789", alice_claims)
  /\ fst (recoverSaltFromStorage "user-42" (snd run)) = Returned (Some "123456789")
  /\ fst (getZkLoginAddress (snd run)) = Returned (Some "0xh.alice.s-123456789").
Proof.
  cbv zeta.
  destruct (login_stores_what_it_returns (world "5") alice_token pending_browser
              "0xh.alice.s-123456789" alice_claims)
    as (_ & (salt & _ & Hsalt & Hdevice) & _ & Haddress); [vm_compute; reflexivity|].
  split; [vm_compute; reflexivity|]. split; [|exact Haddress].
  assert (value_to_string salt = "123456789") as Hvalue.
  { assert (Some (value_to_string salt) = Some "123456789") as [= ->];
      [rewrite <- Hsalt; vm_compute|]; reflexivity. }
  rewrite (Hdevice "user-42") by reflexivity. rewrite Hvalue. reflexivity.
Defined.

Lemma login_then_sign_witness :
  let login := completeZkLogin (world "5") alice_token pending_browser in
  exists rest,
    calls (snd (executeZkLoginTransaction (world "5") transfer (snd login)))
    = (calls (snd login)
         ++ SignTransaction (setSender "0xh.alice.s-123456789" transfer)
              (Ed25519Keypair "k1") :: rest)%list.
Proof.
  cbv zeta.
  destruct (login_then_sign (world "5") alice_token pending_browser
              "0xh.alice.s-123456789" alice_claims transfer)
    as (key & keypair & Hkey & Hpair & rest & Hcalls);
    try (vm_compute; reflexivity).
  1,2: intros text Htext; vm_compute in Htext; injection Htext as <-;
       (split; [reflexivity|eexists; vm_compute; reflexivity]).
  1: intros text Htext; vm_compute in Htext; injection Htext as <-; reflexivity.
  assert (keypair = Ed25519Keypair "k1") as ->.
  { assert (Some key = Some "suiprivkey-k1") as [= ->];
      [rewrite <- Hkey; vm_compute; reflexivity|].
    vm_compute in Hpair. injection Hpair as <-. reflexivity. }
  exists rest. exact Hcalls.
Defined.

Lemma executeZkLoginTransaction_needs_session_witness :
  executeZkLoginTransaction (world "5") transfer pending_browser
  = (Thrown (Error "Failed to execute transaction: Missing zkLogin session data. Please login again."),
     pending_browser).
Proof.
  apply (executeZkLoginTransaction_needs_session (world "5") transfer pending_browser
           ZK_PROOF); [set_solver|vm_compute; reflexivity].
Defined.

Lemma prepared_binding_verifies_witness :
  let after := snd (prepareLogin client_config (world "5") empty_browser) in
  binding_stored after = true
  /\ nonce_verified after (Some (JStr the_nonce)) = true.
Proof.
  cbv zeta.
  eapply (prepared_binding_verifies client_config (world "5") empty_browser _ the_nonce
            (Ed25519Keypair "k1")); vm_compute; reflexivity.
Defined.

Lemma verified_login_requests_salt_witness :
  exists rest,
    calls (snd (completeZkLogin (world "5") alice_token pending_browser))
    = (calls pending_browser ++ FetchSalt alice_token :: rest)%list.
Proof.
  apply (verified_login_requests_salt (world "5") alice_token alice_fields pending_browser);
    vm_compute; reflexivity.
Defined.

Lemma backup_failure_is_swallowed_witness :
  let failing := fun _ : Call => @inl Exn Response (Error "Failed to fetch") in
  let run := completeZkLogin (Deployment.with_backup_response failing (world "5"))
               alice_token pending_browser in
  let backupRequest :=
    FetchSaltBackup (Some (JStr "user-42")) (Some (JStr "")) (Some (JStr "123456789"))
      "2024-01-01T00:00:00.000Z" in
  backup_failed (failing backupRequest) = true
  /\ fst run = Returned ("0xh.alice.s-123456789", alice_claims)
  /\ calls (snd run)
     = [FetchSalt alice_token; backupRequest;
        FetchZkProof alice_token "ext-k1" (Num 7) "r1" (Some (JStr "123456789"))]
  /\ sessionStorage (snd run) !! SALT_BACKUP_SENT = None
  /\ fst run
     = fst (completeZkLogin
              (Deployment.with_backup_response (fetch_response (world "5")) (world "5"))
              alice_token pending_browser).
Proof.
  cbv zeta.
  destruct (backup_failure_is_swallowed (world "5")
              (fun _ => inl (Error "Failed to fetch")) (fetch_response (world "5"))
              alice_token pending_browser)
    as [(Hsame & _) Hgoes].
  destruct (Hgoes alice_fields (ok_response (JObj [("salt", JStr "123456789")]))
              (JObj [("salt", JStr "123456789")]) (Some (JStr "123456789"))
              (Ed25519Keypair "k1") "0xh.alice.s-123456789" "ext-k1")
    as (Hcalls & Hflag & Hproved); [vm_compute; reflexivity..|].
  destruct (Hproved (ok_response the_proof) the_proof) as [Hreturned _];
    [vm_compute; reflexivity..|].
  split; [reflexivity|]. split; [exact Hreturned|].
  split; [exact Hcalls|]. split; [exact Hflag|exact Hsame].
Defined.

End RunWitness.

Module ClientUtilWitness.
Import JS Client ClientUtil Site ClientUtilFacts.

(** Three backups: one is left. *)
Lemma clearSaltBackups_leaves_half_witness :
  size (localStorage three_backups) = 3%nat
  /\ size (localStorage (snd (clearSaltBackups keys_in_order three_backups))) = 1%nat.
Proof.
  split; [vm_compute; reflexivity|].
  rewrite (clearSaltBackups_leaves_half keys_in_order three_backups).
  - vm_compute. reflexivity.
  - apply enumerates_map_to_list.
  - unfold three_backups. cbn [localStorage].
    repeat (apply map_Forall_insert_2; [reflexivity|]). apply map_Forall_empty.
Defined.

End ClientUtilWitness.

Module RouteWitness.
Import JS Server Inv Sample Site RouteFacts.

Lemma salt_route_grants_only_whitelisted_witness :
  exists token decoded userSub salt,
    field (Deployment.salt_request alice_list_token) "token" = Some (JStr token)
    /\ parts token = 3
    /\ jwt_decode token = inr decoded
    /\ field decoded "sub" = Some (JStr userSub)
    /\ userSub <> ""
    /\ first_if_array (field decoded "aud") = Some (JStr "client-a")
    /\ fst (salt_route server_config ∅ (Deployment.salt_request alice_list_token))
       = mkReply 200 (JObj [("salt", JStr salt)])
    /\ snd (salt_route server_config ∅ (Deployment.salt_request alice_list_token))
       !! userSub = Some salt.
Proof.
  apply (salt_route_grants_only_whitelisted server_config ∅
           (Deployment.salt_request alice_list_token)).
  vm_compute. reflexivity.
Defined.

End RouteWitness.

Module StackWitness.
Import JS Client Inv Run Sample Site StackFacts.

Lemma served_login_address_witness :
  let run :=
    completeZkLogin (H := Site.codec) (Stack.served (H := Site.codec) backend (world "5"))
      alice_token pending_browser in
  fst run = Returned (site_address, alice_claims)
  /\ sessionStorage (snd run) !! USER_SALT = Some alice_salt
  /\ localStorage (snd run) !! "zklogin_salt_user-42" = Some alice_salt.
Proof.
  cbv zeta.
  destruct (served_login_address (H := Site.codec) backend (world "5") alice_token
              pending_browser site_address alice_claims)
    as (userSub & Hsub & _ & _ & _ & Hsalt & _ & Hdevice).
  - vm_compute. reflexivity.
  - reflexivity.
  - apply ServerFacts.cache_sound_empty.
  - intros userSub [= <-]. vm_compute. reflexivity.
  - injection Hsub as <-. split; [vm_compute; reflexivity|].
    split; [exact Hsalt|exact Hdevice].
Defined.

Lemma served_login_proof_witness :
  let run :=
    completeZkLogin (H := Site.codec) (Stack.served (H := Site.codec) backend (world "5"))
      alice_token pending_browser in
  exists payload,
    Stack.prover backend (Server.ProverPost "https://prover-dev.mystenlabs.com/v1" payload)
    = inr (ok_response the_proof)
    /\ field payload "jwt" = Some (JStr alice_token)
    /\ field payload "maxEpoch" = Some (JNum 7)
    /\ field payload "keyClaimName" = Some (JStr "sub")
    /\ sessionStorage (snd run) !! ZK_PROOF = Some (render the_proof).
Proof.
  cbv zeta.
  destruct (served_login_proof (H := Site.codec) backend (world "5") alice_token
              pending_browser site_address alice_claims)
    as (payload & response & zkProof & proof & salt & Hprover & _ & _ & _ & _ & Hjwt
        & Hepoch & _ & _ & _ & Hname); [vm_compute; reflexivity|].
  exists payload. split; [reflexivity|]. split; [exact Hjwt|].
  split; [rewrite Hepoch; vm_compute; reflexivity|]. split; [exact Hname|].
  vm_compute. reflexivity.
Defined.

Lemma served_login_marks_backup_witness :
  let run :=
    completeZkLogin (H := Site.codec) (Stack.served (H := Site.codec) backend (world "5"))
      alice_token pending_browser in
  sessionStorage pending_browser !! SALT_BACKUP_SENT = None
  /\ sessionStorage (snd run) !! SALT_BACKUP_SENT = Some "true".
Proof.
  cbv zeta. split; [reflexivity|].
  apply (served_login_marks_backup (H := Site.codec) backend (world "5") alice_token
           pending_browser site_address alice_claims).
  - vm_compute. reflexivity.
  - reflexivity.
  - apply ServerFacts.cache_sound_empty.
  - intros userSub [= <-]. vm_compute. reflexivity.
  - intros userSub [= <-]. eexists. vm_compute. reflexivity.
  - reflexivity.
Defined.

Lemma served_prepareLogin_bound_witness :
  let run :=
    prepareLogin (H := Site.codec) client_config
      (Stack.served (H := Site.codec) backend (world "9")) empty_browser in
  field system_state "epoch" = Some (JStr "5")
  /\ sessionStorage (snd run) !! MAX_EPOCH = Some "7"
  /\ sessionStorage (snd run) !! NONCE = Some the_nonce.
Proof.
  cbv zeta. split; [reflexivity|].
  pose proof (served_prepareLogin_bound (H := Site.codec) backend (world "9")
                client_config empty_browser system_state) as Hbound.
  cbv zeta in Hbound.
  change (generateNonce (getPublicKey (new_Ed25519Keypair (world "9")))
            (number_add (Number (field system_state "epoch")) 2)
            (generateRandomness (world "9")))
    with (@inr Exn string the_nonce) in Hbound.
  destruct Hbound as (_ & Hepoch & Hnonce);
    [reflexivity|discriminate|vm_compute; reflexivity|].
  split; [exact Hepoch|exact Hnonce].
Defined.

End StackWitness.

Module SnarkWitness.
Import JS Snark Site SnarkFacts.

Lemma bigIntToBytes32_round_trip_witness :
  exists bytes,
    bigIntToBytes32 (2 ^ 255 + 258) = List.map Num bytes
    /\ length bytes = 32%nat
    /\ be_integer bytes = 2 ^ 255 + 258.
Proof.
  destruct (bigIntToBytes32_round_trip (2 ^ 255 + 258)) as (bytes & Hbytes & Hlen & _ & Hvalue);
    [split; [discriminate|reflexivity]|].
  exists bytes. repeat split; assumption.
Defined.

Lemma bigIntToBytes32_truncates_witness :
  exists bytes,
    bigIntToBytes32 (2 ^ 256 + 1) = List.map Num bytes
    /\ length bytes = 32%nat
    /\ be_integer bytes < 2 ^ 256 + 1.
Proof.
  destruct (bigIntToBytes32_truncates (2 ^ 256 + 1))
    as (bytes & dropped & Hbytes & Hlen & _ & _ & _ & Hless); [discriminate|].
  exists bytes. repeat split; assumption.
Defined.

Lemma formatProofForSui_layout_witness :
  (exists bytes,
      formatProofForSui small_proof = inr bytes
      /\ encodes bytes [1; 2; 4; 3; 6; 5; 7; 8]
      /\ length bytes = 256%nat)
  /\ (exists bytes,
        formatPublicInputsForSui ["300"; "4660"] = inr bytes
        /\ encodes bytes [300; 4660]
        /\ length bytes = 64%nat).
Proof.
  apply (formatProofForSui_layout 1 2 3 4 5 6 7 8 ["1"] ["1"] [["1"; "0"]] [300; 4660]);
    repeat constructor; discriminate.
Defined.

End SnarkWitness.

Module ComponentWitness.
Import JS Client Inv Run Sample Components ComponentFacts.

Lemma view_recovers_salt_witness :
  let after := snd (completeZkLogin (world "5") alice_token pending_browser) in
  recoveredSalt after = (Returned (Some "123456789"), after).
Proof.
  cbv zeta.
  destruct (view_recovers_salt (world "5") alice_token pending_browser
              ("0xh.alice.s-123456789", alice_claims))
    as (salt & Hview & Hsalt); [vm_compute; reflexivity..|].
  assert (Some salt = Some "123456789") as [= ->];
    [rewrite <- Hsalt; vm_compute; reflexivity|].
  exact Hview.
Defined.

End ComponentWitness.

Module LedgerWitness.
Import Move Ledger UserRegistryFacts KycAuthFacts.

(** The update sent by account 5 is not accepted; the one sent by the
    deployer verifies the wallet. *)
Lemma verified_only_by_admin_witness :
  UserRegistry.is_kyc_verified
    (UserRegistry.registry (UserRegistry.run (UserRegistry.deploy (from 1 10))
                              (firstn 2 registry_history))) 7 = false
  /\ exists before tx after,
       registry_history = (before ++ tx :: after)%list
       /\ fst tx = UserRegistry.UpdateKycStatus 7 UserRegistry.KYC_VERIFIED
       /\ sender (snd tx)
          = UserRegistry.admin
              (UserRegistry.registry (UserRegistry.run (UserRegistry.deploy (from 1 10)) before))
       /\ sender (snd tx)
          = UserRegistry.capability_owner
              (UserRegistry.run (UserRegistry.deploy (from 1 10)) before).
Proof.
  split; [vm_compute; reflexivity|].
  apply (verified_only_by_admin (from 1 10) registry_history 7).
  vm_compute. reflexivity.
Defined.

Lemma u64_to_bytes_round_trip_witness :
  KycAuth.u64_to_bytes 258 = [2; 1; 0; 0; 0; 0; 0; 0]
  /\ KycAuth.le_integer (KycAuth.u64_to_bytes 258) = 258.
Proof.
  split; [reflexivity|].
  apply (u64_to_bytes_round_trip 258). split; [discriminate|]. vm_compute. discriminate.
Defined.

Lemma zk_login_granted_witness :
  exists session events,
    KycAuth.zk_login (H := natives) kyc_registry kyc_config credential [1] [2] 3000 (from 7 24)
    = inr ((session, 7), events)
    /\ KycAuth.zk_login (H := natives) kyc_registry kyc_config credential [] [] 3000 (from 7 24)
       = inr ((session, 7), events)
    /\ KycAuth.verify_session session (3000 + 86399999) = true
    /\ KycAuth.verify_session session (3000 + 86400000) = false.
Proof.
  eexists _, _.
  split; [vm_compute; reflexivity|].
  eassert (KycAuth.zk_login (H := natives) kyc_registry kyc_config credential [1] [2] 3000
             (from 7 24) = inr ((_, 7), _)) as Hrun by (vm_compute; reflexivity).
  destruct (zk_login_granted _ _ _ _ _ _ _ _ _ _ Hrun) as (_ & _ & _ & _ & _ & _ & Hvalid & Hany).
  split; [apply Hany|]. split; [apply Hvalid; vm_compute; reflexivity|].
  vm_compute. reflexivity.
Defined.

Lemma revoked_user_cannot_login_witness :
  exists after events,
    KycAuth.revoke_kyc (H := natives) (KycAuth.mkAdminCap (fresh (from 1 20) 0)) kyc_registry 7
      [102] 4000 = inr (after, events)
    /\ KycAuth.zk_login (H := natives) kyc_registry kyc_config credential [1] [2] 5000
         (from 7 25) <> inl (Abort KycAuth.EKYCNotVerified)
    /\ KycAuth.zk_login (H := natives) after kyc_config credential [1] [2] 5000 (from 7 25)
       = inl (Abort KycAuth.EKYCNotVerified).
Proof.
  eassert (KycAuth.revoke_kyc (H := natives) (KycAuth.mkAdminCap (fresh (from 1 20) 0))
             kyc_registry 7 [102] 4000 = inr (_, _)) as Hrun by (vm_compute; reflexivity).
  destruct (revoked_user_cannot_login _ _ _ _ _ _ _ Hrun) as (_ & _ & Hlogin & _).
  eexists _, _. split; [exact Hrun|]. split; [vm_compute; discriminate|].
  apply Hlogin; vm_compute; reflexivity.
Defined.

End LedgerWitness.
